(** * Mayhem LLM SDK: the orchestration layer

    A shallow embedding of the TypeScript classes

    - [LLMConnector]   (sdk/llm-connector.ts),
    - [TradingAgent]   (trading-agent.ts, imported by the connector),
    - [MarketingAgent] (marketing-agent.ts),
    - [MayhemSDK]      (mayhem-sdk.ts),

    followed by the properties of the response parser, the provider
    dispatch, the two loop drivers and the blockchain facade.

    Conventions.  JavaScript values that reach the code unvalidated (LLM
    replies, RPC and HTTP payloads) are [Js.value]s; JavaScript numbers are
    IEEE binary64 floats.  Everything the sources obtain from outside the
    repository (JSON.parse, fetch, the Solana connection, Date.now, ...) is a
    field of [Runtime]; every property below holds for all runtimes.  The
    conversions of the language (template literals, [+], [*], [/], [>]) are
    modelled with the TypeError they throw on an object that cannot be
    converted to a primitive value.  An
    asynchronous method is a computation in the monad [M]: it reads the
    history of events so far, may change the [Store] and reports the events
    it produced.  One call of a method runs to completion; interleavings at
    [await] points are not represented. *)

From Stdlib Require Import Floats Uint63 ZArith String Ascii List Bool Arith Lia.
Import ListNotations.
Set Warnings "-inexact-float,-register-all".
Local Open Scope string_scope.

(** ** JavaScript values *)

Module Js.

Inductive value : Type :=
| Undefined
| Null
| Bool (b : bool)
| Number (n : float)
| Str (s : string)
| Array (xs : list value)
| Object (props : list (string * value)).

(** Own properties of a plain object, first match wins. *)
Fixpoint lookup (k : string) (props : list (string * value)) : option value :=
  match props with
  | [] => None
  | (k', v) :: rest => if String.eqb k k' then Some v else lookup k rest
  end.

Definition own (k : string) (props : list (string * value)) : value :=
  match lookup k props with
  | Some v => v
  | None => Undefined
  end.

(** ToBoolean: the truthiness used by [if], [!], [&&], [||] and [?:]. *)
Definition truthy_number (n : float) : bool :=
  negb (PrimFloat.is_zero n || PrimFloat.is_nan n).

Definition truthy_string (s : string) : bool :=
  negb (String.eqb s "").

Definition ToBoolean (v : value) : bool :=
  match v with
  | Undefined | Null => false
  | Bool b => b
  | Number n => truthy_number n
  | Str s => truthy_string s
  | Array _ | Object _ => true
  end.

(** [v === "literal"], as used by [switch] on string cases. *)
Definition is_string (v : value) (lit : string) : bool :=
  match v with
  | Str s => String.eqb s lit
  | _ => false
  end.

End Js.

(** ** Exceptions and results *)

Inductive Exn : Type :=
| Error (message : string)      (* [throw new Error(message)] in the sources *)
| TypeError (detail : string)   (* raised by the language itself *)
| SyntaxError                   (* raised by JSON.parse *)
| Rejected (reason : Js.value). (* rejection of an external promise *)

Inductive Res (A : Type) : Type :=
| Ok (a : A)
| Throw (e : Exn).
Arguments Ok {A} a.
Arguments Throw {A} e.

Definition is_ok {A} (r : Res A) : bool :=
  match r with Ok _ => true | Throw _ => false end.

(** Sequencing of steps that may throw. *)
Definition and_then {A B} (r : Res A) (k : A -> Res B) : Res B :=
  match r with
  | Ok a => k a
  | Throw e => Throw e
  end.

Notation "'let*' x ':=' r 'in' k" := (and_then r (fun x => k))
  (at level 10, x name, r at level 100, k at level 200).

(** [xs.map(f)] for an [f] that may throw: the first failure ends the loop. *)
Definition traverse {A B} (f : A -> Res B) : list A -> Res (list B) :=
  fix go (xs : list A) : Res (list B) :=
    match xs with
    | [] => Ok []
    | x :: rest =>
        let* y := f x in
        let* ys := go rest in
        Ok (y :: ys)
    end.

(** The TypeError of a conversion to a primitive value that finds neither a
    callable [toString] nor a [valueOf] returning a primitive. *)
Definition cannot_convert : Exn := TypeError "Cannot convert object to primitive value".

(** ** Data model *)

(** [LLMConfig] of llm-connector.ts.  The TypeScript union type of [provider]
    is erased at run time, so the field is an arbitrary string. *)
Record LLMConfig := {
  provider : string;
  apiKey : option string;
  model : option string;
  baseUrl : option string;
  systemPrompt : option string }.

(** [LLMResponse]: the decision record.  The parser copies the fields of the
    decoded reply without validation, so each field is a [Js.value]; an
    absent field is [Js.Undefined]. *)
Record LLMResponse := {
  action : Js.value;
  amount : Js.value;
  reasoning : Js.value;
  confidence : Js.value }.

Record Message := { role : string; content : Js.value }.

Record LLMConnector := {
  llm_config : LLMConfig;
  conversationHistory : list Message }.

Record PublicKey := { base58 : string }.
Record Keypair := { secretKey : string }.

Inductive Side := buy | sell.

Record TradeParams := {
  tp_tokenMint : PublicKey;
  tp_amount : Js.value;
  tp_side : Side;
  tp_slippage : option float }.

Record BuybackParams := {
  bp_tokenMint : PublicKey;
  solAmount : float;
  bp_burnPercentage : float }.

Record TokenInfo := {
  ti_mint : PublicKey;
  ti_name : string;
  ti_symbol : string;
  decimals : Js.value;
  supply : Js.value }.

(** The fields the constructor of [MayhemSDK] sets; no method changes them. *)
Record MayhemSDK := {
  connection : string;
  wallet : option Keypair;
  mayhemProgram : PublicKey;
  controllerProgram : option PublicKey }.

Inductive Strategy := dca | momentum | arbitrage | market_making.

Record TradingConfig := {
  tokenMint : string;
  strategy : Strategy;
  maxRisk : float;
  stopLoss : option float;
  takeProfit : option float }.

Record BuybackConfig := {
  enabled : bool;
  triggerPrice : option float;
  burnPercentage : float;
  lpPercentage : option float }.

Record Tx := { tx_type : Js.value; tx_amount : Js.value; tx_price : Js.value }.

(** The snapshot built by [TradingAgent.getMarketData]. *)
Record MarketData := {
  symbol : string;
  price : float;
  volume24h : float;
  priceChange24h : float;
  marketCap : float;
  holders : float;
  recentTxs : option (list Tx) }.

Record TradingAgent := {
  sdk : MayhemSDK;
  isRunning : bool;
  config : option TradingConfig;
  buybackConfig : option BuybackConfig;
  checkInterval : option nat }.

Record MarketingConfig := {
  totalBudget : float;
  platforms : list string;
  minROI : float;
  rebalanceInterval : float }.

(** [PlatformMetrics] as computed by [calculateMetrics]: every field is
    whatever the metrics endpoint delivered. *)
Record PlatformMetrics := {
  pm_platform : Js.value;
  engagement : Js.value;
  reach : Js.value;
  activeUsers : Js.value;
  growthRate : Js.value;
  avgResponseTime : Js.value;
  costPerEngagement : Js.value }.

Record Metrics := {
  twitter : PlatformMetrics;
  discord : PlatformMetrics;
  telegram : PlatformMetrics }.

Record MarketingInput := {
  budget : float;
  mi_twitter : PlatformMetrics;
  mi_discord : PlatformMetrics;
  mi_telegram : PlatformMetrics }.

Record MarketingAgent := {
  apiUrl : string;
  m_isRunning : bool;
  m_config : option MarketingConfig;
  monitorInterval : option nat }.

(** ** Events *)

(** The instructions of the on-chain programs that the comments of
    mayhem-sdk.ts name.  The sources build every transaction with
    [new Transaction()] and add none of them. *)
Inductive Instruction :=
| MayhemBuy | MayhemSell | ControllerBurn | ControllerAddLiquidity | ControllerCollectFees.

Definition Transaction := list Instruction.

Inductive RpcRequest :=
| GetParsedAccountInfo (mint : PublicKey)
| GetSignaturesForAddress (address : PublicKey) (limit : nat)
| SendTransaction (tx : Transaction) (signers : list (option Keypair))
| ConfirmTransaction (signature : string).

Record FetchInit := {
  method : string;
  headers : list (string * string);
  body : Js.value }.

(** Entry into a method of [MayhemSDK]. *)
Inductive SdkCall :=
| CallGetTokenInfo (mintAddress : string)
| CallGetTokenPrice (mint : PublicKey)
| CallGetVolume24h (mint : PublicKey)
| CallTrade (params : TradeParams)
| CallBuybackAndBurn (params : BuybackParams)
| CallAddLiquidityFromFees (mint : PublicKey) (feeAmount : Js.value)
| CallCollectFees.

(** What the sources print with [console.log]. *)
Inductive LogMsg :=
| LogTrade (side : Side) (amt : Js.value)
| LogTradeExecuted (signature : string)
| LogBuyback (sol : float) (pct : float)
| LogBurnIntent (pct : float)
| LogAddingToLP (feeAmount : Js.value)
| LogCollectingFees
| LogStartTrading (s : Strategy) (mint : string)
| LogTradingStopped
| LogBuybackEnabled (pct : float)
| LogDecision (act conf : Js.value)
| LogReasoning (r : Js.value)
| LogLowConfidence
| LogHolding
| LogBuying (amt : Js.value)
| LogSelling (amt : Js.value)
| LogBurning (amt : Js.value)
| LogBuybackTriggered
| LogStartMarketing (total : float)
| LogMarketingStopped
| LogMarketingStrategy (r : Js.value)
| LogAllocating (amt platform : Js.value)
| LogAllocationStrategy (s : Js.value)
| LogExpectedROI (roi : Js.value).

Inductive Driver := Trading | Marketing.

(** The callbacks handed to [setInterval]. *)
Inductive Callback := CbAnalyzeAndTrade | CbAnalyzeAndAllocate.

Inductive Event :=
| ConsoleLog (m : LogMsg)
| ConsoleError (d : Driver) (e : Exn)
| Fetch (url : string) (init : option FetchInit)
| Rpc (r : RpcRequest)
| Call (c : SdkCall)
| SetInterval (handle : nat) (cb : Callback) (ms : float)
| ClearInterval (handle : nat).

Definition History := list Event.

(** ** The runtime: what the sources use but do not define *)

(** What [fetch] resolves to; [json] is the outcome of [response.json()]. *)
Record Response := { json : Res Js.value }.

Record Runtime := {
  JSON_parse : string -> option Js.value;       (* [None]: throws SyntaxError *)
  JSON_stringify : Js.value -> Js.value;        (* a string, or undefined *)
  NumberToString : float -> string;
  StringToNumber : string -> float;
  StringIterator : string -> list string;       (* [for (const c of text)] *)
  StringIndex : string -> nat -> Js.value;      (* [text[i]] *)
  PublicKey_valid : string -> bool;             (* does [new PublicKey(s)] return *)
  PublicKey_error : string -> Exn;              (* what it throws when it does not *)
  Date_now : History -> float;
  fetch : History -> string -> option FetchInit -> Res Response;
  getParsedAccountInfo : History -> PublicKey -> Res Js.value;
  getSignaturesForAddress : History -> PublicKey -> nat -> Res (list Js.value);
  sendTransaction : History -> Transaction -> list (option Keypair) -> Res string;
  confirmTransaction : History -> string -> Res unit }.

(** ** The store and the monad of methods *)

Record Store := {
  llm : LLMConnector;
  trading : TradingAgent;
  marketing : MarketingAgent;
  intervals : list (nat * Callback * float);   (* the active timers *)
  next_handle : nat }.

Definition Out (A : Type) : Type := Res A * Store * list Event.

Definition res {A} (o : Out A) : Res A := fst (fst o).
Definition store {A} (o : Out A) : Store := snd (fst o).
Definition evs {A} (o : Out A) : list Event := snd o.

Definition M (A : Type) : Type := History -> Store -> Out A.

Definition ret {A} (a : A) : M A := fun _ s => (Ok a, s, []).

Definition throw {A} (e : Exn) : M A := fun _ s => (Throw e, s, []).

Definition bind {A B} (m : M A) (f : A -> M B) : M B :=
  fun h s =>
    match m h s with
    | (Ok a, s1, e1) =>
        match f a (h ++ e1)%list s1 with
        | (r, s2, e2) => (r, s2, (e1 ++ e2)%list)
        end
    | (Throw e, s1, e1) => (Throw e, s1, e1)
    end.

(** [try { m } catch (error) { handler error }] *)
Definition try_catch {A} (m : M A) (handler : Exn -> M A) : M A :=
  fun h s =>
    match m h s with
    | (Ok a, s1, e1) => (Ok a, s1, e1)
    | (Throw e, s1, e1) =>
        match handler e (h ++ e1)%list s1 with
        | (r, s2, e2) => (r, s2, (e1 ++ e2)%list)
        end
    end.

Declare Scope m_scope.
Delimit Scope m_scope with M.
Notation "x <- m ;; k" := (bind m (fun x => k))
  (at level 61, m at next level, right associativity) : m_scope.
Notation "m ;; k" := (bind m (fun _ => k))
  (at level 61, right associativity) : m_scope.
Local Open Scope m_scope.

Definition lift {A} (r : Res A) : M A := fun _ s => (r, s, []).

Definition emit (e : Event) : M unit := fun _ s => (Ok tt, s, [e]).

Definition console_log (m : LogMsg) : M unit := emit (ConsoleLog m).

Definition console_error (d : Driver) (e : Exn) : M unit := emit (ConsoleError d e).

(** A request to the outside world: recorded, then answered from the history. *)
Definition request {A} (e : Event) (answer : History -> Res A) : M A :=
  fun h s => (answer h, s, [e]).

Definition get_store : M Store := fun _ s => (Ok s, s, []).

Definition get_history : M History := fun h s => (Ok h, s, []).

Definition modify (f : Store -> Store) : M unit := fun _ s => (Ok tt, f s, []).

Definition when (b : bool) (m : M unit) : M unit := if b then m else ret tt.

Fixpoint for_of {A} (xs : list A) (f : A -> M unit) : M unit :=
  match xs with
  | [] => ret tt
  | x :: rest => f x ;; for_of rest f
  end.

Definition set_llm (c : LLMConnector) (s : Store) : Store :=
  {| llm := c; trading := trading s; marketing := marketing s;
     intervals := intervals s; next_handle := next_handle s |}.

Definition set_trading (a : TradingAgent) (s : Store) : Store :=
  {| llm := llm s; trading := a; marketing := marketing s;
     intervals := intervals s; next_handle := next_handle s |}.

Definition set_marketing (a : MarketingAgent) (s : Store) : Store :=
  {| llm := llm s; trading := trading s; marketing := a;
     intervals := intervals s; next_handle := next_handle s |}.

(** The largest delay of a timer, 2^31 - 1 ms. *)
Definition TIMEOUT_MAX : float := 2147483647%float.

(** The period a timer gets: a delay that is not between 1 and [TIMEOUT_MAX]
    (NaN included) is replaced by 1 ms. *)
Definition timeout_ms (ms : float) : float :=
  if PrimFloat.leb 1%float ms && PrimFloat.leb ms TIMEOUT_MAX then ms else 1%float.

(** [setInterval(cb, ms)]: registers a timer and returns its handle.  The
    event records the call, the store the period the timer runs with. *)
Definition setInterval (cb : Callback) (ms : float) : M nat :=
  fun _ s =>
    let id := next_handle s in
    (Ok id,
     {| llm := llm s; trading := trading s; marketing := marketing s;
        intervals := (intervals s ++ [(id, cb, timeout_ms ms)])%list; next_handle := S id |},
     [SetInterval id cb ms]).

Definition clearInterval (id : nat) : M unit :=
  fun _ s =>
    (Ok tt,
     {| llm := llm s; trading := trading s; marketing := marketing s;
        intervals := filter (fun t => negb (Nat.eqb (fst (fst t)) id)) (intervals s);
        next_handle := next_handle s |},
     [ClearInterval id]).

(** ** The program *)

Section Program.

Context (rt : Runtime).

(** *** Coercions and operators of the language *)

Definition join (sep : string) (parts : list string) : string := String.concat sep parts.

(** ToString.  The objects that reach the code are decoded JSON: none of
    their properties is callable.  One that has an own [toString] therefore
    hides [Object.prototype.toString], and its conversion throws; the others
    print as [object Object].  An array joins the conversions of its
    elements, undefined and null printing as the empty string. *)
Fixpoint ToString (v : Js.value) : Res string :=
  match v with
  | Js.Undefined => Ok "undefined"
  | Js.Null => Ok "null"
  | Js.Bool b => Ok (if b then "true" else "false")
  | Js.Number n => Ok (NumberToString rt n)
  | Js.Str s => Ok s
  | Js.Array xs =>
      let* parts := traverse (fun x => match x with
                                       | Js.Undefined | Js.Null => Ok ""
                                       | _ => ToString x
                                       end) xs in
      Ok (join "," parts)
  | Js.Object props =>
      match Js.lookup "toString" props with
      | Some _ => Throw cannot_convert
      | None => Ok "[object Object]"
      end
  end.

(** ToNumber: an object or array is converted to its string first. *)
Definition ToNumber (v : Js.value) : Res float :=
  match v with
  | Js.Undefined => Ok PrimFloat.nan
  | Js.Null => Ok 0%float
  | Js.Bool b => Ok (if b then 1%float else 0%float)
  | Js.Number n => Ok n
  | Js.Str s => Ok (StringToNumber rt s)
  | Js.Array _ | Js.Object _ =>
      let* text := ToString v in
      Ok (StringToNumber rt text)
  end.

(** [v > x] against a number [x]: the comparison is numeric. *)
Definition gt (v : Js.value) (x : float) : Res bool :=
  let* n := ToNumber v in
  Ok (PrimFloat.ltb x n).

Definition lt_num (a b : float) : bool := PrimFloat.ltb a b.

Definition gt_num (a b : float) : bool := PrimFloat.ltb b a.

(** Is the primitive value of [v] a string (objects and arrays convert to
    one)? *)
Definition converts_to_string (v : Js.value) : bool :=
  match v with
  | Js.Str _ | Js.Array _ | Js.Object _ => true
  | _ => false
  end.

(** [a + b]: concatenation as soon as one side converts to a string.  The
    left operand is converted first. *)
Definition add (a b : Js.value) : Res Js.value :=
  if converts_to_string a || converts_to_string b
  then let* sa := ToString a in
       let* sb := ToString b in
       Ok (Js.Str (sa ++ sb))
  else let* na := ToNumber a in
       let* nb := ToNumber b in
       Ok (Js.Number (na + nb)%float).

Definition div (a b : Js.value) : Res Js.value :=
  let* na := ToNumber a in
  let* nb := ToNumber b in
  Ok (Js.Number (na / nb)%float).

Definition mul (a b : Js.value) : Res Js.value :=
  let* na := ToNumber a in
  let* nb := ToNumber b in
  Ok (Js.Number (na * nb)%float).

(** [v.k] for a key [k] that no built-in prototype defines (all keys read by
    the sources are such): a TypeError on undefined and null, the own
    property of an object, undefined otherwise. *)
Definition get (v : Js.value) (k : string) : Res Js.value :=
  match v with
  | Js.Undefined | Js.Null => Throw (TypeError k)
  | Js.Object props => Ok (Js.own k props)
  | _ => Ok Js.Undefined
  end.

(** [v[0]] *)
Definition first (v : Js.value) : Res Js.value :=
  match v with
  | Js.Undefined | Js.Null => Throw (TypeError "0")
  | Js.Array xs => Ok (hd Js.Undefined xs)
  | Js.Str s => Ok (StringIndex rt s 0)
  | Js.Object props => Ok (Js.own "0" props)
  | _ => Ok Js.Undefined
  end.

(** The values visited by [for (const x of v)]. *)
Definition iterate (v : Js.value) : Res (list Js.value) :=
  match v with
  | Js.Array xs => Ok xs
  | Js.Str s => Ok (map Js.Str (StringIterator rt s))
  | _ => Throw (TypeError "not iterable")
  end.

(** [o || d] on an optional string. *)
Definition or_default (o : option string) (d : string) : string :=
  match o with
  | Some s => if Js.truthy_string s then s else d
  | None => d
  end.

(** An optional string inside a template literal or a header. *)
Definition text_of (o : option string) : string :=
  match o with
  | Some s => s
  | None => "undefined"
  end.

Definition value_of (o : option string) : Js.value :=
  match o with
  | Some s => Js.Str s
  | None => Js.Undefined
  end.

Definition nl : string := String (ascii_of_nat 10) EmptyString.

Definition dq : string := String (ascii_of_nat 34) EmptyString.

Definition quoted (s : string) : string := dq ++ s ++ dq.

Definition lines (ls : list string) : string := join nl ls.

Definition float_of_nat (n : nat) : float := PrimFloat.of_uint63 (Uint63.of_Z (Z.of_nat n)).

(** [new PublicKey(s)] *)
Definition new_PublicKey (s : string) : Res PublicKey :=
  if PublicKey_valid rt s then Ok {| base58 := s |} else Throw (PublicKey_error rt s).

Definition http (url : string) (init : option FetchInit) : M Response :=
  request (Fetch url init) (fun h => fetch rt h url init).

Definition rpc {A} (r : RpcRequest) (answer : History -> Res A) : M A :=
  request (Rpc r) answer.

(** A substitution [${v}] of a template literal. *)
Definition interpolate (v : Js.value) : M string := lift (ToString v).

(** *** MayhemSDK (mayhem-sdk.ts) *)

Definition getTokenInfo (this : MayhemSDK) (mintAddress : string) : M TokenInfo :=
  emit (Call (CallGetTokenInfo mintAddress)) ;;
  mint <- lift (new_PublicKey mintAddress) ;;
  mintInfo <- rpc (GetParsedAccountInfo mint) (fun h => getParsedAccountInfo rt h mint) ;;
  value <- lift (get mintInfo "value") ;;
  if negb (Js.ToBoolean value) then throw (Error "Token not found") else
  data <- lift (get value "data") ;;
  parsed <- lift (get data "parsed") ;;
  info <- lift (get parsed "info") ;;
  dec <- lift (get info "decimals") ;;
  sup <- lift (get info "supply") ;;
  ret {| ti_mint := mint; ti_name := "Token Name"; ti_symbol := "TKN";
         decimals := dec; supply := sup |}.

Definition trade (this : MayhemSDK) (params : TradeParams) : M string :=
  emit (Call (CallTrade params)) ;;
  match wallet this with
  | None => throw (Error "Wallet not initialized")
  | Some w =>
      interpolate (tp_amount params) ;;
      console_log (LogTrade (tp_side params) (tp_amount params)) ;;
      let transaction : Transaction := [] in
      signature <- rpc (SendTransaction transaction [Some w])
                       (fun h => sendTransaction rt h transaction [Some w]) ;;
      rpc (ConfirmTransaction signature) (fun h => confirmTransaction rt h signature) ;;
      console_log (LogTradeExecuted signature) ;;
      ret signature
  end.

Definition buybackAndBurn (this : MayhemSDK) (params : BuybackParams) : M string :=
  emit (Call (CallBuybackAndBurn params)) ;;
  match wallet this with
  | None => throw (Error "Wallet not initialized")
  | Some _ =>
      match controllerProgram this with
      | None => throw (Error "Controller program not configured")
      | Some _ =>
          console_log (LogBuyback (solAmount params) (bp_burnPercentage params)) ;;
          buySignature <- trade this {| tp_tokenMint := bp_tokenMint params;
                                        tp_amount := Js.Number (solAmount params);
                                        tp_side := buy;
                                        tp_slippage := None |} ;;
          when (gt_num (bp_burnPercentage params) 0%float)
               (console_log (LogBurnIntent (bp_burnPercentage params))) ;;
          ret buySignature
      end
  end.

Definition addLiquidityFromFees (this : MayhemSDK) (mint : PublicKey) (feeAmount : Js.value)
  : M string :=
  emit (Call (CallAddLiquidityFromFees mint feeAmount)) ;;
  match controllerProgram this with
  | None => throw (Error "Controller program not configured")
  | Some _ =>
      interpolate feeAmount ;;
      console_log (LogAddingToLP feeAmount) ;;
      let transaction : Transaction := [] in
      signature <- rpc (SendTransaction transaction [wallet this])
                       (fun h => sendTransaction rt h transaction [wallet this]) ;;
      rpc (ConfirmTransaction signature) (fun h => confirmTransaction rt h signature) ;;
      ret signature
  end.

Definition collectFees (this : MayhemSDK) : M float :=
  emit (Call CallCollectFees) ;;
  match controllerProgram this with
  | None => throw (Error "Controller program not configured")
  | Some _ =>
      console_log LogCollectingFees ;;
      let transaction : Transaction := [] in
      signature <- rpc (SendTransaction transaction [wallet this])
                       (fun h => sendTransaction rt h transaction [wallet this]) ;;
      rpc (ConfirmTransaction signature) (fun h => confirmTransaction rt h signature) ;;
      ret 0%float
  end.

Definition getTokenPrice (this : MayhemSDK) (mint : PublicKey) : M float :=
  emit (Call (CallGetTokenPrice mint)) ;;
  ret 0.0001%float.

Definition getVolume24h (this : MayhemSDK) (mint : PublicKey) : M float :=
  emit (Call (CallGetVolume24h mint)) ;;
  signatures <- rpc (GetSignaturesForAddress mint 1000)
                    (fun h => getSignaturesForAddress rt h mint 1000) ;;
  ret (float_of_nat (length signatures) * 0.1)%float.

(** *** LLMConnector (llm-connector.ts) *)

Definition getDefaultSystemPrompt : string :=
  lines [
    "You are an expert cryptocurrency trading AI for the Mayhem protocol on Solana.";
    "";
    "Your responsibilities:";
    "1. Analyze market data and make informed trading decisions";
    "2. Manage risk by limiting position sizes";
    "3. Execute buybacks when prices are favorable";
    "4. Decide when to burn tokens vs add to LP";
    "5. Provide clear reasoning for all decisions";
    "";
    "Guidelines:";
    "- Never risk more than 2% of portfolio on a single trade";
    "- Prefer gradual accumulation over large market orders";
    "- Consider market sentiment and volume trends";
    "- Prioritize long-term value over short-term gains";
    "- Always provide JSON-formatted responses" ].

(** The constructor stores the configuration as it is and seeds the
    conversation with the system prompt. *)
Definition new_LLMConnector (cfg : LLMConfig) : Res LLMConnector :=
  Ok {| llm_config := cfg;
        conversationHistory :=
          [ {| role := "system";
               content := Js.Str (or_default (systemPrompt cfg) getDefaultSystemPrompt) |} ] |}.

Definition push_history (m : Message) : M unit :=
  modify (fun s =>
    set_llm {| llm_config := llm_config (llm s);
               conversationHistory := (conversationHistory (llm s) ++ [m])%list |} s).

Definition tx_line (tx : Tx) : Res string :=
  let* type := ToString (tx_type tx) in
  let* amt := ToString (tx_amount tx) in
  let* prc := ToString (tx_price tx) in
  Ok ("- " ++ type ++ ": " ++ amt ++ " @ $" ++ prc).

Definition buildTradingPrompt (marketData : MarketData) : Res string :=
  let* txs := match recentTxs marketData with
              | Some txs => let* ls := traverse tx_line txs in Ok (join nl ls)
              | None => Ok "undefined"
              end in
  Ok (lines [
    "Analyze the following market data and decide on trading action:";
    "";
    "Token: " ++ symbol marketData;
    "Current Price: $" ++ NumberToString rt (price marketData);
    "24h Volume: $" ++ NumberToString rt (volume24h marketData);
    "24h Price Change: " ++ NumberToString rt (priceChange24h marketData) ++ "%";
    "Market Cap: $" ++ NumberToString rt (marketCap marketData);
    "Holders: " ++ NumberToString rt (holders marketData);
    "";
    "Recent Transactions:";
    txs;
    "";
    "Respond in JSON format:";
    "{";
    "  " ++ quoted "action" ++ ": " ++ quoted "buy" ++ " | " ++ quoted "sell" ++ " | "
         ++ quoted "hold" ++ " | " ++ quoted "burn" ++ " | " ++ quoted "add_lp" ++ ",";
    "  " ++ quoted "amount" ++ ": <number in SOL>,";
    "  " ++ quoted "reasoning" ++ ": " ++ quoted "<your analysis>" ++ ",";
    "  " ++ quoted "confidence" ++ ": <0-1>";
    "}" ]).

(** The prompt reads [messages], [members] and [activity], which
    [PlatformMetrics] does not have: they print as undefined. *)
Definition buildMarketingPrompt (metrics : MarketingInput) : Res string :=
  let* eng := ToString (engagement (mi_twitter metrics)) in
  let* rch := ToString (reach (mi_twitter metrics)) in
  let* users := ToString (activeUsers (mi_discord metrics)) in
  Ok (lines [
    "Analyze platform metrics and allocate marketing budget:";
    "";
    "Available Budget: $" ++ NumberToString rt (budget metrics);
    "";
    "Platform Performance (Last 7 days):";
    "- Twitter: " ++ eng ++ " engagement, " ++ rch ++ " reach";
    "- Discord: " ++ users ++ " active users, " ++ "undefined" ++ " messages";
    "- Telegram: " ++ "undefined" ++ " members, " ++ "undefined" ++ "% activity";
    "";
    "Recommend budget allocation and strategies in JSON format:";
    "{";
    "  " ++ quoted "allocations" ++ ": [";
    "    { " ++ quoted "platform" ++ ": " ++ quoted "twitter" ++ ", " ++ quoted "amount"
            ++ ": <USD>, " ++ quoted "strategy" ++ ": " ++ quoted "<description>" ++ " },";
    "    { " ++ quoted "platform" ++ ": " ++ quoted "discord" ++ ", " ++ quoted "amount"
            ++ ": <USD>, " ++ quoted "strategy" ++ ": " ++ quoted "<description>" ++ " }";
    "  ],";
    "  " ++ quoted "reasoning" ++ ": " ++ quoted "<your analysis>";
    "}" ]).

Definition message_value (m : Message) : Js.value :=
  Js.Object [("role", Js.Str (role m)); ("content", content m)].

Definition messages_value (ms : list Message) : Js.value :=
  Js.Array (map message_value ms).

Definition json_headers : list (string * string) := [("Content-Type", "application/json")].

Definition queryOpenRouter (messages : list Message) : M Js.value :=
  s <- get_store ;;
  let cfg := llm_config (llm s) in
  response <- http "https://openrouter.ai/api/v1/chat/completions"
    (Some {| method := "POST";
             headers := [("Authorization", "Bearer " ++ text_of (apiKey cfg));
                         ("Content-Type", "application/json")];
             body := JSON_stringify rt (Js.Object
                       [("model", Js.Str (or_default (model cfg) "anthropic/claude-3.5-sonnet"));
                        ("messages", messages_value messages)]) |}) ;;
  data <- lift (json response) ;;
  choices <- lift (get data "choices") ;;
  choice <- lift (first choices) ;;
  message <- lift (get choice "message") ;;
  lift (get message "content").

Definition queryEliza (messages : list Message) : M Js.value :=
  s <- get_store ;;
  let cfg := llm_config (llm s) in
  response <- http (text_of (baseUrl cfg) ++ "/api/chat")
    (Some {| method := "POST";
             headers := json_headers;
             body := JSON_stringify rt (Js.Object
                       [("messages", messages_value messages);
                        ("agentId", value_of (apiKey cfg))]) |}) ;;
  data <- lift (json response) ;;
  lift (get data "response").

Definition queryOpenAI (messages : list Message) : M Js.value :=
  s <- get_store ;;
  let cfg := llm_config (llm s) in
  response <- http "https://api.openai.com/v1/chat/completions"
    (Some {| method := "POST";
             headers := [("Authorization", "Bearer " ++ text_of (apiKey cfg));
                         ("Content-Type", "application/json")];
             body := JSON_stringify rt (Js.Object
                       [("model", Js.Str (or_default (model cfg) "gpt-4"));
                        ("messages", messages_value messages)]) |}) ;;
  data <- lift (json response) ;;
  choices <- lift (get data "choices") ;;
  choice <- lift (first choices) ;;
  message <- lift (get choice "message") ;;
  lift (get message "content").

Definition is_system (m : Message) : bool := String.eqb (role m) "system".

Definition queryAnthropic (messages : list Message) : M Js.value :=
  s <- get_store ;;
  let cfg := llm_config (llm s) in
  response <- http "https://api.anthropic.com/v1/messages"
    (Some {| method := "POST";
             headers := [("x-api-key", text_of (apiKey cfg));
                         ("anthropic-version", "2023-06-01");
                         ("Content-Type", "application/json")];
             body := JSON_stringify rt (Js.Object
                       [("model", Js.Str (or_default (model cfg) "claude-3-5-sonnet-20241022"));
                        ("max_tokens", Js.Number 1024%float);
                        ("messages",
                         messages_value (filter (fun m => negb (is_system m)) messages));
                        ("system",
                         match find is_system messages with
                         | Some m => content m
                         | None => Js.Undefined
                         end)]) |}) ;;
  data <- lift (json response) ;;
  blocks <- lift (get data "content") ;;
  block <- lift (first blocks) ;;
  lift (get block "text").

Definition queryCustom (messages : list Message) : M Js.value :=
  s <- get_store ;;
  let cfg := llm_config (llm s) in
  response <- http (text_of (baseUrl cfg))
    (Some {| method := "POST";
             headers := json_headers;
             body := JSON_stringify rt (Js.Object [("messages", messages_value messages)]) |}) ;;
  data <- lift (json response) ;;
  lift (get data "response").

(** The enumerated providers of [LLMConfig]. *)
Definition supported_providers : list string :=
  ["openrouter"; "eliza"; "openai"; "anthropic"; "custom"].

Definition is_supported (p : string) : bool := existsb (String.eqb p) supported_providers.

Definition queryLLM (customPrompt : option string) : M Js.value :=
  s <- get_store ;;
  let this := llm s in
  let messages :=
    match customPrompt with
    | Some p => if Js.truthy_string p
                then [ {| role := "user"; content := Js.Str p |} ]
                else conversationHistory this
    | None => conversationHistory this
    end in
  let p := provider (llm_config this) in
  if String.eqb p "openrouter" then queryOpenRouter messages
  else if String.eqb p "eliza" then queryEliza messages
  else if String.eqb p "openai" then queryOpenAI messages
  else if String.eqb p "anthropic" then queryAnthropic messages
  else if String.eqb p "custom" then queryCustom messages
  else throw (Error ("Unsupported provider: " ++ p)).

(** [JSON.parse(v)]: the argument is converted to a string first. *)
Definition parse_json (v : Js.value) : M Js.value :=
  lift (let* text := ToString v in
        match JSON_parse rt text with
        | Some parsed => Ok parsed
        | None => Throw SyntaxError
        end).

Definition parseTradingResponse (response : Js.value) : M LLMResponse :=
  try_catch
    (parsed <- parse_json response ;;
     act <- lift (get parsed "action") ;;
     amt <- lift (get parsed "amount") ;;
     rsn <- lift (get parsed "reasoning") ;;
     conf <- lift (get parsed "confidence") ;;
     ret {| action := act; amount := amt; reasoning := rsn; confidence := conf |})
    (fun error =>
     ret {| action := Js.Str "hold"; amount := Js.Undefined;
            reasoning := response; confidence := Js.Number 0.5%float |}).

Definition parseMarketingResponse (response : Js.value) : M Js.value :=
  try_catch
    (parse_json response)
    (fun error =>
     ret (Js.Object [("allocations", Js.Array []); ("reasoning", response)])).

Definition decideTrade (marketData : MarketData) : M LLMResponse :=
  prompt <- lift (buildTradingPrompt marketData) ;;
  push_history {| role := "user"; content := Js.Str prompt |} ;;
  response <- queryLLM None ;;
  push_history {| role := "assistant"; content := JSON_stringify rt response |} ;;
  parseTradingResponse response.

Definition decideMarketing (platformMetrics : MarketingInput) : M Js.value :=
  prompt <- lift (buildMarketingPrompt platformMetrics) ;;
  response <- queryLLM (Some prompt) ;;
  parseMarketingResponse response.

(** *** TradingAgent (trading-agent.ts) *)

Definition new_TradingAgent (sdk0 : MayhemSDK) : TradingAgent :=
  {| sdk := sdk0; isRunning := false; config := None; buybackConfig := None;
     checkInterval := None |}.

Definition with_isRunning (b : bool) (a : TradingAgent) : TradingAgent :=
  {| sdk := sdk a; isRunning := b; config := config a;
     buybackConfig := buybackConfig a; checkInterval := checkInterval a |}.

Definition with_config (c : option TradingConfig) (a : TradingAgent) : TradingAgent :=
  {| sdk := sdk a; isRunning := isRunning a; config := c;
     buybackConfig := buybackConfig a; checkInterval := checkInterval a |}.

Definition with_buybackConfig (b : option BuybackConfig) (a : TradingAgent) : TradingAgent :=
  {| sdk := sdk a; isRunning := isRunning a; config := config a;
     buybackConfig := b; checkInterval := checkInterval a |}.

Definition with_checkInterval (t : option nat) (a : TradingAgent) : TradingAgent :=
  {| sdk := sdk a; isRunning := isRunning a; config := config a;
     buybackConfig := buybackConfig a; checkInterval := t |}.

Definition update_trading (f : TradingAgent -> TradingAgent) : M unit :=
  modify (fun s => set_trading (f (trading s)) s).

Definition getMarketData (mintAddress : string) : M MarketData :=
  s <- get_store ;;
  let this := trading s in
  mint <- lift (new_PublicKey mintAddress) ;;
  tokenInfo <- getTokenInfo (sdk this) mintAddress ;;
  price0 <- getTokenPrice (sdk this) mint ;;
  volume <- getVolume24h (sdk this) mint ;;
  sup <- lift (ToNumber (supply tokenInfo)) ;;
  ret {| symbol := ti_symbol tokenInfo;
         price := price0;
         volume24h := volume;
         priceChange24h := 0%float;
         marketCap := (price0 * sup)%float;
         holders := 0%float;
         recentTxs := Some [] |}.

Definition executeBuy (mint : PublicKey) (amt : Js.value) : M unit :=
  s <- get_store ;;
  interpolate amt ;;
  console_log (LogBuying amt) ;;
  trade (sdk (trading s))
        {| tp_tokenMint := mint; tp_amount := amt; tp_side := buy;
           tp_slippage := Some 0.01%float |} ;;
  ret tt.

Definition executeSell (mint : PublicKey) (amt : Js.value) : M unit :=
  s <- get_store ;;
  interpolate amt ;;
  console_log (LogSelling amt) ;;
  trade (sdk (trading s))
        {| tp_tokenMint := mint; tp_amount := amt; tp_side := sell;
           tp_slippage := Some 0.01%float |} ;;
  ret tt.

(** The call of the controller's burn is commented out in the source. *)
Definition executeBurn (mint : PublicKey) (amt : Js.value) : M unit :=
  interpolate amt ;;
  console_log (LogBurning amt).

Definition executeDecision (decision : LLMResponse) : M unit :=
  s <- get_store ;;
  let this := trading s in
  match config this with
  | None => ret tt
  | Some cfg =>
      mint <- lift (new_PublicKey (tokenMint cfg)) ;;
      if Js.is_string (action decision) "buy" then
        when (Js.ToBoolean (amount decision)) (executeBuy mint (amount decision))
      else if Js.is_string (action decision) "sell" then
        when (Js.ToBoolean (amount decision)) (executeSell mint (amount decision))
      else if Js.is_string (action decision) "burn" then
        when (Js.ToBoolean (amount decision)) (executeBurn mint (amount decision))
      else if Js.is_string (action decision) "add_lp" then
        when (Js.ToBoolean (amount decision))
             (addLiquidityFromFees (sdk this) mint (amount decision) ;; ret tt)
      else if Js.is_string (action decision) "hold" then
        console_log LogHolding
      else ret tt
  end.

(** [triggerPrice && marketData.price < triggerPrice], then tested by [if]. *)
Definition shouldBuyback (b : BuybackConfig) (marketData : MarketData) : bool :=
  match triggerPrice b with
  | Some t => Js.truthy_number t && lt_num (price marketData) t
  | None => false
  end.

Definition checkBuyback (marketData : MarketData) : M unit :=
  s <- get_store ;;
  let this := trading s in
  match buybackConfig this, config this with
  | Some b, Some cfg =>
      when (shouldBuyback b marketData)
        (console_log LogBuybackTriggered ;;
         feeAmount <- collectFees (sdk this) ;;
         when (gt_num feeAmount 0%float)
           (mint <- lift (new_PublicKey (tokenMint cfg)) ;;
            buybackAndBurn (sdk this)
              {| bp_tokenMint := mint; solAmount := feeAmount;
                 bp_burnPercentage := burnPercentage b |} ;;
            ret tt))
  | _, _ => ret tt
  end.

(** [this.buybackConfig?.enabled] *)
Definition buyback_enabled (a : TradingAgent) : bool :=
  match buybackConfig a with
  | Some b => enabled b
  | None => false
  end.

(** The statements of the [try] block of [analyzeAndTrade]. *)
Definition analyzeAndTrade_try (cfg : TradingConfig) : M unit :=
  marketData <- getMarketData (tokenMint cfg) ;;
  decision <- decideTrade marketData ;;
  interpolate (action decision) ;;
  percent <- lift (mul (confidence decision) (Js.Number 100%float)) ;;
  console_log (LogDecision (action decision) percent) ;;
  interpolate (reasoning decision) ;;
  console_log (LogReasoning (reasoning decision)) ;;
  confident <- lift (gt (confidence decision) 0.7%float) ;;
  (if confident
   then executeDecision decision
   else console_log LogLowConfidence) ;;
  s <- get_store ;;
  when (buyback_enabled (trading s)) (checkBuyback marketData).

Definition analyzeAndTrade : M unit :=
  s <- get_store ;;
  match config (trading s) with
  | None => ret tt
  | Some cfg =>
      try_catch (analyzeAndTrade_try cfg) (fun error => console_error Trading error)
  end.

Definition startTrading (cfg : TradingConfig) : M unit :=
  s <- get_store ;;
  if isRunning (trading s) then throw (Error "Agent already running") else
  update_trading (with_config (Some cfg)) ;;
  update_trading (with_isRunning true) ;;
  console_log (LogStartTrading (strategy cfg) (tokenMint cfg)) ;;
  handle <- setInterval CbAnalyzeAndTrade 30000%float ;;
  update_trading (with_checkInterval (Some handle)) ;;
  analyzeAndTrade.

(** A timer handle is an object, hence truthy whenever it is present. *)
Definition stopTrading : M unit :=
  s <- get_store ;;
  match checkInterval (trading s) with
  | Some handle =>
      clearInterval handle ;;
      update_trading (with_checkInterval None)
  | None => ret tt
  end ;;
  update_trading (with_isRunning false) ;;
  console_log LogTradingStopped.

Definition enableBuybackBurn (b : BuybackConfig) : M unit :=
  update_trading (with_buybackConfig (Some b)) ;;
  console_log (LogBuybackEnabled (burnPercentage b)).

(** *** MarketingAgent (marketing-agent.ts) *)

Definition new_MarketingAgent (url : string) : MarketingAgent :=
  {| apiUrl := url; m_isRunning := false; m_config := None; monitorInterval := None |}.

Definition with_m_isRunning (b : bool) (a : MarketingAgent) : MarketingAgent :=
  {| apiUrl := apiUrl a; m_isRunning := b; m_config := m_config a;
     monitorInterval := monitorInterval a |}.

Definition with_m_config (c : option MarketingConfig) (a : MarketingAgent) : MarketingAgent :=
  {| apiUrl := apiUrl a; m_isRunning := m_isRunning a; m_config := c;
     monitorInterval := monitorInterval a |}.

Definition with_monitorInterval (t : option nat) (a : MarketingAgent) : MarketingAgent :=
  {| apiUrl := apiUrl a; m_isRunning := m_isRunning a; m_config := m_config a;
     monitorInterval := t |}.

Definition update_marketing (f : MarketingAgent -> MarketingAgent) : M unit :=
  modify (fun s => set_marketing (f (marketing s)) s).

Definition calculateMetrics (platformData : Js.value) : M PlatformMetrics :=
  name <- lift (get platformData "name") ;;
  likes <- lift (get platformData "likes") ;;
  comments <- lift (get platformData "comments") ;;
  sum <- lift (add likes comments) ;;
  shares <- lift (get platformData "shares") ;;
  total <- lift (add sum shares) ;;
  impressions <- lift (get platformData "impressions") ;;
  users <- lift (get platformData "activeUsers") ;;
  growth <- lift (get platformData "followerGrowth") ;;
  responseTime <- lift (get platformData "avgResponseTime") ;;
  spend <- lift (get platformData "spend") ;;
  eng <- lift (get platformData "engagement") ;;
  cost <- lift (div spend eng) ;;
  ret {| pm_platform := name;
         engagement := total;
         reach := impressions;
         activeUsers := users;
         growthRate := growth;
         avgResponseTime := responseTime;
         costPerEngagement := cost |}.

Definition fetchPlatformMetrics : M Metrics :=
  s <- get_store ;;
  response <- http (apiUrl (marketing s) ++ "/api/marketing/metrics") None ;;
  data <- lift (json response) ;;
  tw <- lift (get data "twitter") ;;
  twitter0 <- calculateMetrics tw ;;
  di <- lift (get data "discord") ;;
  discord0 <- calculateMetrics di ;;
  te <- lift (get data "telegram") ;;
  telegram0 <- calculateMetrics te ;;
  ret {| twitter := twitter0; discord := discord0; telegram := telegram0 |}.

Definition executeAllocation (allocation : Js.value) : M unit :=
  s <- get_store ;;
  amt <- lift (get allocation "amount") ;;
  interpolate amt ;;
  platform <- lift (get allocation "platform") ;;
  interpolate platform ;;
  console_log (LogAllocating amt platform) ;;
  strat <- lift (get allocation "strategy") ;;
  interpolate strat ;;
  console_log (LogAllocationStrategy strat) ;;
  roi <- lift (get allocation "expectedROI") ;;
  interpolate roi ;;
  console_log (LogExpectedROI roi) ;;
  http (apiUrl (marketing s) ++ "/api/marketing/allocate")
       (Some {| method := "POST"; headers := json_headers;
                body := JSON_stringify rt allocation |}) ;;
  ret tt.

Definition trackPerformance (allocations : Js.value) : M unit :=
  s <- get_store ;;
  h <- get_history ;;
  http (apiUrl (marketing s) ++ "/api/marketing/track")
       (Some {| method := "POST"; headers := json_headers;
                body := JSON_stringify rt (Js.Object
                          [("timestamp", Js.Number (Date_now rt h));
                           ("allocations", allocations)]) |}) ;;
  ret tt.

(** The statements of the [try] block of [analyzeAndAllocate]. *)
Definition analyzeAndAllocate_try : M unit :=
  metrics <- fetchPlatformMetrics ;;
  s <- get_store ;;
  total <- match m_config (marketing s) with
           | Some cfg => ret (totalBudget cfg)
           | None => throw (TypeError "totalBudget")
           end ;;
  decision <- decideMarketing {| budget := total;
                                 mi_twitter := twitter metrics;
                                 mi_discord := discord metrics;
                                 mi_telegram := telegram metrics |} ;;
  rsn <- lift (get decision "reasoning") ;;
  console_log (LogMarketingStrategy rsn) ;;
  allocations <- lift (get decision "allocations") ;;
  items <- lift (iterate allocations) ;;
  for_of items executeAllocation ;;
  allocations' <- lift (get decision "allocations") ;;
  trackPerformance allocations'.

Definition analyzeAndAllocate : M unit :=
  s <- get_store ;;
  match m_config (marketing s) with
  | None => ret tt
  | Some _ =>
      try_catch analyzeAndAllocate_try (fun error => console_error Marketing error)
  end.

Definition hours_to_ms (hours : float) : float := (hours * 60 * 60 * 1000)%float.

Definition startMarketing (cfg : MarketingConfig) : M unit :=
  s <- get_store ;;
  if m_isRunning (marketing s) then throw (Error "Marketing agent already running") else
  update_marketing (with_m_config (Some cfg)) ;;
  update_marketing (with_m_isRunning true) ;;
  console_log (LogStartMarketing (totalBudget cfg)) ;;
  handle <- setInterval CbAnalyzeAndAllocate (hours_to_ms (rebalanceInterval cfg)) ;;
  update_marketing (with_monitorInterval (Some handle)) ;;
  analyzeAndAllocate.

Definition stopMarketing : M unit :=
  s <- get_store ;;
  match monitorInterval (marketing s) with
  | Some handle =>
      clearInterval handle ;;
      update_marketing (with_monitorInterval None)
  | None => ret tt
  end ;;
  update_marketing (with_m_isRunning false) ;;
  console_log LogMarketingStopped.

(** *** The timers of the event loop *)

Definition run_callback (cb : Callback) : M unit :=
  match cb with
  | CbAnalyzeAndTrade => analyzeAndTrade
  | CbAnalyzeAndAllocate => analyzeAndAllocate
  end.

Definition registered (id : nat) (s : Store) : option Callback :=
  match find (fun t => Nat.eqb (fst (fst t)) id) (intervals s) with
  | Some (_, cb, _) => Some cb
  | None => None
  end.

(** One period of timer [id] elapses: its callback runs if the timer is
    still registered. *)
Definition timer_fires (id : nat) : M unit :=
  s <- get_store ;;
  match registered id s with
  | Some cb => run_callback cb
  | None => ret tt
  end.

Fixpoint ticks (n : nat) (id : nat) : M unit :=
  match n with
  | O => ret tt
  | S k => timer_fires id ;; ticks k id
  end.

End Program.

(** ** Scripted runtimes

    Test doubles for the outside world, used to run the program on concrete
    inputs: [JSON.parse] knows the documents of a table, every LLM endpoint
    answers with the same reply, the RPC node knows one token mint, and
    [sendTransaction] succeeds or fails as told. *)

(** The two errors of [new PublicKey(s)]: the base58 decoder rejects a
    character outside its alphabet, the constructor a key of the wrong length. *)
Definition base58_alphabet : string :=
  "123456789ABCDEFGHJKLMNPQRSTUVWXYZabcdefghijkmnopqrstuvwxyz".

Definition is_base58 (c : ascii) : bool :=
  existsb (Ascii.eqb c) (list_ascii_of_string base58_alphabet).

Definition key_error (s : string) : Exn :=
  if forallb is_base58 (list_ascii_of_string s)
  then Error "Invalid public key input"
  else Error "Non-base58 character".

(** The scripted [PublicKey] accepts every non-empty base58 text. *)
Definition key_ok (s : string) : bool :=
  negb (String.eqb s "") && forallb is_base58 (list_ascii_of_string s).

Definition chat_completion (text : string) : Js.value :=
  Js.Object [("choices",
              Js.Array [Js.Object [("message", Js.Object [("content", Js.Str text)])]])].

Definition mint_account : Js.value :=
  Js.Object [("value",
    Js.Object [("data",
      Js.Object [("parsed",
        Js.Object [("info",
          Js.Object [("decimals", Js.Number 9%float);
                     ("supply", Js.Number 1000000%float)])])])])].

Definition scripted (documents : list (string * Js.value)) (reply : string) (send_ok : bool)
  : Runtime :=
  {| JSON_parse := fun text => Js.lookup text documents;
     JSON_stringify := fun _ => Js.Str "{}";
     NumberToString := fun _ => "0";
     StringToNumber := fun _ => PrimFloat.nan;
     StringIterator := fun _ => [];
     StringIndex := fun _ _ => Js.Undefined;
     PublicKey_valid := key_ok;
     PublicKey_error := key_error;
     Date_now := fun _ => 0%float;
     fetch := fun _ _ _ => Ok {| json := Ok (chat_completion reply) |};
     getParsedAccountInfo := fun _ _ => Ok mint_account;
     getSignaturesForAddress := fun _ _ _ => Ok [];
     sendTransaction := fun _ _ _ =>
       if send_ok then Ok "sig-1" else Throw (Rejected (Js.Str "failed to send transaction"));
     confirmTransaction := fun _ _ => Ok tt |}.

Definition key (name : string) : string := quoted name ++ ":".

(** The reply text {"action":"buy","amount":1,"confidence":c} and its decoding. *)
Definition buy_reply_text (c : string) : string :=
  "{" ++ key "action" ++ quoted "buy" ++ "," ++ key "amount" ++ "1,"
      ++ key "confidence" ++ c ++ "}".

Definition buy_reply (c : float) : Js.value :=
  Js.Object [("action", Js.Str "buy"); ("amount", Js.Number 1%float);
             ("confidence", Js.Number c)].

(** {"action":"moon","confidence":1.5}: an action outside the allowed set and
    a confidence outside [0,1]. *)
Definition odd_reply_text : string :=
  "{" ++ key "action" ++ quoted "moon" ++ "," ++ key "confidence" ++ "1.5}".

Definition odd_reply : Js.value :=
  Js.Object [("action", Js.Str "moon"); ("confidence", Js.Number 1.5%float)].

(** {"action":"hold","confidence":0.9} *)
Definition hold_reply_text : string :=
  "{" ++ key "action" ++ quoted "hold" ++ "," ++ key "confidence" ++ "0.9}".

Definition hold_reply : Js.value :=
  Js.Object [("action", Js.Str "hold"); ("confidence", Js.Number 0.9%float)].

(** {"toString":1}: an object whose own [toString] is not callable. *)
Definition unprintable : Js.value := Js.Object [("toString", Js.Number 1%float)].

(** {"action":{"toString":1},"confidence":0.5} *)
Definition unprintable_reply_text : string :=
  "{" ++ key "action" ++ "{" ++ key "toString" ++ "1}," ++ key "confidence" ++ "0.5}".

Definition unprintable_reply : Js.value :=
  Js.Object [("action", unprintable); ("confidence", Js.Number 0.5%float)].

Definition documents : list (string * Js.value) :=
  [ (buy_reply_text "0.65", buy_reply 0.65%float);
    (buy_reply_text "0.9", buy_reply 0.9%float);
    (hold_reply_text, hold_reply);
    (odd_reply_text, odd_reply);
    (unprintable_reply_text, unprintable_reply) ].

(** A runtime whose HTTP requests are all rejected. *)
Definition offline : Runtime :=
  {| JSON_parse := fun text => Js.lookup text documents;
     JSON_stringify := fun _ => Js.Str "{}";
     NumberToString := fun _ => "0";
     StringToNumber := fun _ => PrimFloat.nan;
     StringIterator := fun _ => [];
     StringIndex := fun _ _ => Js.Undefined;
     PublicKey_valid := key_ok;
     PublicKey_error := key_error;
     Date_now := fun _ => 0%float;
     fetch := fun _ _ _ => Throw (Rejected (Js.Str "fetch failed"));
     getParsedAccountInfo := fun _ _ => Ok mint_account;
     getSignaturesForAddress := fun _ _ _ => Ok [];
     sendTransaction := fun _ _ _ => Ok "sig-1";
     confirmTransaction := fun _ _ => Ok tt |}.

Definition demo_sdk : MayhemSDK :=
  {| connection := "https://api.devnet.solana.com";
     wallet := Some {| secretKey := "wallet-secret" |};
     mayhemProgram := {| base58 := "MayhemProgram1111111111111111111111111111111" |};
     controllerProgram := Some {| base58 := "Controller11111111111111111111111111111111" |} |}.

Definition demo_llm_config (p : string) : LLMConfig :=
  {| provider := p; apiKey := Some "sk-test"; model := None; baseUrl := None;
     systemPrompt := None |}.

Definition demo_llm (p : string) : LLMConnector :=
  {| llm_config := demo_llm_config p;
     conversationHistory :=
       [ {| role := "system"; content := Js.Str getDefaultSystemPrompt |} ] |}.

Definition demo_trading_config : TradingConfig :=
  {| tokenMint := "TokenMint11111111111111111111111111111111111"; strategy := dca;
     maxRisk := 0.02%float; stopLoss := Some 20%float; takeProfit := Some 50%float |}.

Definition demo_buyback (trigger : float) : BuybackConfig :=
  {| enabled := true; triggerPrice := Some trigger; burnPercentage := 50%float;
     lpPercentage := None |}.

(** The snapshot of the scripted RPC node. *)
Definition demo_snapshot : MarketData :=
  {| symbol := "TKN"; price := 0.0001%float; volume24h := 0%float;
     priceChange24h := 0%float; marketCap := 100%float; holders := 0%float;
     recentTxs := Some [] |}.

(** A snapshot with the price 0.00009, below a trigger price of 0.0001. *)
Definition below_trigger_snapshot : MarketData :=
  {| symbol := "TKN"; price := 0.00009%float; volume24h := 0%float;
     priceChange24h := 0%float; marketCap := 90%float; holders := 0%float;
     recentTxs := Some [] |}.

(** A fresh system: connector, agents just constructed, no timer. *)
Definition fresh (p : string) : Store :=
  {| llm := demo_llm p;
     trading := new_TradingAgent demo_sdk;
     marketing := new_MarketingAgent "https://marketing.example";
     intervals := [];
     next_handle := 0 |}.

(** The trading agent after [startTrading] and [enableBuybackBurn]. *)
Definition running (p : string) (trigger : float) : Store :=
  {| llm := demo_llm p;
     trading := {| sdk := demo_sdk; isRunning := true;
                   config := Some demo_trading_config;
                   buybackConfig := Some (demo_buyback trigger);
                   checkInterval := Some 0 |};
     marketing := new_MarketingAgent "https://marketing.example";
     intervals := [(0, CbAnalyzeAndTrade, 30000%float)];
     next_handle := 1 |}.

(** ** Classification of events *)

(** The events of the execution paths of a decision: the line that
    [executeBuy], [executeSell] and [executeBurn] print first, and a trade,
    liquidity or buyback call of the SDK. *)
Definition is_execution (e : Event) : bool :=
  match e with
  | ConsoleLog (LogBuying _) | ConsoleLog (LogSelling _) | ConsoleLog (LogBurning _) => true
  | Call (CallTrade _) | Call (CallAddLiquidityFromFees _ _) | Call (CallBuybackAndBurn _) => true
  | _ => false
  end.

Definition is_collectFees (e : Event) : bool :=
  match e with
  | Call CallCollectFees => true
  | _ => false
  end.

Definition is_buybackAndBurn (e : Event) : bool :=
  match e with
  | Call (CallBuybackAndBurn _) => true
  | _ => false
  end.

Definition is_trade_call (e : Event) : bool :=
  match e with
  | Call (CallTrade _) => true
  | _ => false
  end.

Definition is_sendTransaction (e : Event) : bool :=
  match e with
  | Rpc (SendTransaction _ _) => true
  | _ => false
  end.

Definition is_setInterval (e : Event) : bool :=
  match e with
  | SetInterval _ _ _ => true
  | _ => false
  end.

Definition count (p : Event -> bool) (es : list Event) : nat := length (filter p es).

(** The two states of a loop driver. *)
Inductive Phase := Idle | Running.

Definition phase (a : TradingAgent) : Phase := if isRunning a then Running else Idle.

(** The fields of the loop drivers and of the event loop: everything in the
    store but the connector's conversation. *)
Definition same_drivers (s s' : Store) : Prop :=
  trading s' = trading s /\ marketing s' = marketing s /\
  intervals s' = intervals s /\ next_handle s' = next_handle s.

(** [Keeps P m]: from every history and store, [m] leaves the drivers and the
    timers as they are and emits only events that satisfy [P]. *)
Definition Keeps {A} (P : Event -> bool) (m : M A) : Prop :=
  forall h s, same_drivers s (store (m h s)) /\ forallb P (evs (m h s)) = true.

(** [Returns Q m]: whenever [m] returns a value, the value satisfies [Q]. *)
Definition Returns {A} (Q : A -> Prop) (m : M A) : Prop :=
  forall h s a, res (m h s) = Ok a -> Q a.

(** Events other than the creation and removal of timers. *)
Definition no_timer (e : Event) : bool :=
  match e with
  | SetInterval _ _ _ | ClearInterval _ => false
  | _ => true
  end.

(** Events outside the execution paths and the timers. *)
Definition quiet (e : Event) : bool := negb (is_execution e) && no_timer e.

(** The two lines [analyzeAndTrade] prints once it holds a decision. *)
Definition logged_decision (d : LLMResponse) (percent : Js.value) : list Event :=
  [ ConsoleLog (LogDecision (action d) percent);
    ConsoleLog (LogReasoning (reasoning d)) ].

(** What is left of the [try] block of [analyzeAndTrade] once it holds the
    snapshot and the decision. *)
Definition after_decision (rt : Runtime) (marketData : MarketData) (d : LLMResponse)
  : M unit :=
  (interpolate rt (action d) ;;
   percent <- lift (mul rt (confidence d) (Js.Number 100%float)) ;;
   console_log (LogDecision (action d) percent) ;;
   interpolate rt (reasoning d) ;;
   console_log (LogReasoning (reasoning d)) ;;
   confident <- lift (gt rt (confidence d) 0.7%float) ;;
   (if confident
    then executeDecision rt d
    else console_log LogLowConfidence) ;;
   s <- get_store ;;
   when (buyback_enabled (trading s)) (checkBuyback rt marketData))%M.

(** The path [value.data.parsed.info] into the answer of the node, as
    [getTokenInfo] follows it. *)
Definition mint_info (mintInfo : Js.value) : Res Js.value :=
  let* value := get mintInfo "value" in
  let* data := get value "data" in
  let* parsed := get data "parsed" in
  get parsed "info".

(** Can [v] be converted to a string (and hence to a number)? *)
Definition convertible (rt : Runtime) (v : Js.value) : bool := is_ok (ToString rt v).

(** The actions whose execution needs an amount. *)
Definition needs_amount (act : Js.value) : bool :=
  Js.is_string act "buy" || Js.is_string act "sell" ||
  Js.is_string act "burn" || Js.is_string act "add_lp".

(** ** Further vocabulary

    Status reports, sessions of calls, and the predicates used by the
    properties of the parts of the program that follow. *)

(** [TradingAgent.getStatus] *)
Record TradingStatus := {
  status_isRunning : bool;
  status_config : option TradingConfig;
  buybackEnabled : bool }.

Definition getStatus (a : TradingAgent) : TradingStatus :=
  {| status_isRunning := isRunning a;
     status_config := config a;
     buybackEnabled := buyback_enabled a || false |}.

(** [MarketingAgent.getStatus] *)
Record MarketingStatus := {
  m_status_isRunning : bool;
  m_status_config : option MarketingConfig;
  nextRebalance : string }.

Definition marketing_getStatus (a : MarketingAgent) : MarketingStatus :=
  {| m_status_isRunning := m_isRunning a;
     m_status_config := m_config a;
     nextRebalance := match monitorInterval a with
                      | Some _ => "scheduled"
                      | None => "not scheduled"
                      end |}.

(** What a user of the two agents and the event loop can make happen. *)
Inductive Operation :=
| DoStartTrading (cfg : TradingConfig)
| DoStopTrading
| DoEnableBuybackBurn (b : BuybackConfig)
| DoStartMarketing (cfg : MarketingConfig)
| DoStopMarketing
| DoTimer (handle : nat).

Definition perform (rt : Runtime) (op : Operation) : M unit :=
  match op with
  | DoStartTrading cfg => startTrading rt cfg
  | DoStopTrading => stopTrading
  | DoEnableBuybackBurn b => enableBuybackBurn b
  | DoStartMarketing cfg => startMarketing rt cfg
  | DoStopMarketing => stopMarketing
  | DoTimer handle => timer_fires rt handle
  end.

(** A caller that performs the operations in turn and goes on after a
    rejected call. *)
Fixpoint session (rt : Runtime) (ops : list Operation) (h : History) (s : Store)
  : Store * list Event :=
  match ops with
  | [] => (s, [])
  | op :: rest =>
      match perform rt op h s with
      | (_, s1, e1) =>
          match session rt rest (h ++ e1)%list s1 with
          | (s2, e2) => (s2, (e1 ++ e2)%list)
          end
      end
  end.

Definition handle_of (t : nat * Callback * float) : nat := fst (fst t).

(** The flags and handles of the drivers agree with the timers of the event
    loop: a driver holds a handle exactly when it is running, the handle is
    registered with the driver's own callback, and every registered handle is
    below the next fresh one. *)
Definition timers_wf (s : Store) : Prop :=
  (forall t, In t (intervals s) -> handle_of t < next_handle s)
  /\ match checkInterval (trading s) with
     | Some id => isRunning (trading s) = true /\ registered id s = Some CbAnalyzeAndTrade
     | None => isRunning (trading s) = false
     end
  /\ match monitorInterval (marketing s) with
     | Some id => m_isRunning (marketing s) = true
                  /\ registered id s = Some CbAnalyzeAndAllocate
     | None => m_isRunning (marketing s) = false
     end.

Definition is_fetch (e : Event) : bool :=
  match e with
  | Fetch _ _ => true
  | _ => false
  end.

Definition is_rpc (e : Event) : bool :=
  match e with
  | Rpc _ => true
  | _ => false
  end.

Definition is_call (e : Event) : bool :=
  match e with
  | Call _ => true
  | _ => false
  end.

(** Every transaction submitted carries no instruction. *)
Definition empty_transaction (e : Event) : bool :=
  match e with
  | Rpc (SendTransaction (_ :: _) _) => false
  | _ => true
  end.

Definition no_collectFees (e : Event) : bool := negb (is_collectFees e).

(** [Untouched m]: [m] never changes the store. *)
Definition Untouched {A} (m : M A) : Prop :=
  forall h s, store (m h s) = s.

(** The conversation of [s'] is the one of [s] followed by at most [k] more
    messages, under the same configuration. *)
Definition conversation_extends (k : nat) (s s' : Store) : Prop :=
  llm_config (llm s') = llm_config (llm s)
  /\ exists suffix,
       conversationHistory (llm s') = (conversationHistory (llm s) ++ suffix)%list
       /\ length suffix <= k.

Definition Grows {A} (k : nat) (m : M A) : Prop :=
  forall h s, conversation_extends k s (store (m h s)).

(** undefined or null: the values whose properties cannot be read. *)
Definition nullish (v : Js.value) : bool :=
  match v with
  | Js.Undefined | Js.Null => true
  | _ => false
  end.

Definition is_console_error (e : Event) : bool :=
  match e with
  | ConsoleError _ _ => true
  | _ => false
  end.

(** ** More scripted runtimes *)

Definition platform_payload (name : string) : Js.value :=
  Js.Object [("name", Js.Str name); ("likes", Js.Number 10%float);
             ("comments", Js.Number 2%float); ("shares", Js.Number 3%float);
             ("impressions", Js.Number 500%float); ("activeUsers", Js.Number 40%float);
             ("followerGrowth", Js.Number 0.5%float);
             ("avgResponseTime", Js.Number 5%float); ("spend", Js.Number 30%float)].

Definition metrics_payload : Js.value :=
  Js.Object [("twitter", platform_payload "twitter");
             ("discord", platform_payload "discord");
             ("telegram", platform_payload "telegram")].

Definition metrics_url : string := "https://marketing.example/api/marketing/metrics".

(** The metrics endpoint answers with [metrics_payload], every other URL
    with a chat completion carrying [reply]. *)
Definition marketing_runtime (reply : string) : Runtime :=
  {| JSON_parse := fun text => Js.lookup text documents;
     JSON_stringify := fun _ => Js.Str "{}";
     NumberToString := fun _ => "0";
     StringToNumber := fun _ => PrimFloat.nan;
     StringIterator := fun _ => [];
     StringIndex := fun _ _ => Js.Undefined;
     PublicKey_valid := key_ok;
     PublicKey_error := key_error;
     Date_now := fun _ => 1700000000000%float;
     fetch := fun _ url _ =>
       if String.eqb url metrics_url
       then Ok {| json := Ok metrics_payload |}
       else Ok {| json := Ok (chat_completion reply) |};
     getParsedAccountInfo := fun _ _ => Ok mint_account;
     getSignaturesForAddress := fun _ _ _ => Ok [];
     sendTransaction := fun _ _ _ => Ok "sig-1";
     confirmTransaction := fun _ _ => Ok tt |}.

(** Every endpoint answers with the error payload {"error":"rate limited"}. *)
Definition error_runtime : Runtime :=
  {| JSON_parse := fun text => Js.lookup text documents;
     JSON_stringify := fun _ => Js.Str "{}";
     NumberToString := fun _ => "0";
     StringToNumber := fun _ => PrimFloat.nan;
     StringIterator := fun _ => [];
     StringIndex := fun _ _ => Js.Undefined;
     PublicKey_valid := key_ok;
     PublicKey_error := key_error;
     Date_now := fun _ => 0%float;
     fetch := fun _ _ _ =>
       Ok {| json := Ok (Js.Object [("error", Js.Str "rate limited")]) |};
     getParsedAccountInfo := fun _ _ => Ok (Js.Object [("value", Js.Null)]);
     getSignaturesForAddress := fun _ _ _ => Ok [];
     sendTransaction := fun _ _ _ => Ok "sig-1";
     confirmTransaction := fun _ _ => Ok tt |}.

Definition demo_marketing_config : MarketingConfig :=
  {| totalBudget := 1000%float; platforms := ["twitter"; "discord"; "telegram"];
     minROI := 1.5%float; rebalanceInterval := 24%float |}.

(** A fresh system whose marketing agent already has its configuration. *)
Definition marketing_ready : Store :=
  set_marketing (with_m_config (Some demo_marketing_config)
                   (new_MarketingAgent "https://marketing.example"))
    (fresh "openrouter").

(** An SDK with a controller program and no wallet. *)
Definition walletless_sdk : MayhemSDK :=
  {| connection := "https://api.devnet.solana.com";
     wallet := None;
     mayhemProgram := {| base58 := "MayhemProgram1111111111111111111111111111111" |};
     controllerProgram := Some {| base58 := "Controller11111111111111111111111111111111" |} |}.

(** An SDK with a wallet and no controller program. *)
Definition controllerless_sdk : MayhemSDK :=
  {| connection := "https://api.devnet.solana.com";
     wallet := Some {| secretKey := "wallet-secret" |};
     mayhemProgram := {| base58 := "MayhemProgram1111111111111111111111111111111" |};
     controllerProgram := None |}.

(** ** Properties *)

Section Properties.

Context (rt : Runtime).

Local Open Scope m_scope.

(** *** Running the monad *)

Lemma bind_ok {A B} (m : M A) (f : A -> M B) h s a s1 e1 :
  m h s = (Ok a, s1, e1) ->
  bind m f h s =
  (res (f a (h ++ e1)%list s1), store (f a (h ++ e1)%list s1),
   (e1 ++ evs (f a (h ++ e1)%list s1))%list).
Proof.
  intros Hm. unfold bind. rewrite Hm.
  destruct (f a (h ++ e1)%list s1) as [[r s2] e2]. reflexivity.
Qed.

Lemma bind_throw {A B} (m : M A) (f : A -> M B) h s e s1 e1 :
  m h s = (Throw e, s1, e1) -> bind m f h s = (Throw e, s1, e1).
Proof. intros Hm. unfold bind. rewrite Hm. reflexivity. Qed.

Lemma out_eta {A} (o : Out A) : o = (res o, store o, evs o).
Proof. destruct o as [[r s] e]. reflexivity. Qed.

Lemma bind_silent {A B} (m : M A) (f : A -> M B) h s a s1 :
  m h s = (Ok a, s1, []) -> bind m f h s = f a h s1.
Proof.
  intros Hm. rewrite (bind_ok _ _ _ _ _ _ _ Hm). rewrite app_nil_r. simpl.
  symmetry. apply out_eta.
Qed.

Lemma bind_get_store {B} (f : Store -> M B) h s : bind get_store f h s = f s h s.
Proof. apply bind_silent. reflexivity. Qed.

Lemma bind_ret {A B} (a : A) (f : A -> M B) h s : bind (ret a) f h s = f a h s.
Proof. apply bind_silent. reflexivity. Qed.

Lemma bind_lift_ok {A B} (a : A) (f : A -> M B) h s : bind (lift (Ok a)) f h s = f a h s.
Proof. apply bind_silent. reflexivity. Qed.

Lemma bind_modify {B} (g : Store -> Store) (f : unit -> M B) h s :
  bind (modify g) f h s = f tt h (g s).
Proof. apply bind_silent. reflexivity. Qed.

Lemma bind_emit {B} (e : Event) (f : unit -> M B) h s :
  bind (emit e) f h s =
  (res (f tt (h ++ [e])%list s), store (f tt (h ++ [e])%list s),
   e :: evs (f tt (h ++ [e])%list s)).
Proof. apply (bind_ok (emit e) f h s tt s [e]). reflexivity. Qed.

(** *** Conversions: when they throw, and what *)

Lemma value_induction (P : Js.value -> Prop) :
  P Js.Undefined -> P Js.Null -> (forall b, P (Js.Bool b)) -> (forall n, P (Js.Number n)) ->
  (forall t, P (Js.Str t)) -> (forall xs, Forall P xs -> P (Js.Array xs)) ->
  (forall props, P (Js.Object props)) ->
  forall v, P v.
Proof.
  intros HU HN HB HNum HS HA HO. fix IH 1.
  intros [| | b | n | t | xs | props];
    [exact HU | exact HN | apply HB | apply HNum | apply HS | | apply HO].
  apply HA. induction xs as [|x xs IHxs]; constructor; [apply IH | exact IHxs].
Qed.

Lemma traverse_throws {A B} (f : A -> Res B) (xs : list A) e :
  traverse f xs = Throw e -> exists x, In x xs /\ f x = Throw e.
Proof.
  induction xs as [|x xs IH]; simpl; [discriminate|].
  destruct (f x) as [y|e'] eqn:Hx; simpl.
  - destruct (traverse f xs) as [ys|e'']; simpl; [discriminate|].
    intros H. injection H as <-. destruct (IH eq_refl) as (x' & Hin & Hx').
    exists x'. split; [right; exact Hin | exact Hx'].
  - intros H. injection H as <-. exists x. split; [left; reflexivity | exact Hx].
Qed.

(** The only error of a conversion is the TypeError of an object that hides
    [toString]. *)
Lemma ToString_throws v e : ToString rt v = Throw e -> e = cannot_convert.
Proof.
  revert e. induction v as [| | b | n | t | xs IH | props] using value_induction;
    intros e; simpl; try discriminate.
  - destruct (traverse _ xs) as [parts|e'] eqn:Ht; simpl; [discriminate|].
    intros H. injection H as <-.
    destruct (traverse_throws _ _ _ Ht) as (x & Hin & Hx).
    rewrite Forall_forall in IH. specialize (IH x Hin e').
    destruct x; try discriminate Hx; apply IH; exact Hx.
  - destruct (Js.lookup "toString" props); [|discriminate].
    intros H. injection H as <-. reflexivity.
Qed.

Lemma ToNumber_throws v e : ToNumber rt v = Throw e -> e = cannot_convert.
Proof.
  destruct v; unfold ToNumber, and_then; try discriminate;
    match goal with |- context [ToString rt ?v] =>
      destruct (ToString rt v) as [text|e'] eqn:Ht; [discriminate|];
      intros H; injection H as <-; exact (ToString_throws _ _ Ht)
    end.
Qed.

Lemma ToNumber_convertible v : convertible rt v = true -> exists n, ToNumber rt v = Ok n.
Proof.
  unfold convertible. destruct v; try (intros _; eexists; reflexivity);
    unfold ToNumber; destruct (ToString rt _); simpl; try discriminate;
    intros _; eexists; reflexivity.
Qed.

Lemma add_throws a b e : add rt a b = Throw e -> e = cannot_convert.
Proof.
  unfold add, and_then. destruct (converts_to_string a || converts_to_string b).
  - destruct (ToString rt a) eqn:Ha;
      [|intros H; injection H as <-; exact (ToString_throws _ _ Ha)].
    destruct (ToString rt b) eqn:Hb;
      [discriminate | intros H; injection H as <-; exact (ToString_throws _ _ Hb)].
  - destruct (ToNumber rt a) eqn:Ha;
      [|intros H; injection H as <-; exact (ToNumber_throws _ _ Ha)].
    destruct (ToNumber rt b) eqn:Hb;
      [discriminate | intros H; injection H as <-; exact (ToNumber_throws _ _ Hb)].
Qed.

Lemma div_throws a b e : div rt a b = Throw e -> e = cannot_convert.
Proof.
  unfold div, and_then.
  destruct (ToNumber rt a) eqn:Ha;
    [|intros H; injection H as <-; exact (ToNumber_throws _ _ Ha)].
  destruct (ToNumber rt b) eqn:Hb;
    [discriminate | intros H; injection H as <-; exact (ToNumber_throws _ _ Hb)].
Qed.

(** A sum is a string or a number, and converts. *)
Lemma add_convertible a b : convertible rt a = true -> convertible rt b = true ->
  exists v, add rt a b = Ok v /\ convertible rt v = true.
Proof.
  intros Ha Hb.
  destruct (ToNumber_convertible a Ha) as [na Hna].
  destruct (ToNumber_convertible b Hb) as [nb Hnb].
  unfold convertible in Ha, Hb. unfold add, and_then.
  destruct (converts_to_string a || converts_to_string b).
  - destruct (ToString rt a); [|discriminate]. destruct (ToString rt b); [|discriminate].
    eexists. split; reflexivity.
  - rewrite Hna, Hnb. eexists. split; reflexivity.
Qed.

Lemma div_convertible a b : convertible rt a = true -> convertible rt b = true ->
  exists v, div rt a b = Ok v.
Proof.
  intros Ha Hb.
  destruct (ToNumber_convertible a Ha) as [na Hna].
  destruct (ToNumber_convertible b Hb) as [nb Hnb].
  unfold div, and_then. rewrite Hna, Hnb. eexists. reflexivity.
Qed.

(** *** C1, C7: the response parser *)

(** C1. For every reply text that is not valid JSON, [parseTradingResponse]
    returns the decision {action: 'hold', confidence: 0.5, reasoning: the raw
    text}; it emits nothing, leaves the store alone and does not throw.  More
    generally it throws for no reply at all, so a parse failure never reaches
    the caller. *)
Theorem parseTradingResponse_invalid_json :
  forall (text : string) (h : History) (s : Store),
    JSON_parse rt text = None ->
    parseTradingResponse rt (Js.Str text) h s =
      (Ok {| action := Js.Str "hold"; amount := Js.Undefined;
             reasoning := Js.Str text; confidence := Js.Number 0.5%float |}, s, [])
    /\ (forall response h' s', is_ok (res (parseTradingResponse rt response h' s')) = true).
Proof.
  intros text h s Hparse. split.
  - unfold parseTradingResponse, try_catch, parse_json. simpl ToString. unfold and_then.
    rewrite Hparse. reflexivity.
  - intros response h' s'.
    unfold parseTradingResponse, try_catch, parse_json.
    destruct (ToString rt response) as [text'|e]; [|reflexivity].
    unfold and_then.
    destruct (JSON_parse rt text') as [parsed|]; [|reflexivity].
    rewrite bind_lift_ok.
    destruct parsed; reflexivity.
Qed.

(** C7. For every reply text that decodes to a JSON object carrying a
    [confidence] field, [parseTradingResponse] returns that confidence value
    as it is, whatever it is (no clamping to [0,1]), together with the
    object's [action], [amount] and [reasoning] as they are (no validation of
    the action). *)
Theorem parseTradingResponse_verbatim :
  forall (text : string) (props : list (string * Js.value)) (c : Js.value)
         (h : History) (s : Store),
    JSON_parse rt text = Some (Js.Object props) ->
    Js.lookup "confidence" props = Some c ->
    parseTradingResponse rt (Js.Str text) h s =
      (Ok {| action := Js.own "action" props; amount := Js.own "amount" props;
             reasoning := Js.own "reasoning" props; confidence := c |}, s, []).
Proof.
  intros text props c h s Hparse Hc.
  unfold parseTradingResponse, try_catch, parse_json. simpl ToString. unfold and_then.
  rewrite Hparse. rewrite bind_lift_ok. simpl get.
  rewrite !bind_lift_ok.
  unfold ret, Js.own at 4. rewrite Hc. reflexivity.
Qed.


(** *** Frames: what a computation leaves alone and what it may emit *)

Lemma same_drivers_refl s : same_drivers s s.
Proof. repeat split. Qed.

Lemma same_drivers_trans s1 s2 s3 :
  same_drivers s1 s2 -> same_drivers s2 s3 -> same_drivers s1 s3.
Proof.
  intros (T1 & M1 & I1 & N1) (T2 & M2 & I2 & N2).
  repeat split; congruence.
Qed.

Lemma Keeps_ret {A} P (a : A) : Keeps P (ret a).
Proof. intros h s. split; [apply same_drivers_refl | reflexivity]. Qed.

Lemma Keeps_throw {A} P e : Keeps P (@throw A e).
Proof. intros h s. split; [apply same_drivers_refl | reflexivity]. Qed.

Lemma Keeps_lift {A} P (r : Res A) : Keeps P (lift r).
Proof. intros h s. split; [apply same_drivers_refl | reflexivity]. Qed.

Lemma Keeps_get_store P : Keeps P get_store.
Proof. intros h s. split; [apply same_drivers_refl | reflexivity]. Qed.

Lemma Keeps_get_history P : Keeps P get_history.
Proof. intros h s. split; [apply same_drivers_refl | reflexivity]. Qed.

Lemma Keeps_emit (P : Event -> bool) e : P e = true -> Keeps P (emit e).
Proof.
  intros He h s. split; [apply same_drivers_refl | simpl; rewrite He; reflexivity].
Qed.

Lemma Keeps_request {A} (P : Event -> bool) e (answer : History -> Res A) :
  P e = true -> Keeps P (request e answer).
Proof.
  intros He h s. split; [apply same_drivers_refl | simpl; rewrite He; reflexivity].
Qed.

Lemma Keeps_push_history P m : Keeps P (push_history m).
Proof. intros h s. split; [repeat split | reflexivity]. Qed.

Lemma Keeps_bind_post {A B} P (Q : A -> Prop) (m : M A) (f : A -> M B) :
  Keeps P m -> Returns Q m -> (forall a, Q a -> Keeps P (f a)) -> Keeps P (bind m f).
Proof.
  intros Hm HQ Hf h s. unfold bind.
  destruct (Hm h s) as [Hs He]. specialize (HQ h s).
  destruct (m h s) as [[[a|e] s1] e1]; simpl in *.
  - destruct (Hf a (HQ a eq_refl) (h ++ e1)%list s1) as [Hs2 He2].
    destruct (f a (h ++ e1)%list s1) as [[r s2] e2]; simpl in *.
    split; [eapply same_drivers_trans; eassumption|].
    rewrite forallb_app, He, He2. reflexivity.
  - split; assumption.
Qed.

Lemma Keeps_bind {A B} P (m : M A) (f : A -> M B) :
  Keeps P m -> (forall a, Keeps P (f a)) -> Keeps P (bind m f).
Proof.
  intros Hm Hf. apply (Keeps_bind_post P (fun _ => True)); auto.
  intros h s a _. exact I.
Qed.

Lemma Keeps_try_catch {A} P (m : M A) (handler : Exn -> M A) :
  Keeps P m -> (forall e, Keeps P (handler e)) -> Keeps P (try_catch m handler).
Proof.
  intros Hm Hh h s. unfold try_catch.
  destruct (Hm h s) as [Hs He].
  destruct (m h s) as [[[a|e] s1] e1]; simpl in *.
  - split; assumption.
  - destruct (Hh e (h ++ e1)%list s1) as [Hs2 He2].
    destruct (handler e (h ++ e1)%list s1) as [[r s2] e2]; simpl in *.
    split; [eapply same_drivers_trans; eassumption|].
    rewrite forallb_app, He, He2. reflexivity.
Qed.

Lemma Keeps_when P (b : bool) (m : M unit) : Keeps P m -> Keeps P (when b m).
Proof. intros Hm. destruct b; [exact Hm | apply Keeps_ret]. Qed.

Lemma Keeps_for_of {A} P (xs : list A) (f : A -> M unit) :
  (forall x, Keeps P (f x)) -> Keeps P (for_of xs f).
Proof.
  intros Hf. induction xs as [|x rest IH]; simpl.
  - apply Keeps_ret.
  - apply Keeps_bind; [apply Hf | intros _; exact IH].
Qed.

Create HintDb keeps.

#[local] Hint Resolve Keeps_ret Keeps_throw Keeps_lift Keeps_get_store Keeps_get_history
  Keeps_push_history : keeps.

(** Walks through a method: binds, branches and the primitive steps. *)
Ltac keeps_step :=
  first
    [ solve [ auto with keeps nocore ]
    | apply Keeps_ret | apply Keeps_throw | apply Keeps_lift
    | apply Keeps_get_store | apply Keeps_get_history | apply Keeps_push_history
    | apply Keeps_emit; reflexivity
    | apply Keeps_request; reflexivity
    | apply Keeps_when
    | apply Keeps_for_of; intros ?
    | apply Keeps_try_catch; [ | intros ? ]
    | apply Keeps_bind; [ | intros ? ]
    | match goal with |- Keeps _ (match ?x with _ => _ end) => destruct x end
    | progress cbv zeta ].

Ltac keeps := repeat keeps_step.

Lemma Keeps_weaken {A} (P Q : Event -> bool) (m : M A) :
  (forall e, P e = true -> Q e = true) -> Keeps P m -> Keeps Q m.
Proof.
  intros HPQ Hm h s. destruct (Hm h s) as [Hs He]. split; [exact Hs|].
  rewrite forallb_forall in *. auto.
Qed.

Lemma quiet_no_timer e : quiet e = true -> no_timer e = true.
Proof. unfold quiet. intros H. apply andb_true_iff in H. apply H. Qed.

Lemma quiet_no_execution es : forallb quiet es = true -> existsb is_execution es = false.
Proof.
  induction es as [|e es IH]; simpl; [reflexivity|].
  intros H. apply andb_true_iff in H. destruct H as [He Hes].
  unfold quiet in He. apply andb_true_iff in He. destruct He as [He _].
  apply negb_true_iff in He. rewrite He. simpl. auto.
Qed.

(** The facade, the connector and the snapshot never enter an execution path. *)

Lemma getTokenInfo_quiet this mintAddress : Keeps quiet (getTokenInfo rt this mintAddress).
Proof. unfold getTokenInfo, rpc. keeps. Qed.

Lemma getTokenPrice_quiet this mint : Keeps quiet (getTokenPrice this mint).
Proof. unfold getTokenPrice. keeps. Qed.

Lemma getVolume24h_quiet this mint : Keeps quiet (getVolume24h rt this mint).
Proof. unfold getVolume24h, rpc. keeps. Qed.

Lemma collectFees_quiet this : Keeps quiet (collectFees rt this).
Proof. unfold collectFees, rpc, console_log. keeps. Qed.

#[local] Hint Resolve getTokenInfo_quiet getTokenPrice_quiet getVolume24h_quiet
  collectFees_quiet : keeps.

Lemma getMarketData_quiet mintAddress : Keeps quiet (getMarketData rt mintAddress).
Proof. unfold getMarketData. keeps. Qed.

Lemma queryLLM_quiet customPrompt : Keeps quiet (queryLLM rt customPrompt).
Proof.
  unfold queryLLM. apply Keeps_bind; [keeps | intros s].
  cbv zeta.
  repeat match goal with
         | |- Keeps _ (if String.eqb ?a ?b then _ else _) => destruct (String.eqb a b)
         end;
    unfold queryOpenRouter, queryEliza, queryOpenAI, queryAnthropic, queryCustom, http;
    keeps.
Qed.

Lemma parseTradingResponse_quiet response : Keeps quiet (parseTradingResponse rt response).
Proof. unfold parseTradingResponse, parse_json. keeps. Qed.

Lemma parseMarketingResponse_quiet response :
  Keeps quiet (parseMarketingResponse rt response).
Proof. unfold parseMarketingResponse, parse_json. keeps. Qed.

#[local] Hint Resolve getMarketData_quiet queryLLM_quiet parseTradingResponse_quiet
  parseMarketingResponse_quiet : keeps.

Lemma decideTrade_quiet marketData : Keeps quiet (decideTrade rt marketData).
Proof. unfold decideTrade. cbv zeta. keeps. Qed.

Lemma decideMarketing_quiet metrics : Keeps quiet (decideMarketing rt metrics).
Proof. unfold decideMarketing. cbv zeta. keeps. Qed.

#[local] Hint Resolve decideTrade_quiet decideMarketing_quiet : keeps.

(** *** C2: the provider dispatch *)

Lemma unsupported_eqb p :
  is_supported p = false ->
  String.eqb p "openrouter" = false /\ String.eqb p "eliza" = false /\
  String.eqb p "openai" = false /\ String.eqb p "anthropic" = false /\
  String.eqb p "custom" = false.
Proof.
  unfold is_supported, supported_providers. simpl.
  intros H. repeat (apply orb_false_elim in H; destruct H as [? H]).
  repeat split; assumption.
Qed.

(** C2 (amended). For every provider outside
    {openrouter, eliza, openai, anthropic, custom}: the constructor of
    [LLMConnector] performs no validation and returns a connector holding that
    configuration; [queryLLM] on such a connector throws
    Error("Unsupported provider: <provider>"), emits no event (hence issues no
    network request) and leaves the store as it is. *)
Theorem unsupported_provider_fails_on_query :
  forall (cfg : LLMConfig),
    is_supported (provider cfg) = false ->
    (exists c, new_LLMConnector cfg = Ok c /\ llm_config c = cfg) /\
    (forall customPrompt h s,
        llm_config (llm s) = cfg ->
        queryLLM rt customPrompt h s =
          (Throw (Error ("Unsupported provider: " ++ provider cfg)), s, [])).
Proof.
  intros cfg Hp. split.
  - eexists. split; reflexivity.
  - intros customPrompt h s Hcfg.
    destruct (unsupported_eqb _ Hp) as (H1 & H2 & H3 & H4 & H5).
    unfold queryLLM. rewrite bind_get_store. cbv zeta.
    rewrite Hcfg, H1, H2, H3, H4, H5. reflexivity.
Qed.

(** *** C3: the two states of the trading driver *)

Lemma trade_keeps this params : Keeps no_timer (trade rt this params).
Proof. unfold trade, rpc, console_log. keeps. Qed.

#[local] Hint Resolve trade_keeps : keeps.

Lemma buybackAndBurn_keeps this params : Keeps no_timer (buybackAndBurn rt this params).
Proof. unfold buybackAndBurn, console_log. keeps. Qed.

Lemma addLiquidityFromFees_keeps this mint feeAmount :
  Keeps no_timer (addLiquidityFromFees rt this mint feeAmount).
Proof. unfold addLiquidityFromFees, rpc, console_log. keeps. Qed.

Lemma collectFees_zero this : Returns (fun v => v = 0%float) (collectFees rt this).
Proof.
  intros h s v. unfold collectFees, rpc, request, console_log, emit, bind, throw, ret.
  simpl. destruct (controllerProgram this); simpl; [|discriminate].
  destruct (sendTransaction rt _ _ _); simpl; [|discriminate].
  destruct (confirmTransaction rt _ _); simpl; [|discriminate].
  intros H. inversion H. reflexivity.
Qed.

Lemma checkBuyback_quiet marketData : Keeps quiet (checkBuyback rt marketData).
Proof.
  unfold checkBuyback, console_log.
  apply Keeps_bind; [keeps | intros s].
  cbv zeta. destruct (buybackConfig (trading s)) as [b|]; [|keeps].
  destruct (config (trading s)) as [cfg|]; [|keeps].
  apply Keeps_when.
  apply Keeps_bind; [keeps | intros _].
  apply (Keeps_bind_post quiet (fun v => v = 0%float)).
  - apply collectFees_quiet.
  - apply collectFees_zero.
  - intros v ->. apply Keeps_ret.
Qed.

#[local] Hint Resolve buybackAndBurn_keeps addLiquidityFromFees_keeps checkBuyback_quiet
  : keeps.

Lemma executeDecision_keeps decision : Keeps no_timer (executeDecision rt decision).
Proof.
  unfold executeDecision, executeBuy, executeSell, executeBurn, console_log.
  keeps.
Qed.

#[local] Hint Resolve executeDecision_keeps : keeps.

Lemma Keeps_quiet_no_timer {A} (m : M A) : Keeps quiet m -> Keeps no_timer m.
Proof. apply Keeps_weaken. exact quiet_no_timer. Qed.

Lemma analyzeAndTrade_try_keeps cfg : Keeps no_timer (analyzeAndTrade_try rt cfg).
Proof.
  unfold analyzeAndTrade_try, console_log.
  apply Keeps_bind; [apply Keeps_quiet_no_timer, getMarketData_quiet | intros marketData].
  apply Keeps_bind; [apply Keeps_quiet_no_timer, decideTrade_quiet | intros decision].
  repeat (apply Keeps_bind; [solve [keeps] | intros ?]).
  apply Keeps_when. apply Keeps_quiet_no_timer, checkBuyback_quiet.
Qed.

Lemma analyzeAndTrade_keeps : Keeps no_timer (analyzeAndTrade rt).
Proof.
  unfold analyzeAndTrade, console_error.
  apply Keeps_bind; [keeps | intros s].
  destruct (config (trading s)) as [cfg|]; [|keeps].
  apply Keeps_try_catch; [apply analyzeAndTrade_try_keeps | intros e; keeps].
Qed.

Lemma calculateMetrics_quiet platformData : Keeps quiet (calculateMetrics rt platformData).
Proof. unfold calculateMetrics. keeps. Qed.

#[local] Hint Resolve calculateMetrics_quiet : keeps.

Lemma fetchPlatformMetrics_quiet : Keeps quiet (fetchPlatformMetrics rt).
Proof. unfold fetchPlatformMetrics, http. keeps. Qed.

Lemma executeAllocation_quiet allocation : Keeps quiet (executeAllocation rt allocation).
Proof. unfold executeAllocation, http, console_log. keeps. Qed.

Lemma trackPerformance_quiet allocations : Keeps quiet (trackPerformance rt allocations).
Proof. unfold trackPerformance, http. keeps. Qed.

#[local] Hint Resolve fetchPlatformMetrics_quiet executeAllocation_quiet
  trackPerformance_quiet : keeps.

Lemma analyzeAndAllocate_try_quiet : Keeps quiet (analyzeAndAllocate_try rt).
Proof. unfold analyzeAndAllocate_try, console_log. keeps. Qed.

Lemma analyzeAndAllocate_quiet : Keeps quiet (analyzeAndAllocate rt).
Proof.
  unfold analyzeAndAllocate, console_error.
  apply Keeps_bind; [keeps | intros s].
  destruct (m_config (marketing s)); [|keeps].
  apply Keeps_try_catch; [apply analyzeAndAllocate_try_quiet | intros e; keeps].
Qed.

(** A [try] whose handler only logs never throws. *)
Lemma try_catch_log_run (m : M unit) (d : Driver) h s :
  try_catch m (fun error => console_error d error) h s =
  match m h s with
  | (Ok a, s1, e1) => (Ok a, s1, e1)
  | (Throw e, s1, e1) => (Ok tt, s1, (e1 ++ [ConsoleError d e])%list)
  end.
Proof. unfold try_catch. destruct (m h s) as [[[a|e] s1] e1]; reflexivity. Qed.

Lemma analyzeAndTrade_run h s :
  analyzeAndTrade rt h s =
  match config (trading s) with
  | None => (Ok tt, s, [])
  | Some cfg =>
      match analyzeAndTrade_try rt cfg h s with
      | (Ok a, s1, e1) => (Ok a, s1, e1)
      | (Throw e, s1, e1) => (Ok tt, s1, (e1 ++ [ConsoleError Trading e])%list)
      end
  end.
Proof.
  unfold analyzeAndTrade. rewrite bind_get_store.
  destruct (config (trading s)); [|reflexivity].
  apply try_catch_log_run.
Qed.

Lemma analyzeAndAllocate_run h s :
  analyzeAndAllocate rt h s =
  match m_config (marketing s) with
  | None => (Ok tt, s, [])
  | Some _ =>
      match analyzeAndAllocate_try rt h s with
      | (Ok a, s1, e1) => (Ok a, s1, e1)
      | (Throw e, s1, e1) => (Ok tt, s1, (e1 ++ [ConsoleError Marketing e])%list)
      end
  end.
Proof.
  unfold analyzeAndAllocate. rewrite bind_get_store.
  destruct (m_config (marketing s)); [|reflexivity].
  apply try_catch_log_run.
Qed.

Lemma analyzeAndTrade_no_throw h s : res (analyzeAndTrade rt h s) = Ok tt.
Proof.
  rewrite analyzeAndTrade_run. destruct (config (trading s)) as [cfg|]; [|reflexivity].
  destruct (analyzeAndTrade_try rt cfg h s) as [[[[]|e] s1] e1]; reflexivity.
Qed.

Lemma analyzeAndAllocate_no_throw h s : res (analyzeAndAllocate rt h s) = Ok tt.
Proof.
  rewrite analyzeAndAllocate_run. destruct (m_config (marketing s)); [|reflexivity].
  destruct (analyzeAndAllocate_try rt h s) as [[[[]|e] s1] e1]; reflexivity.
Qed.

Lemma no_timer_count es : forallb no_timer es = true -> count is_setInterval es = 0.
Proof.
  unfold count. induction es as [|e es IH]; simpl; [reflexivity|].
  intros H. apply andb_true_iff in H. destruct H as [He Hes].
  destruct e; simpl in *; try discriminate; auto.
Qed.

Lemma startTrading_idle cfg h s :
  isRunning (trading s) = false ->
  let started :=
    set_trading (with_checkInterval (Some (next_handle s))
                   (with_isRunning true (with_config (Some cfg) (trading s))))
      {| llm := llm s; trading := trading s; marketing := marketing s;
         intervals := (intervals s ++ [(next_handle s, CbAnalyzeAndTrade, 30000%float)])%list;
         next_handle := S (next_handle s) |} in
  let h1 := (h ++ [ConsoleLog (LogStartTrading (strategy cfg) (tokenMint cfg));
                   SetInterval (next_handle s) CbAnalyzeAndTrade 30000%float])%list in
  startTrading rt cfg h s =
    (res (analyzeAndTrade rt h1 started), store (analyzeAndTrade rt h1 started),
     ConsoleLog (LogStartTrading (strategy cfg) (tokenMint cfg))
       :: SetInterval (next_handle s) CbAnalyzeAndTrade 30000%float
       :: evs (analyzeAndTrade rt h1 started)).
Proof.
  intros Hidle. cbv zeta. unfold startTrading.
  rewrite bind_get_store, Hidle. unfold update_trading.
  rewrite !bind_modify. unfold console_log. rewrite bind_emit.
  erewrite (bind_ok (setInterval _ _)); [|reflexivity].
  rewrite bind_modify. simpl. rewrite <- app_assoc. reflexivity.
Qed.

Lemma stopTrading_run h s :
  stopTrading h s =
  match checkInterval (trading s) with
  | Some handle =>
      (Ok tt,
       set_trading (with_isRunning false (with_checkInterval None (trading s)))
         {| llm := llm s; trading := trading s; marketing := marketing s;
            intervals := filter (fun t => negb (Nat.eqb (fst (fst t)) handle)) (intervals s);
            next_handle := next_handle s |},
       [ClearInterval handle; ConsoleLog LogTradingStopped])
  | None =>
      (Ok tt, set_trading (with_isRunning false (trading s)) s,
       [ConsoleLog LogTradingStopped])
  end.
Proof.
  unfold stopTrading. rewrite bind_get_store.
  destruct (checkInterval (trading s)) as [handle|]; reflexivity.
Qed.

(** C3. [startTrading] on an agent that is already running throws
    Error("Agent already running"), changes nothing and emits nothing, so no
    second timer is created.  The transitions of the driver are
    Idle -start-> Running (one timer created, no throw), any -stop-> Idle
    (the timer removed, no throw); a tick and [enableBuybackBurn] keep the
    state. *)
Theorem trading_driver_two_states :
  forall (cfg : TradingConfig) (b : BuybackConfig) (h : History) (s : Store),
    (phase (trading s) = Running ->
       startTrading rt cfg h s = (Throw (Error "Agent already running"), s, []))
    /\ (phase (trading s) = Idle ->
          res (startTrading rt cfg h s) = Ok tt
          /\ phase (trading (store (startTrading rt cfg h s))) = Running
          /\ checkInterval (trading (store (startTrading rt cfg h s))) = Some (next_handle s)
          /\ intervals (store (startTrading rt cfg h s)) =
               (intervals s ++ [(next_handle s, CbAnalyzeAndTrade, 30000%float)])%list
          /\ count is_setInterval (evs (startTrading rt cfg h s)) = 1)
    /\ (res (stopTrading h s) = Ok tt
        /\ phase (trading (store (stopTrading h s))) = Idle
        /\ checkInterval (trading (store (stopTrading h s))) = None
        /\ intervals (store (stopTrading h s)) =
             match checkInterval (trading s) with
             | Some handle =>
                 filter (fun t => negb (Nat.eqb (fst (fst t)) handle)) (intervals s)
             | None => intervals s
             end)
    /\ phase (trading (store (analyzeAndTrade rt h s))) = phase (trading s)
    /\ phase (trading (store (enableBuybackBurn b h s))) = phase (trading s).
Proof.
  intros cfg b h s. unfold phase.
  split; [|split; [|split; [|split]]].
  - destruct (isRunning (trading s)) eqn:Hrun; [intros _ | discriminate].
    unfold startTrading. rewrite bind_get_store, Hrun. reflexivity.
  - destruct (isRunning (trading s)) eqn:Hrun; [discriminate | intros _].
    rewrite (startTrading_idle cfg h s Hrun). cbv zeta.
    match goal with |- context [analyzeAndTrade rt ?h1 ?s1] =>
      destruct (analyzeAndTrade_keeps h1 s1) as [(T & _ & I & _) E];
      pose proof (analyzeAndTrade_no_throw h1 s1) as R;
      set (o := analyzeAndTrade rt h1 s1) in *
    end.
    apply no_timer_count in E. unfold count in *.
    unfold res, store, evs in *. simpl in *.
    rewrite T, I, E. repeat split; try reflexivity. exact R.
  - rewrite stopTrading_run.
    destruct (checkInterval (trading s)) eqn:Hc; simpl; repeat split; try reflexivity.
    exact Hc.
  - destruct (analyzeAndTrade_keeps h s) as [(T & _) _]. rewrite T. reflexivity.
  - reflexivity.
Qed.

(** The marketing driver has the same guard. *)
Lemma startMarketing_when_running cfg h s :
  m_isRunning (marketing s) = true ->
  startMarketing rt cfg h s = (Throw (Error "Marketing agent already running"), s, []).
Proof.
  intros Hrun. unfold startMarketing. rewrite bind_get_store, Hrun. reflexivity.
Qed.

(** *** C8: a tick never throws *)

Lemma timer_fires_keeps id : Keeps no_timer (timer_fires rt id).
Proof.
  unfold timer_fires. apply Keeps_bind; [keeps | intros s].
  destruct (registered id s) as [[|]|]; simpl.
  - apply analyzeAndTrade_keeps.
  - apply Keeps_quiet_no_timer, analyzeAndAllocate_quiet.
  - keeps.
Qed.

Lemma timer_fires_no_throw id h s : res (timer_fires rt id h s) = Ok tt.
Proof.
  unfold timer_fires. rewrite bind_get_store.
  destruct (registered id s) as [[|]|]; simpl.
  - apply analyzeAndTrade_no_throw.
  - apply analyzeAndAllocate_no_throw.
  - reflexivity.
Qed.

Lemma ticks_keeps n id : Keeps no_timer (ticks rt n id).
Proof.
  induction n as [|n IH]; simpl; [keeps|].
  apply Keeps_bind; [apply timer_fires_keeps | intros _; exact IH].
Qed.

Lemma ticks_no_throw n id : forall h s, res (ticks rt n id h s) = Ok tt.
Proof.
  induction n as [|n IH]; intros h s; simpl; [reflexivity|].
  pose proof (timer_fires_no_throw id h s) as Hfire.
  destruct (timer_fires rt id h s) as [[r s1] e1] eqn:Hrun.
  unfold res in Hfire. simpl in Hfire. subst r.
  rewrite (bind_ok _ _ _ _ _ _ _ Hrun). apply IH.
Qed.

(** C8. A tick of either driver ([analyzeAndTrade], [analyzeAndAllocate])
    never throws: it returns normally from every history and store, leaves the
    fields of both drivers and the registered timers as they were, and when a
    step of its [try] block throws an error, the tick stops there and its
    last event is the [console.error] of that error.  Hence any number of
    firings of a timer return normally and leave the timers registered. *)
Theorem ticks_never_rethrow :
  forall (h : History) (s : Store),
    (res (analyzeAndTrade rt h s) = Ok tt
     /\ same_drivers s (store (analyzeAndTrade rt h s))
     /\ (forall cfg e s1 e1,
            config (trading s) = Some cfg ->
            analyzeAndTrade_try rt cfg h s = (Throw e, s1, e1) ->
            analyzeAndTrade rt h s = (Ok tt, s1, (e1 ++ [ConsoleError Trading e])%list)))
    /\ (res (analyzeAndAllocate rt h s) = Ok tt
        /\ same_drivers s (store (analyzeAndAllocate rt h s))
        /\ (forall cfg e s1 e1,
               m_config (marketing s) = Some cfg ->
               analyzeAndAllocate_try rt h s = (Throw e, s1, e1) ->
               analyzeAndAllocate rt h s = (Ok tt, s1, (e1 ++ [ConsoleError Marketing e])%list)))
    /\ (forall n id,
           res (ticks rt n id h s) = Ok tt
           /\ same_drivers s (store (ticks rt n id h s))
           /\ registered id (store (ticks rt n id h s)) = registered id s).
Proof.
  intros h s. split; [|split].
  - split; [apply analyzeAndTrade_no_throw|]. split; [apply analyzeAndTrade_keeps|].
    intros cfg e s1 e1 Hcfg Htry. rewrite analyzeAndTrade_run, Hcfg, Htry. reflexivity.
  - split; [apply analyzeAndAllocate_no_throw|]. split; [apply analyzeAndAllocate_quiet|].
    intros cfg e s1 e1 Hcfg Htry. rewrite analyzeAndAllocate_run, Hcfg, Htry. reflexivity.
  - intros n id. split; [apply ticks_no_throw|].
    destruct (ticks_keeps n id h s) as [Hs _]. split; [exact Hs|].
    destruct Hs as (_ & _ & I & _). unfold registered. rewrite I. reflexivity.
Qed.

(** *** C9, C10: the buyback path and decisions without an amount *)

(** C9. [collectFees], whenever it returns, returns 0; and [checkBuyback]
    never calls [buybackAndBurn], for any snapshot, buyback configuration and
    runtime, also when the price is below the trigger price. *)
Theorem collectFees_zero_so_no_buyback :
  forall (this : MayhemSDK) (marketData : MarketData) (h : History) (s : Store),
    (forall v, res (collectFees rt this h s) = Ok v -> v = 0%float)
    /\ existsb is_buybackAndBurn (evs (checkBuyback rt marketData h s)) = false.
Proof.
  intros this marketData h s. split.
  - intros v Hv. exact (collectFees_zero this h s v Hv).
  - destruct (checkBuyback_quiet marketData h s) as [_ Hq].
    apply quiet_no_execution in Hq.
    induction (evs (checkBuyback rt marketData h s)) as [|e es IH]; [reflexivity|].
    simpl in *. apply orb_false_elim in Hq. destruct Hq as [He Hes].
    rewrite (IH Hes). destruct e as [| | | |[]| |]; simpl in *; try reflexivity; discriminate.
Qed.

Lemma getMarketData_valid_mint mintAddress h s md s1 e1 :
  getMarketData rt mintAddress h s = (Ok md, s1, e1) ->
  PublicKey_valid rt mintAddress = true /\ price md = 0.0001%float.
Proof.
  unfold getMarketData. rewrite bind_get_store. cbv zeta. unfold new_PublicKey.
  destruct (PublicKey_valid rt mintAddress); [|discriminate].
  rewrite bind_lift_ok. intros H. split; [reflexivity|].
  unfold bind in H.
  destruct (getTokenInfo rt _ _ _ _) as [[[ti|] ?] ?]; [|discriminate].
  unfold getTokenPrice at 1 in H. simpl in H.
  destruct (getVolume24h rt _ _ _ _) as [[[v|] ?] ?]; [|discriminate].
  simpl in H. destruct (ToNumber rt (supply ti)); [|discriminate].
  inversion H. reflexivity.
Qed.

(** Without an amount the four guarded cases of the [switch] do nothing: all
    that [executeDecision] does is build the public key of the mint. *)
Lemma executeDecision_skips d h s :
  amount d = Js.Undefined ->
  needs_amount (action d) = true ->
  executeDecision rt d h s =
  match config (trading s) with
  | None => (Ok tt, s, [])
  | Some cfg =>
      if PublicKey_valid rt (tokenMint cfg) then (Ok tt, s, [])
      else (Throw (PublicKey_error rt (tokenMint cfg)), s, [])
  end.
Proof.
  intros Hamount Hact.
  unfold executeDecision. rewrite bind_get_store. cbv zeta.
  destruct (config (trading s)) as [cfg|]; [|reflexivity].
  unfold new_PublicKey.
  destruct (PublicKey_valid rt (tokenMint cfg)) eqn:Hvalid; [|reflexivity].
  rewrite bind_lift_ok. rewrite Hamount. simpl Js.ToBoolean. unfold when.
  unfold needs_amount in Hact.
  destruct (Js.is_string (action d) "buy"); [reflexivity|].
  destruct (Js.is_string (action d) "sell"); [reflexivity|].
  destruct (Js.is_string (action d) "burn"); [reflexivity|].
  destruct (Js.is_string (action d) "add_lp"); [reflexivity|].
  discriminate.
Qed.

(** C10. For a decision whose action is 'buy', 'sell', 'burn' or 'add_lp' and
    whose amount is absent, [executeDecision] emits nothing (so it calls no
    SDK method) and leaves the store alone, whatever the confidence.  It
    returns normally whenever the configured token mint is a valid public
    key; this is the case whenever the decision was obtained in a tick, the
    snapshot having built the same key before. *)
Theorem executeDecision_without_amount :
  forall (d : LLMResponse) (h : History) (s : Store),
    amount d = Js.Undefined ->
    needs_amount (action d) = true ->
    evs (executeDecision rt d h s) = []
    /\ store (executeDecision rt d h s) = s
    /\ ((forall cfg, config (trading s) = Some cfg ->
                     PublicKey_valid rt (tokenMint cfg) = true) ->
        res (executeDecision rt d h s) = Ok tt)
    /\ (forall cfg h0 s0 marketData s1 e1 e2,
           config (trading s0) = Some cfg ->
           getMarketData rt (tokenMint cfg) h0 s0 = (Ok marketData, s1, e1) ->
           decideTrade rt marketData (h0 ++ e1)%list s1 = (Ok d, s, e2) ->
           res (executeDecision rt d h s) = Ok tt).
Proof.
  intros d h s Hamount Hact.
  rewrite (executeDecision_skips d h s Hamount Hact).
  split; [|split; [|split]].
  - destruct (config (trading s)) as [cfg|]; [|reflexivity].
    destruct (PublicKey_valid rt (tokenMint cfg)); reflexivity.
  - destruct (config (trading s)) as [cfg|]; [|reflexivity].
    destruct (PublicKey_valid rt (tokenMint cfg)); reflexivity.
  - intros Hvalid. destruct (config (trading s)) as [cfg|]; [|reflexivity].
    rewrite (Hvalid cfg eq_refl). reflexivity.
  - intros cfg h0 s0 marketData s1 e1 e2 Hcfg Hmd Hd.
    destruct (getMarketData_valid_mint _ _ _ _ _ _ Hmd) as [Hvalid _].
    destruct (getMarketData_quiet (tokenMint cfg) h0 s0) as [(T1 & _) _].
    destruct (decideTrade_quiet marketData (h0 ++ e1)%list s1) as [(T2 & _) _].
    rewrite Hmd in T1. rewrite Hd in T2. unfold store in T1, T2. simpl in T1, T2.
    rewrite T2, T1, Hcfg, Hvalid. reflexivity.
Qed.

(** *** C4, C5: one tick of the trading driver *)

Lemma evs_bind_ok {A B} (m : M A) (f : A -> M B) h s a s1 e1 :
  m h s = (Ok a, s1, e1) ->
  evs (bind m f h s) = (e1 ++ evs (f a (h ++ e1)%list s1))%list.
Proof. intros Hm. rewrite (bind_ok _ _ _ _ _ _ _ Hm). reflexivity. Qed.

Lemma evs_bind_emit {B} (e : Event) (f : unit -> M B) h s :
  evs (bind (emit e) f h s) = e :: evs (f tt (h ++ [e])%list s).
Proof. rewrite bind_emit. reflexivity. Qed.

Lemma existsb_evs_bind {A B} (P : Event -> bool) (m : M A) (f : A -> M B) h s :
  existsb P (evs (m h s)) = true -> existsb P (evs (bind m f h s)) = true.
Proof.
  unfold bind. destruct (m h s) as [[[a|e] s1] e1]; simpl; [|trivial].
  destruct (f a (h ++ e1)%list s1) as [[r s2] e2]. simpl.
  intros H. rewrite existsb_app, H. reflexivity.
Qed.

Lemma analyzeAndTrade_try_unfold cfg :
  analyzeAndTrade_try rt cfg =
  (marketData <- getMarketData rt (tokenMint cfg) ;;
   decision <- decideTrade rt marketData ;;
   after_decision rt marketData decision).
Proof. reflexivity. Qed.

(** Without a confidence above 0.7 the rest of the block is quiet. *)
Lemma after_decision_quiet marketData d :
  gt rt (confidence d) 0.7%float <> Ok true ->
  Keeps quiet (after_decision rt marketData d).
Proof.
  intros Hlow. unfold after_decision, console_log, interpolate.
  do 5 (apply Keeps_bind; [solve [keeps] | intros ?]).
  apply (Keeps_bind_post quiet (fun b => b = false)).
  - keeps.
  - intros h s b Hb. unfold res, lift in Hb. simpl in Hb.
    destruct b; [congruence | reflexivity].
  - intros b ->. keeps.
Qed.

Lemma try_quiet_tick_quiet cfg h s :
  config (trading s) = Some cfg ->
  forallb quiet (evs (analyzeAndTrade_try rt cfg h s)) = true ->
  forallb quiet (evs (analyzeAndTrade rt h s)) = true.
Proof.
  intros Hcfg Htry. rewrite analyzeAndTrade_run, Hcfg.
  destruct (analyzeAndTrade_try rt cfg h s) as [[[a|e] s1] e1]; unfold evs in *; simpl in *.
  - exact Htry.
  - rewrite forallb_app, Htry. reflexivity.
Qed.

(** C4. In every tick whose decision has a confidence that is not strictly
    greater than 0.7, no execution path is entered: no [executeBuy],
    [executeSell], [executeBurn], and no trade, liquidity or buyback call of
    the SDK, whatever the action of the decision and whatever the buyback
    configuration. *)
Theorem low_confidence_no_execution :
  forall (h : History) (s : Store) (cfg : TradingConfig)
         (marketData : MarketData) (s1 : Store) (e1 : list Event)
         (d : LLMResponse) (s2 : Store) (e2 : list Event),
    config (trading s) = Some cfg ->
    getMarketData rt (tokenMint cfg) h s = (Ok marketData, s1, e1) ->
    decideTrade rt marketData (h ++ e1)%list s1 = (Ok d, s2, e2) ->
    gt rt (confidence d) 0.7%float <> Ok true ->
    existsb is_execution (evs (analyzeAndTrade rt h s)) = false.
Proof.
  intros h s cfg marketData s1 e1 d s2 e2 Hcfg Hmd Hd Hlow.
  apply quiet_no_execution. apply (try_quiet_tick_quiet cfg); [exact Hcfg|].
  rewrite analyzeAndTrade_try_unfold.
  rewrite (evs_bind_ok _ _ _ _ _ _ _ Hmd), (evs_bind_ok _ _ _ _ _ _ _ Hd).
  rewrite !forallb_app.
  destruct (getMarketData_quiet (tokenMint cfg) h s) as [_ Q1].
  destruct (decideTrade_quiet marketData (h ++ e1)%list s1) as [_ Q2].
  rewrite Hmd in Q1. rewrite Hd in Q2. unfold evs at 1 in Q1. unfold evs at 1 in Q2.
  simpl in Q1, Q2. rewrite Q1, Q2. simpl.
  apply (after_decision_quiet marketData d Hlow).
Qed.

Lemma collectFees_called this h s :
  existsb is_collectFees (evs (collectFees rt this h s)) = true.
Proof. unfold collectFees. rewrite evs_bind_emit. reflexivity. Qed.

Lemma checkBuyback_collects marketData h s b cfg :
  buybackConfig (trading s) = Some b ->
  config (trading s) = Some cfg ->
  shouldBuyback b marketData = true ->
  existsb is_collectFees (evs (checkBuyback rt marketData h s)) = true.
Proof.
  intros Hb Hcfg Hshould. unfold checkBuyback.
  rewrite bind_get_store. cbv zeta. rewrite Hb, Hcfg, Hshould.
  unfold when at 1, console_log. rewrite evs_bind_emit. simpl existsb.
  apply existsb_evs_bind. apply collectFees_called.
Qed.

(** The buyback check at the end of the [try] block. *)
Lemma buyback_step_collects marketData h s b cfg :
  buybackConfig (trading s) = Some b ->
  config (trading s) = Some cfg ->
  enabled b = true ->
  shouldBuyback b marketData = true ->
  existsb is_collectFees
    (evs ((s' <- get_store ;;
           when (buyback_enabled (trading s')) (checkBuyback rt marketData)) h s)) = true.
Proof.
  intros Hb Hcfg Hen Hshould. rewrite bind_get_store.
  unfold buyback_enabled. rewrite Hb, Hen. simpl when.
  apply (checkBuyback_collects marketData h s b cfg); assumption.
Qed.

Lemma existsb_tick P cfg h s :
  config (trading s) = Some cfg ->
  existsb P (evs (analyzeAndTrade_try rt cfg h s)) = true ->
  existsb P (evs (analyzeAndTrade rt h s)) = true.
Proof.
  intros Hcfg Htry. rewrite analyzeAndTrade_run, Hcfg.
  destruct (analyzeAndTrade_try rt cfg h s) as [[[a|e] s1] e1]; unfold evs in *; simpl in *.
  - exact Htry.
  - rewrite existsb_app, Htry. reflexivity.
Qed.

Lemma mul_gt v x y percent :
  mul rt v x = Ok percent -> exists b, gt rt v y = Ok b.
Proof.
  unfold mul, gt, and_then. destruct (ToNumber rt v); [|discriminate].
  intros _. eexists. reflexivity.
Qed.

(** C5 (amended). In every tick with an enabled buyback configuration whose
    trigger price is set (truthy) and a snapshot price strictly below it, the
    driver calls [sdk.collectFees] whatever the action of the decision,
    provided the tick gets as far as the buyback check: the snapshot was
    built, the decision was obtained, its action, confidence and reasoning
    could be printed (their conversions inside the two log lines did not
    throw), and the execution of the decision, if the confidence called for
    one, returned without throwing. *)
Theorem buyback_check_collects_fees :
  forall (h : History) (s : Store) (cfg : TradingConfig) (b : BuybackConfig) (t : float)
         (marketData : MarketData) (s1 : Store) (e1 : list Event)
         (d : LLMResponse) (s2 : Store) (e2 : list Event)
         (act rsn : string) (percent : Js.value),
    config (trading s) = Some cfg ->
    buybackConfig (trading s) = Some b ->
    enabled b = true ->
    triggerPrice b = Some t ->
    Js.truthy_number t = true ->
    getMarketData rt (tokenMint cfg) h s = (Ok marketData, s1, e1) ->
    lt_num (price marketData) t = true ->
    decideTrade rt marketData (h ++ e1)%list s1 = (Ok d, s2, e2) ->
    ToString rt (action d) = Ok act ->
    mul rt (confidence d) (Js.Number 100%float) = Ok percent ->
    ToString rt (reasoning d) = Ok rsn ->
    (gt rt (confidence d) 0.7%float = Ok true ->
     res (executeDecision rt d (((h ++ e1) ++ e2) ++ logged_decision d percent)%list s2)
       = Ok tt) ->
    existsb is_collectFees (evs (analyzeAndTrade rt h s)) = true.
Proof.
  intros h s cfg b t marketData s1 e1 d s2 e2 act rsn percent
         Hcfg Hb Hen Ht Htruthy Hmd Hprice Hd Hact Hmul Hrsn Hexec.
  assert (Hshould : shouldBuyback b marketData = true).
  { unfold shouldBuyback. rewrite Ht, Htruthy, Hprice. reflexivity. }
  destruct (getMarketData_quiet (tokenMint cfg) h s) as [(T1 & _) _].
  destruct (decideTrade_quiet marketData (h ++ e1)%list s1) as [(T2 & _) _].
  rewrite Hmd in T1. rewrite Hd in T2. unfold store in T1, T2. simpl in T1, T2.
  assert (Ts2 : trading s2 = trading s) by congruence.
  apply (existsb_tick _ cfg); [exact Hcfg|].
  rewrite analyzeAndTrade_try_unfold.
  rewrite (evs_bind_ok _ _ _ _ _ _ _ Hmd), (evs_bind_ok _ _ _ _ _ _ _ Hd).
  rewrite !existsb_app. unfold after_decision, interpolate, console_log.
  rewrite Hact, bind_lift_ok, Hmul, bind_lift_ok, evs_bind_emit.
  rewrite Hrsn, bind_lift_ok, evs_bind_emit. simpl existsb.
  rewrite <- (app_assoc _ [_] [_]). simpl app.
  fold (logged_decision d percent).
  destruct (mul_gt _ _ 0.7%float _ Hmul) as [confident Hgt].
  rewrite Hgt, bind_lift_ok. destruct confident.
  - specialize (Hexec Hgt).
    destruct (executeDecision_keeps d (((h ++ e1) ++ e2) ++ logged_decision d percent)%list s2)
      as [(T3 & _) _].
    destruct (executeDecision rt d (((h ++ e1) ++ e2) ++ logged_decision d percent)%list s2)
      as [[r s3] e3] eqn:Hrun.
    unfold res in Hexec. unfold store in T3. simpl in Hexec, T3. subst r.
    rewrite (evs_bind_ok _ _ _ _ _ _ _ Hrun). rewrite existsb_app.
    rewrite (buyback_step_collects marketData _ s3 b cfg); try congruence.
    rewrite !orb_true_r. reflexivity.
  - rewrite evs_bind_emit. simpl existsb.
    rewrite (buyback_step_collects marketData _ s2 b cfg); try congruence.
    rewrite !orb_true_r. reflexivity.
Qed.

(** *** C6: buyback and burn *)

(** C6. With a wallet and a controller program configured, [buybackAndBurn]
    calls [trade] exactly once, with side 'buy' and the full [solAmount];
    it submits exactly one transaction, the one of that trade, which carries
    no instruction (in particular no burn instruction); when the trade has
    returned and [burnPercentage > 0] it prints the intention to burn and does
    nothing else; its result is the result of the trade, so a returned
    signature is the one [sendTransaction] gave to the buy. *)
Theorem buybackAndBurn_single_trade :
  forall (this : MayhemSDK) (p : BuybackParams) (h : History) (s : Store)
         (w : Keypair) (c : PublicKey),
    wallet this = Some w ->
    controllerProgram this = Some c ->
    let buyParams := {| tp_tokenMint := bp_tokenMint p;
                        tp_amount := Js.Number (solAmount p);
                        tp_side := buy; tp_slippage := None |} in
    let intro := [ Call (CallBuybackAndBurn p);
                   ConsoleLog (LogBuyback (solAmount p) (bp_burnPercentage p)) ] in
    let bought := trade rt this buyParams (h ++ intro)%list s in
    let o := buybackAndBurn rt this p h s in
    res o = res bought
    /\ store o = s
    /\ evs o = (intro ++ evs bought ++
                if is_ok (res bought) && gt_num (bp_burnPercentage p) 0%float
                then [ConsoleLog (LogBurnIntent (bp_burnPercentage p))]
                else [])%list
    /\ filter is_trade_call (evs o) = [Call (CallTrade buyParams)]
    /\ filter is_sendTransaction (evs o) = [Rpc (SendTransaction [] [Some w])]
    /\ (forall signature,
           res o = Ok signature ->
           sendTransaction rt
             (h ++ intro ++ [Call (CallTrade buyParams);
                             ConsoleLog (LogTrade buy (Js.Number (solAmount p)))])%list
             [] [Some w] = Ok signature).
Proof.
  intros this p h s w c Hw Hc. cbv zeta.
  unfold buybackAndBurn, trade, rpc, request, console_log, emit, when, throw, ret, bind.
  rewrite Hw, Hc. simpl. rewrite <- !app_assoc. simpl.
  destruct (sendTransaction rt _ _ _) as [signature|e] eqn:Hsend; simpl.
  - destruct (confirmTransaction rt _ _) as [[]|e]; simpl.
    + destruct (gt_num (bp_burnPercentage p) 0%float); simpl;
        repeat split; intros sg Hsg; inversion Hsg; subst sg; reflexivity.
    + repeat split; intros sg Hsg; discriminate.
  - repeat split; intros sg Hsg; discriminate.
Qed.

(** *** Further properties: what leaves the store alone *)

Lemma Untouched_ret {A} (a : A) : Untouched (ret a).
Proof. intros h s. reflexivity. Qed.

Lemma Untouched_throw {A} e : Untouched (@throw A e).
Proof. intros h s. reflexivity. Qed.

Lemma Untouched_lift {A} (r : Res A) : Untouched (lift r).
Proof. intros h s. reflexivity. Qed.

Lemma Untouched_get_store : Untouched get_store.
Proof. intros h s. reflexivity. Qed.

Lemma Untouched_get_history : Untouched get_history.
Proof. intros h s. reflexivity. Qed.

Lemma Untouched_emit e : Untouched (emit e).
Proof. intros h s. reflexivity. Qed.

Lemma Untouched_request {A} e (answer : History -> Res A) : Untouched (request e answer).
Proof. intros h s. reflexivity. Qed.

Lemma Untouched_bind {A B} (m : M A) (f : A -> M B) :
  Untouched m -> (forall a, Untouched (f a)) -> Untouched (bind m f).
Proof.
  intros Hm Hf h s. unfold bind. specialize (Hm h s).
  destruct (m h s) as [[[a|e] s1] e1]; unfold store in *; simpl in *; [|exact Hm].
  specialize (Hf a (h ++ e1)%list s1).
  destruct (f a (h ++ e1)%list s1) as [[r s2] e2]; unfold store in *; simpl in *.
  congruence.
Qed.

Lemma Untouched_try_catch {A} (m : M A) (handler : Exn -> M A) :
  Untouched m -> (forall e, Untouched (handler e)) -> Untouched (try_catch m handler).
Proof.
  intros Hm Hh h s. unfold try_catch. specialize (Hm h s).
  destruct (m h s) as [[[a|e] s1] e1]; unfold store in *; simpl in *; [exact Hm|].
  specialize (Hh e (h ++ e1)%list s1).
  destruct (handler e (h ++ e1)%list s1) as [[r s2] e2]; unfold store in *; simpl in *.
  congruence.
Qed.

Lemma Untouched_when (b : bool) (m : M unit) : Untouched m -> Untouched (when b m).
Proof. intros Hm. destruct b; [exact Hm | apply Untouched_ret]. Qed.

Lemma Untouched_for_of {A} (xs : list A) (f : A -> M unit) :
  (forall x, Untouched (f x)) -> Untouched (for_of xs f).
Proof.
  intros Hf. induction xs as [|x rest IH]; simpl.
  - apply Untouched_ret.
  - apply Untouched_bind; [apply Hf | intros _; exact IH].
Qed.

Create HintDb untouched.

Ltac untouched_step :=
  first
    [ solve [ auto with untouched nocore ]
    | apply Untouched_ret | apply Untouched_throw | apply Untouched_lift
    | apply Untouched_get_store | apply Untouched_get_history
    | apply Untouched_emit | apply Untouched_request
    | apply Untouched_when
    | apply Untouched_for_of; intros ?
    | apply Untouched_try_catch; [ | intros ? ]
    | apply Untouched_bind; [ | intros ? ]
    | match goal with |- Untouched (match ?x with _ => _ end) => destruct x end
    | progress cbv zeta ].

Ltac untouched := repeat untouched_step.

Lemma trade_untouched this params : Untouched (trade rt this params).
Proof. unfold trade, rpc, console_log. untouched. Qed.

Lemma collectFees_untouched this : Untouched (collectFees rt this).
Proof. unfold collectFees, rpc, console_log. untouched. Qed.

Lemma addLiquidityFromFees_untouched this mint feeAmount :
  Untouched (addLiquidityFromFees rt this mint feeAmount).
Proof. unfold addLiquidityFromFees, rpc, console_log. untouched. Qed.

#[local] Hint Resolve trade_untouched collectFees_untouched addLiquidityFromFees_untouched
  : untouched.

Lemma buybackAndBurn_untouched this params : Untouched (buybackAndBurn rt this params).
Proof. unfold buybackAndBurn, console_log. untouched. Qed.

Lemma getMarketData_untouched mintAddress : Untouched (getMarketData rt mintAddress).
Proof.
  unfold getMarketData, getTokenInfo, getTokenPrice, getVolume24h, rpc. untouched.
Qed.

Lemma queryLLM_untouched customPrompt : Untouched (queryLLM rt customPrompt).
Proof.
  unfold queryLLM. apply Untouched_bind; [untouched | intros s].
  cbv zeta.
  repeat match goal with
         | |- Untouched (if String.eqb ?a ?b then _ else _) => destruct (String.eqb a b)
         end;
    unfold queryOpenRouter, queryEliza, queryOpenAI, queryAnthropic, queryCustom, http;
    untouched.
Qed.

Lemma parseTradingResponse_untouched response : Untouched (parseTradingResponse rt response).
Proof. unfold parseTradingResponse, parse_json. untouched. Qed.

Lemma parseMarketingResponse_untouched response :
  Untouched (parseMarketingResponse rt response).
Proof. unfold parseMarketingResponse, parse_json. untouched. Qed.

#[local] Hint Resolve buybackAndBurn_untouched getMarketData_untouched queryLLM_untouched
  parseTradingResponse_untouched parseMarketingResponse_untouched : untouched.

Lemma executeDecision_untouched d : Untouched (executeDecision rt d).
Proof.
  unfold executeDecision, executeBuy, executeSell, executeBurn, console_log. untouched.
Qed.

Lemma checkBuyback_untouched marketData : Untouched (checkBuyback rt marketData).
Proof. unfold checkBuyback, console_log. untouched. Qed.

Lemma decideMarketing_untouched metrics : Untouched (decideMarketing rt metrics).
Proof. unfold decideMarketing. cbv zeta. untouched. Qed.

Lemma analyzeAndAllocate_untouched : Untouched (analyzeAndAllocate rt).
Proof.
  unfold analyzeAndAllocate, analyzeAndAllocate_try, fetchPlatformMetrics, calculateMetrics,
    executeAllocation, trackPerformance, decideMarketing, http, console_log, console_error.
  untouched.
Qed.

#[local] Hint Resolve executeDecision_untouched checkBuyback_untouched
  decideMarketing_untouched analyzeAndAllocate_untouched : untouched.

(** *** The conversation of the connector *)

Lemma parseTradingResponse_returns response h s :
  exists d, parseTradingResponse rt response h s = (Ok d, s, []).
Proof.
  unfold parseTradingResponse, try_catch, parse_json.
  destruct (ToString rt response) as [text|e]; [|eexists; reflexivity].
  unfold and_then.
  destruct (JSON_parse rt text) as [parsed|]; [|eexists; reflexivity].
  rewrite bind_lift_ok. destruct parsed; eexists; reflexivity.
Qed.

(** The parser looks neither at the history nor at the store. *)
Lemma parseTradingResponse_pure response h s h' s' :
  res (parseTradingResponse rt response h s) = res (parseTradingResponse rt response h' s').
Proof.
  unfold parseTradingResponse, try_catch, parse_json.
  destruct (ToString rt response) as [text|e]; [|reflexivity].
  unfold and_then.
  destruct (JSON_parse rt text) as [parsed|]; [|reflexivity].
  rewrite !bind_lift_ok. destruct parsed; reflexivity.
Qed.

Lemma decideTrade_no_prompt marketData e h s :
  buildTradingPrompt rt marketData = Throw e ->
  decideTrade rt marketData h s = (Throw e, s, []).
Proof. intros Hp. unfold decideTrade. rewrite Hp. reflexivity. Qed.

Lemma decideTrade_run marketData prompt h s :
  buildTradingPrompt rt marketData = Ok prompt ->
  let user := {| role := "user"; content := Js.Str prompt |} in
  let asked := set_llm {| llm_config := llm_config (llm s);
                          conversationHistory := (conversationHistory (llm s) ++ [user])%list |}
                 s in
  decideTrade rt marketData h s =
  match queryLLM rt None h asked with
  | (Ok response, _, e1) =>
      (res (parseTradingResponse rt response h s),
       set_llm {| llm_config := llm_config (llm s);
                  conversationHistory :=
                    (conversationHistory (llm s)
                       ++ [user; {| role := "assistant";
                                    content := JSON_stringify rt response |}])%list |} s,
       e1)
  | (Throw e, _, e1) => (Throw e, asked, e1)
  end.
Proof.
  intros Hp. cbv zeta. unfold decideTrade. rewrite Hp, bind_lift_ok.
  unfold push_history at 1. rewrite bind_modify.
  match goal with |- context [queryLLM rt None h ?a] =>
    pose proof (queryLLM_untouched None h a) as Hst;
    destruct (queryLLM rt None h a) as [[[response|e] s1] e1] eqn:Hq
  end; unfold store in Hst; simpl in Hst; subst s1.
  - rewrite (bind_ok _ _ _ _ _ _ _ Hq). unfold push_history. rewrite bind_modify.
    match goal with |- context [parseTradingResponse rt response ?h1 ?s1] =>
      destruct (parseTradingResponse_returns response h1 s1) as [d Hd];
      rewrite Hd;
      rewrite (parseTradingResponse_pure response h s h1 s1), Hd
    end.
    unfold res, store, evs. simpl. rewrite app_nil_r.
    unfold set_llm. simpl. rewrite <- app_assoc. reflexivity.
  - rewrite (bind_throw _ _ _ _ _ _ _ Hq). reflexivity.
Qed.

(** X1. The conversation after [decideTrade].  A prompt that cannot be built
    ends the call before anything happens.  Otherwise the user prompt is
    appended, the LLM is queried with the conversation that ends in it, and
    the assistant message appended after it holds JSON.stringify of exactly
    the reply that query returned; the decision is the parse of that reply.
    A query that fails leaves the prompt behind without an answer and its
    error is the error of [decideTrade].  The configuration and the drivers
    are never touched. *)
Theorem decideTrade_conversation :
  forall (marketData : MarketData) (h : History) (s : Store),
    llm_config (llm (store (decideTrade rt marketData h s))) = llm_config (llm s)
    /\ same_drivers s (store (decideTrade rt marketData h s))
    /\ (forall e, buildTradingPrompt rt marketData = Throw e ->
          decideTrade rt marketData h s = (Throw e, s, []))
    /\ (forall prompt,
          buildTradingPrompt rt marketData = Ok prompt ->
          let user := {| role := "user"; content := Js.Str prompt |} in
          let asked :=
            set_llm {| llm_config := llm_config (llm s);
                       conversationHistory := (conversationHistory (llm s) ++ [user])%list |}
              s in
          (forall d, res (decideTrade rt marketData h s) = Ok d ->
             exists reply,
               res (queryLLM rt None h asked) = Ok reply
               /\ conversationHistory (llm (store (decideTrade rt marketData h s))) =
                    (conversationHistory (llm s)
                       ++ [ user;
                            {| role := "assistant";
                               content := JSON_stringify rt reply |} ])%list
               /\ res (parseTradingResponse rt reply h s) = Ok d)
          /\ (forall e, res (decideTrade rt marketData h s) = Throw e ->
                res (queryLLM rt None h asked) = Throw e
                /\ conversationHistory (llm (store (decideTrade rt marketData h s))) =
                     (conversationHistory (llm s) ++ [user])%list)).
Proof.
  intros marketData h s.
  destruct (buildTradingPrompt rt marketData) as [prompt|e0] eqn:Hp.
  - rewrite (decideTrade_run marketData prompt h s Hp). cbv zeta.
    match goal with |- context [queryLLM rt None h ?a] =>
      destruct (queryLLM rt None h a) as [[[response|e] s1] e1] eqn:Hq
    end; unfold res, store; simpl.
    + split; [reflexivity|]. split; [repeat split|]. split; [intros e He; discriminate He|].
      intros prompt' Hp'. injection Hp' as <-. rewrite Hq. simpl. split.
      * intros d Hd. exists response. repeat split. exact Hd.
      * intros e He. destruct (parseTradingResponse_returns response h s) as [d Hd].
        rewrite Hd in He. discriminate He.
    + split; [reflexivity|]. split; [repeat split|]. split; [intros e' He'; discriminate He'|].
      intros prompt' Hp'. injection Hp' as <-. rewrite Hq. simpl. split.
      * intros d Hd. discriminate Hd.
      * intros e' He'. injection He' as <-. split; reflexivity.
  - rewrite (decideTrade_no_prompt marketData e0 h s Hp). unfold res, store. simpl.
    split; [reflexivity|]. split; [repeat split|]. split.
    + intros e He. injection He as <-. reflexivity.
    + intros prompt' Hp'. discriminate Hp'.
Qed.

Lemma conversation_extends_refl k s : conversation_extends k s s.
Proof. split; [reflexivity|]. exists []. rewrite app_nil_r. split; [reflexivity | simpl; lia]. Qed.

Lemma conversation_extends_trans a b s1 s2 s3 :
  conversation_extends a s1 s2 -> conversation_extends b s2 s3 ->
  conversation_extends (a + b) s1 s3.
Proof.
  intros (C1 & x & H1 & L1) (C2 & y & H2 & L2). split; [congruence|].
  exists (x ++ y)%list. rewrite H2, H1, app_assoc. split; [reflexivity|].
  rewrite length_app. lia.
Qed.

Lemma Grows_untouched {A} k (m : M A) : Untouched m -> Grows k m.
Proof. intros Hm h s. rewrite (Hm h s). apply conversation_extends_refl. Qed.

Lemma Grows_weaken {A} a b (m : M A) : a <= b -> Grows a m -> Grows b m.
Proof.
  intros Hab Hm h s. destruct (Hm h s) as (C & x & H & L).
  split; [exact C|]. exists x. split; [exact H | lia].
Qed.

Lemma Grows_bind {A B} a b (m : M A) (f : A -> M B) :
  Grows a m -> (forall x, Grows b (f x)) -> Grows (a + b) (bind m f).
Proof.
  intros Hm Hf h s. unfold bind. specialize (Hm h s).
  destruct (m h s) as [[[x|e] s1] e1]; unfold store in *; simpl in *.
  - specialize (Hf x (h ++ e1)%list s1).
    destruct (f x (h ++ e1)%list s1) as [[r s2] e2]; unfold store in *; simpl in *.
    eapply conversation_extends_trans; eassumption.
  - destruct Hm as (C & y & H & L). split; [exact C|]. exists y. split; [exact H | lia].
Qed.

Lemma Grows_try_catch {A} a (m : M A) (handler : Exn -> M A) :
  Grows a m -> (forall e, Untouched (handler e)) -> Grows a (try_catch m handler).
Proof.
  intros Hm Hh h s. unfold try_catch. specialize (Hm h s).
  destruct (m h s) as [[[x|e] s1] e1]; unfold store in *; simpl in *; [exact Hm|].
  specialize (Hh e (h ++ e1)%list s1).
  destruct (handler e (h ++ e1)%list s1) as [[r s2] e2]; unfold store in *; simpl in *.
  subst s2. exact Hm.
Qed.

Lemma decideTrade_grows marketData : Grows 2 (decideTrade rt marketData).
Proof.
  intros h s. destruct (buildTradingPrompt rt marketData) as [prompt|e0] eqn:Hp.
  - rewrite (decideTrade_run marketData prompt h s Hp). cbv zeta.
    match goal with |- context [queryLLM rt None h ?a] =>
      destruct (queryLLM rt None h a) as [[[response|e] s1] e1]
    end; unfold store; simpl; (split; [reflexivity|]); eexists; (split; [reflexivity|]);
      simpl; lia.
  - rewrite (decideTrade_no_prompt marketData e0 h s Hp). apply conversation_extends_refl.
Qed.

Lemma analyzeAndTrade_grows : Grows 2 (analyzeAndTrade rt).
Proof.
  unfold analyzeAndTrade.
  apply (Grows_bind 0 2); [apply Grows_untouched; untouched | intros s].
  destruct (config (trading s)) as [cfg|]; [|apply Grows_untouched; untouched].
  apply Grows_try_catch; [|intros e; unfold console_error; untouched].
  unfold analyzeAndTrade_try.
  apply (Grows_bind 0 2); [apply Grows_untouched, getMarketData_untouched | intros md].
  apply (Grows_bind 2 0); [apply decideTrade_grows | intros d].
  apply Grows_untouched. unfold console_log, interpolate. untouched.
Qed.

Lemma timer_fires_grows id : Grows 2 (timer_fires rt id).
Proof.
  unfold timer_fires.
  apply (Grows_bind 0 2); [apply Grows_untouched; untouched | intros s].
  destruct (registered id s) as [[|]|]; simpl.
  - apply analyzeAndTrade_grows.
  - apply Grows_untouched, analyzeAndAllocate_untouched.
  - apply Grows_untouched; untouched.
Qed.

(** X2. Over any number of timer firings the conversation is only ever appended
    to, by at most two messages per firing, and nothing is dropped: what the
    connector held before (the system prompt first) stays in front.  A
    marketing tick changes nothing in the store at all. *)
Theorem conversation_only_grows :
  forall (n id : nat) (h : History) (s : Store),
    conversation_extends (2 * n) s (store (ticks rt n id h s))
    /\ store (analyzeAndAllocate rt h s) = s.
Proof.
  intros n id h s. split; [|apply analyzeAndAllocate_untouched].
  revert h s. induction n as [|n IH]; intros h s.
  - apply conversation_extends_refl.
  - replace (2 * S n) with (2 + 2 * n) by lia. simpl ticks.
    apply (Grows_bind 2 (2 * n)); [apply timer_fires_grows | intros _ h' s'; apply IH].
Qed.

(** *** The timers of both drivers *)

Lemma startMarketing_idle cfg h s :
  m_isRunning (marketing s) = false ->
  let started :=
    set_marketing (with_monitorInterval (Some (next_handle s))
                     (with_m_isRunning true (with_m_config (Some cfg) (marketing s))))
      {| llm := llm s; trading := trading s; marketing := marketing s;
         intervals := (intervals s ++ [(next_handle s, CbAnalyzeAndAllocate,
                                        timeout_ms (hours_to_ms (rebalanceInterval cfg)))])%list;
         next_handle := S (next_handle s) |} in
  let h1 := (h ++ [ConsoleLog (LogStartMarketing (totalBudget cfg));
                   SetInterval (next_handle s) CbAnalyzeAndAllocate
                     (hours_to_ms (rebalanceInterval cfg))])%list in
  startMarketing rt cfg h s =
    (res (analyzeAndAllocate rt h1 started), store (analyzeAndAllocate rt h1 started),
     ConsoleLog (LogStartMarketing (totalBudget cfg))
       :: SetInterval (next_handle s) CbAnalyzeAndAllocate (hours_to_ms (rebalanceInterval cfg))
       :: evs (analyzeAndAllocate rt h1 started)).
Proof.
  intros Hidle. cbv zeta. unfold startMarketing.
  rewrite bind_get_store, Hidle. unfold update_marketing.
  rewrite !bind_modify. unfold console_log. rewrite bind_emit.
  erewrite (bind_ok (setInterval _ _)); [|reflexivity].
  rewrite bind_modify. simpl. rewrite <- app_assoc. reflexivity.
Qed.

Lemma stopMarketing_run h s :
  stopMarketing h s =
  match monitorInterval (marketing s) with
  | Some handle =>
      (Ok tt,
       set_marketing (with_m_isRunning false (with_monitorInterval None (marketing s)))
         {| llm := llm s; trading := trading s; marketing := marketing s;
            intervals := filter (fun t => negb (Nat.eqb (fst (fst t)) handle)) (intervals s);
            next_handle := next_handle s |},
       [ClearInterval handle; ConsoleLog LogMarketingStopped])
  | None =>
      (Ok tt, set_marketing (with_m_isRunning false (marketing s)) s,
       [ConsoleLog LogMarketingStopped])
  end.
Proof.
  unfold stopMarketing. rewrite bind_get_store.
  destruct (monitorInterval (marketing s)) as [handle|]; reflexivity.
Qed.

(** X3. The marketing driver has the two states of the trading driver:
    [startMarketing] on a running agent throws
    Error("Marketing agent already running") and changes nothing; from idle it
    calls [setInterval] exactly once, with [rebalanceInterval] hours in
    milliseconds, and returns normally whatever the first allocation does.
    The timer registered runs with that period only when it lies between
    1 ms and 2147483647 ms (about 596.5 hours); for a longer interval, a
    shorter one or NaN the period is 1 ms.  [stopMarketing] always returns,
    clears the handle and the flag; a tick keeps the state. *)
Theorem marketing_driver_two_states :
  forall (cfg : MarketingConfig) (h : History) (s : Store),
    let ms := (rebalanceInterval cfg * 60 * 60 * 1000)%float in
    (m_isRunning (marketing s) = true ->
       startMarketing rt cfg h s =
         (Throw (Error "Marketing agent already running"), s, []))
    /\ (m_isRunning (marketing s) = false ->
          res (startMarketing rt cfg h s) = Ok tt
          /\ m_isRunning (marketing (store (startMarketing rt cfg h s))) = true
          /\ m_config (marketing (store (startMarketing rt cfg h s))) = Some cfg
          /\ monitorInterval (marketing (store (startMarketing rt cfg h s)))
             = Some (next_handle s)
          /\ filter is_setInterval (evs (startMarketing rt cfg h s)) =
               [SetInterval (next_handle s) CbAnalyzeAndAllocate ms]
          /\ intervals (store (startMarketing rt cfg h s)) =
               (intervals s ++ [(next_handle s, CbAnalyzeAndAllocate,
                                 if PrimFloat.leb 1%float ms
                                    && PrimFloat.leb ms 2147483647%float
                                 then ms else 1%float)])%list)
    /\ (res (stopMarketing h s) = Ok tt
        /\ m_isRunning (marketing (store (stopMarketing h s))) = false
        /\ monitorInterval (marketing (store (stopMarketing h s))) = None
        /\ m_config (marketing (store (stopMarketing h s))) = m_config (marketing s))
    /\ marketing (store (analyzeAndAllocate rt h s)) = marketing s.
Proof.
  intros cfg h s. cbv zeta. split; [|split; [|split]].
  - intros Hrun. unfold startMarketing. rewrite bind_get_store, Hrun. reflexivity.
  - intros Hidle. rewrite (startMarketing_idle cfg h s Hidle). cbv zeta.
    match goal with |- context [analyzeAndAllocate rt ?h1 ?s1] =>
      pose proof (analyzeAndAllocate_untouched h1 s1) as U;
      destruct (analyzeAndAllocate_quiet h1 s1) as [_ E];
      pose proof (analyzeAndAllocate_no_throw h1 s1) as R;
      set (o := analyzeAndAllocate rt h1 s1) in *
    end.
    assert (E' : forallb no_timer (evs o) = true).
    { rewrite forallb_forall in *. intros e He. apply quiet_no_timer, E, He. }
    apply no_timer_count in E'. unfold count in *.
    apply length_zero_iff_nil in E'.
    unfold res, store, evs in *. simpl in *. rewrite U, E'. repeat split; try reflexivity.
    exact R.
  - rewrite stopMarketing_run.
    destruct (monitorInterval (marketing s)) eqn:Hm; simpl; repeat split; try reflexivity.
    exact Hm.
  - rewrite analyzeAndAllocate_untouched. reflexivity.
Qed.

Lemma find_app_l {A} (f : A -> bool) (l l' : list A) x :
  find f l = Some x -> find f (l ++ l')%list = Some x.
Proof.
  induction l as [|a l IH]; simpl; [discriminate|].
  destruct (f a); [trivial | exact IH].
Qed.

Lemma find_app_r {A} (f : A -> bool) (l l' : list A) :
  find f l = None -> find f (l ++ l')%list = find f l'.
Proof.
  induction l as [|a l IH]; simpl; [reflexivity|].
  destruct (f a); [discriminate | exact IH].
Qed.

Lemma find_fresh (l : list (nat * Callback * float)) n :
  (forall t, In t l -> handle_of t < n) ->
  find (fun t => Nat.eqb (fst (fst t)) n) l = None.
Proof.
  intros Hb. induction l as [|a l IH]; simpl; [reflexivity|].
  assert (Ha : handle_of a < n) by (apply Hb; left; reflexivity).
  unfold handle_of in Ha. destruct (Nat.eqb_spec (fst (fst a)) n); [lia|].
  apply IH. intros t Ht. apply Hb. right. exact Ht.
Qed.

Lemma find_cleared (l : list (nat * Callback * float)) id :
  find (fun t => Nat.eqb (fst (fst t)) id)
       (filter (fun t => negb (Nat.eqb (fst (fst t)) id)) l) = None.
Proof.
  induction l as [|a l IH]; simpl; [reflexivity|].
  destruct (Nat.eqb (fst (fst a)) id) eqn:E; simpl; [exact IH|].
  rewrite E. exact IH.
Qed.

Lemma find_other (l : list (nat * Callback * float)) id id' :
  id' <> id ->
  find (fun t => Nat.eqb (fst (fst t)) id')
       (filter (fun t => negb (Nat.eqb (fst (fst t)) id)) l) =
  find (fun t => Nat.eqb (fst (fst t)) id') l.
Proof.
  intros Hne. induction l as [|a l IH]; simpl; [reflexivity|].
  destruct (Nat.eqb_spec (fst (fst a)) id) as [E|E]; simpl.
  - destruct (Nat.eqb_spec (fst (fst a)) id'); [congruence | exact IH].
  - destruct (Nat.eqb (fst (fst a)) id'); [reflexivity | exact IH].
Qed.

Lemma filter_fresh (l : list (nat * Callback * float)) n :
  (forall t, In t l -> handle_of t < n) ->
  filter (fun t => negb (Nat.eqb (fst (fst t)) n)) l = l.
Proof.
  intros Hb. induction l as [|a l IH]; simpl; [reflexivity|].
  assert (Ha : handle_of a < n) by (apply Hb; left; reflexivity).
  unfold handle_of in Ha. destruct (Nat.eqb_spec (fst (fst a)) n); [lia|]. simpl.
  rewrite IH; [reflexivity|]. intros t Ht. apply Hb. right. exact Ht.
Qed.

Lemma timers_wf_same_drivers s s' : same_drivers s s' -> timers_wf s -> timers_wf s'.
Proof.
  intros (T & Mk & I & N) (Hb & Ht & Hm). unfold timers_wf, registered in *.
  rewrite T, Mk, I, N. repeat split; assumption.
Qed.

Lemma timers_wf_startTrading cfg h s :
  timers_wf s -> timers_wf (store (startTrading rt cfg h s)).
Proof.
  intros Hwf. destruct (isRunning (trading s)) eqn:Hrun.
  - unfold startTrading. rewrite bind_get_store, Hrun. exact Hwf.
  - rewrite (startTrading_idle cfg h s Hrun). cbv zeta.
    match goal with |- context [analyzeAndTrade rt ?h1 ?s1] =>
      destruct (analyzeAndTrade_keeps h1 s1) as [D _];
      apply (timers_wf_same_drivers s1); [exact D|]
    end.
    destruct Hwf as (Hb & Ht & Hm). unfold timers_wf, registered in *. simpl.
    split; [|split].
    + intros t Ht'. apply in_app_or in Ht'. destruct Ht' as [Ht'|[<-|[]]].
      * specialize (Hb t Ht'). lia.
      * unfold handle_of. simpl. lia.
    + split; [reflexivity|].
      rewrite find_app_r by (apply find_fresh; exact Hb).
      simpl. rewrite Nat.eqb_refl. reflexivity.
    + destruct (monitorInterval (marketing s)) as [id|]; [|exact Hm].
      destruct Hm as [Hr Hreg]. split; [exact Hr|].
      destruct (find (fun t => Nat.eqb (fst (fst t)) id) (intervals s)) as [[[i cb] ms]|] eqn:F;
        [|discriminate].
      rewrite (find_app_l _ _ _ _ F). exact Hreg.
Qed.

Lemma timers_wf_startMarketing cfg h s :
  timers_wf s -> timers_wf (store (startMarketing rt cfg h s)).
Proof.
  intros Hwf. destruct (m_isRunning (marketing s)) eqn:Hrun.
  - unfold startMarketing. rewrite bind_get_store, Hrun. exact Hwf.
  - rewrite (startMarketing_idle cfg h s Hrun). cbv zeta.
    rewrite analyzeAndAllocate_untouched.
    destruct Hwf as (Hb & Ht & Hm). unfold timers_wf, registered in *. simpl.
    split; [|split].
    + intros t Ht'. apply in_app_or in Ht'. destruct Ht' as [Ht'|[<-|[]]].
      * specialize (Hb t Ht'). lia.
      * unfold handle_of. simpl. lia.
    + destruct (checkInterval (trading s)) as [id|]; [|exact Ht].
      destruct Ht as [Hr Hreg]. split; [exact Hr|].
      destruct (find (fun t => Nat.eqb (fst (fst t)) id) (intervals s)) as [[[i cb] ms]|] eqn:F;
        [|discriminate].
      rewrite (find_app_l _ _ _ _ F). exact Hreg.
    + split; [reflexivity|].
      rewrite find_app_r by (apply find_fresh; exact Hb).
      simpl. rewrite Nat.eqb_refl. reflexivity.
Qed.

Lemma in_filter_bound (l : list (nat * Callback * float)) f n :
  (forall t, In t l -> handle_of t < n) ->
  forall t, In t (filter f l) -> handle_of t < n.
Proof. intros Hb t Ht. apply filter_In in Ht. apply Hb, Ht. Qed.

Lemma timers_wf_stopTrading h s : timers_wf s -> timers_wf (store (stopTrading h s)).
Proof.
  intros (Hb & Ht & Hm). rewrite stopTrading_run. unfold timers_wf, registered in *.
  destruct (checkInterval (trading s)) as [id|] eqn:Hc; unfold store; simpl.
  - split; [apply in_filter_bound; exact Hb|]. split; [reflexivity|].
    destruct (monitorInterval (marketing s)) as [id'|]; [|exact Hm].
    destruct Hm as [Hr Hreg]. split; [exact Hr|].
    destruct Ht as [_ Hregt].
    rewrite find_other; [exact Hreg|].
    intros ->. rewrite Hregt in Hreg.
    destruct (find (fun t => Nat.eqb (fst (fst t)) id) (intervals s)) as [[[i cb] ms]|];
      congruence.
  - rewrite Hc. repeat split; try assumption.
Qed.

Lemma timers_wf_stopMarketing h s : timers_wf s -> timers_wf (store (stopMarketing h s)).
Proof.
  intros (Hb & Ht & Hm). rewrite stopMarketing_run. unfold timers_wf, registered in *.
  destruct (monitorInterval (marketing s)) as [id|] eqn:Hc; unfold store; simpl.
  - split; [apply in_filter_bound; exact Hb|]. split; [|reflexivity].
    destruct (checkInterval (trading s)) as [id'|]; [|exact Ht].
    destruct Ht as [Hr Hreg]. split; [exact Hr|].
    destruct Hm as [_ Hregm].
    rewrite find_other; [exact Hreg|].
    intros ->. rewrite Hregm in Hreg.
    destruct (find (fun t => Nat.eqb (fst (fst t)) id) (intervals s)) as [[[i cb] ms]|];
      congruence.
  - rewrite Hc. repeat split; try assumption.
Qed.

Lemma timers_wf_perform op h s : timers_wf s -> timers_wf (store (perform rt op h s)).
Proof.
  intros Hwf. destruct op as [cfg| |b|cfg| |id]; simpl.
  - apply timers_wf_startTrading, Hwf.
  - apply timers_wf_stopTrading, Hwf.
  - exact Hwf.
  - apply timers_wf_startMarketing, Hwf.
  - apply timers_wf_stopMarketing, Hwf.
  - destruct (timer_fires_keeps id h s) as [D _].
    exact (timers_wf_same_drivers _ _ D Hwf).
Qed.

(** X4. Whatever the callers do, in whatever order, and whatever the outside
    world answers: when the agents start from a consistent state (freshly
    constructed, say), each driver holds a timer handle exactly when its
    running flag is set, that handle is registered with the driver's own
    callback, and the status reports agree with it. *)
Theorem timers_stay_consistent :
  forall (ops : list Operation) (h : History) (s : Store),
    timers_wf s ->
    timers_wf (fst (session rt ops h s))
    /\ (status_isRunning (getStatus (trading (fst (session rt ops h s)))) = true <->
        exists id, checkInterval (trading (fst (session rt ops h s))) = Some id
                   /\ registered id (fst (session rt ops h s)) = Some CbAnalyzeAndTrade)
    /\ (nextRebalance (marketing_getStatus (marketing (fst (session rt ops h s))))
          = "scheduled" <->
        m_status_isRunning (marketing_getStatus (marketing (fst (session rt ops h s))))
          = true).
Proof.
  intros ops h s Hwf.
  assert (Hfinal : timers_wf (fst (session rt ops h s))).
  { revert h s Hwf. induction ops as [|op rest IH]; intros h s Hwf; simpl; [exact Hwf|].
    pose proof (timers_wf_perform op h s Hwf) as Hstep.
    destruct (perform rt op h s) as [[r s1] e1]. unfold store in Hstep. simpl in Hstep.
    specialize (IH (h ++ e1)%list s1 Hstep).
    destruct (session rt rest (h ++ e1)%list s1) as [s2 e2]. exact IH. }
  split; [exact Hfinal|].
  destruct Hfinal as (_ & Ht & Hm).
  set (s' := fst (session rt ops h s)) in *. simpl.
  split.
  - destruct (checkInterval (trading s')) as [id|].
    + destruct Ht as [Hr Hreg]. split; [intros _; exists id; split; [reflexivity | exact Hreg]|].
      intros _. exact Hr.
    + split; [intros Hr; congruence | intros (id & Hid & _); discriminate].
  - destruct (monitorInterval (marketing s')) as [id|].
    + destruct Hm as [Hr _]. split; [intros _; exact Hr | reflexivity].
    + split; [intros Hs; discriminate | intros Hr; congruence].
Qed.

(** X5. [stopTrading] cancels: once the agent's handle is cleared the event loop
    has no callback left for it, so a later period of that timer runs
    nothing.  On an agent that holds no handle and is not running (stop before
    start) it only prints its line: nothing is cleared and the store is left
    as it is. *)
Theorem stopTrading_cancels :
  forall (h : History) (s : Store),
    (forall id, checkInterval (trading s) = Some id ->
        evs (stopTrading h s) = [ClearInterval id; ConsoleLog LogTradingStopped]
        /\ registered id (store (stopTrading h s)) = None
        /\ (forall h', timer_fires rt id h' (store (stopTrading h s)) =
                         (Ok tt, store (stopTrading h s), [])))
    /\ (checkInterval (trading s) = None -> isRunning (trading s) = false ->
        stopTrading h s = (Ok tt, s, [ConsoleLog LogTradingStopped])).
Proof.
  intros h s. split.
  - intros id Hid. rewrite stopTrading_run, Hid. unfold evs, store. simpl.
    split; [reflexivity|].
    assert (Hreg : registered id
              (set_trading (with_isRunning false (with_checkInterval None (trading s)))
                 {| llm := llm s; trading := trading s; marketing := marketing s;
                    intervals := filter (fun t => negb (Nat.eqb (fst (fst t)) id))
                                   (intervals s);
                    next_handle := next_handle s |}) = None).
    { unfold registered. simpl. rewrite find_cleared. reflexivity. }
    split; [exact Hreg|].
    intros h'. unfold timer_fires. rewrite bind_get_store, Hreg. reflexivity.
  - intros Hnone Hidle. rewrite stopTrading_run, Hnone.
    destruct s as [l t m i n]. destruct t as [k r c b ci]. simpl in *. subst. reflexivity.
Qed.

(** X6. Start then stop is a round trip for the event loop: the timer that
    [startTrading] registered is the one [stopTrading] removes, every other
    timer and the marketing agent are as before, and the agent can be started
    again.  The trading configuration survives the stop. *)
Theorem start_stop_round_trip :
  forall (cfg : TradingConfig) (h h' : History) (s : Store),
    timers_wf s ->
    isRunning (trading s) = false ->
    intervals (store (stopTrading h' (store (startTrading rt cfg h s)))) = intervals s
    /\ marketing (store (stopTrading h' (store (startTrading rt cfg h s)))) = marketing s
    /\ trading (store (stopTrading h' (store (startTrading rt cfg h s)))) =
         with_config (Some cfg) (with_checkInterval None (trading s))
    /\ (forall cfg' h'',
           res (startTrading rt cfg' h'' (store (stopTrading h' (store (startTrading rt cfg h s)))))
           = Ok tt).
Proof.
  intros cfg h h' s (Hb & _ & _) Hidle.
  pose proof (startTrading_idle cfg h s Hidle) as Hstart. cbv zeta in Hstart.
  match type of Hstart with context [analyzeAndTrade rt ?h1 ?s1] =>
    destruct (analyzeAndTrade_keeps h1 s1) as [(T & Mk & I & N) _];
    set (o := analyzeAndTrade rt h1 s1) in *
  end.
  assert (Hs1 : store (startTrading rt cfg h s) = store o) by (rewrite Hstart; reflexivity).
  rewrite Hs1. clear Hstart Hs1. simpl in T, Mk, I, N.
  set (s1 := store o) in *.
  assert (Hc : checkInterval (trading s1) = Some (next_handle s)) by (rewrite T; reflexivity).
  rewrite stopTrading_run, Hc. unfold store. simpl.
  split; [|split; [|split]].
  - rewrite I, filter_app. simpl. rewrite Nat.eqb_refl. simpl.
    rewrite app_nil_r. apply filter_fresh. exact Hb.
  - exact Mk.
  - rewrite T. destruct (trading s) as [k r c b ci]. simpl in *. subst r. reflexivity.
  - intros cfg' h''.
    match goal with |- context [startTrading rt cfg' h'' ?s2] =>
      assert (Hidle2 : isRunning (trading s2) = false) by reflexivity;
      rewrite (startTrading_idle cfg' h'' s2 Hidle2)
    end.
    apply analyzeAndTrade_no_throw.
Qed.

(** *** The facade *)

(** X7. [trade] and [buybackAndBurn] refuse to work without a wallet,
    [collectFees], [addLiquidityFromFees] and [buybackAndBurn] without a
    controller program; the refusal comes before any request to the node, and
    [buybackAndBurn] looks at the wallet first. *)
Theorem facade_preconditions :
  forall (this : MayhemSDK) (h : History) (s : Store),
    (wallet this = None ->
       (forall p, trade rt this p h s =
                    (Throw (Error "Wallet not initialized"), s, [Call (CallTrade p)]))
       /\ (forall p, buybackAndBurn rt this p h s =
                       (Throw (Error "Wallet not initialized"), s,
                        [Call (CallBuybackAndBurn p)])))
    /\ (controllerProgram this = None ->
          collectFees rt this h s =
            (Throw (Error "Controller program not configured"), s, [Call CallCollectFees])
          /\ (forall mint feeAmount,
                 addLiquidityFromFees rt this mint feeAmount h s =
                   (Throw (Error "Controller program not configured"), s,
                    [Call (CallAddLiquidityFromFees mint feeAmount)]))
          /\ (forall p w, wallet this = Some w ->
                 buybackAndBurn rt this p h s =
                   (Throw (Error "Controller program not configured"), s,
                    [Call (CallBuybackAndBurn p)]))).
Proof.
  intros this h s. split.
  - intros Hw. split; intros p.
    + unfold trade. rewrite bind_emit, Hw. reflexivity.
    + unfold buybackAndBurn. rewrite bind_emit, Hw. reflexivity.
  - intros Hc. split; [|split].
    + unfold collectFees. rewrite bind_emit, Hc. reflexivity.
    + intros mint feeAmount. unfold addLiquidityFromFees. rewrite bind_emit, Hc. reflexivity.
    + intros p w Hw. unfold buybackAndBurn. rewrite bind_emit, Hw, Hc. reflexivity.
Qed.

(** X8. [collectFees] and [addLiquidityFromFees] do not look at the wallet: with
    a controller program but no wallet they still submit a transaction, whose
    only signer is the missing wallet.  [addLiquidityFromFees] does so once it
    has printed the fee amount; an amount that cannot be converted to a
    string ends the call there, before anything is submitted. *)
Theorem fees_submitted_without_wallet :
  forall (this : MayhemSDK) (c : PublicKey) (h : History) (s : Store),
    controllerProgram this = Some c ->
    wallet this = None ->
    filter is_sendTransaction (evs (collectFees rt this h s))
      = [Rpc (SendTransaction [] [None])]
    /\ (forall mint feeAmount text,
           ToString rt feeAmount = Ok text ->
           filter is_sendTransaction (evs (addLiquidityFromFees rt this mint feeAmount h s))
             = [Rpc (SendTransaction [] [None])])
    /\ (forall mint feeAmount e,
           ToString rt feeAmount = Throw e ->
           addLiquidityFromFees rt this mint feeAmount h s =
             (Throw e, s, [Call (CallAddLiquidityFromFees mint feeAmount)])).
Proof.
  intros this c h s Hc Hw. split; [|split].
  - unfold collectFees, rpc, request, console_log, emit, throw, ret, bind.
    rewrite Hc, Hw. simpl.
    destruct (sendTransaction rt _ _ _); simpl; [|reflexivity].
    destruct (confirmTransaction rt _ _); reflexivity.
  - intros mint feeAmount text Htext.
    unfold addLiquidityFromFees, interpolate, rpc, request, console_log, emit, throw, ret,
      bind, lift.
    rewrite Hc, Hw, Htext. simpl.
    destruct (sendTransaction rt _ _ _); simpl; [|reflexivity].
    destruct (confirmTransaction rt _ _); reflexivity.
  - intros mint feeAmount e He.
    unfold addLiquidityFromFees, interpolate. rewrite bind_emit, Hc.
    unfold bind, lift. rewrite He. reflexivity.
Qed.

Ltac keeps_all :=
  unfold analyzeAndTrade, analyzeAndTrade_try, getMarketData, getTokenInfo, getTokenPrice,
    getVolume24h, decideTrade, executeDecision, executeBuy, executeSell, executeBurn,
    checkBuyback, buybackAndBurn, trade, addLiquidityFromFees, collectFees,
    parseTradingResponse, parse_json, rpc, http, console_log, console_error;
  keeps.

Lemma queryLLM_keeps (P : Event -> bool) customPrompt :
  (forall url init, P (Fetch url init) = true) ->
  Keeps P (queryLLM rt customPrompt).
Proof.
  intros HP. unfold queryLLM. apply Keeps_bind; [keeps | intros s].
  cbv zeta.
  repeat match goal with
         | |- Keeps _ (if String.eqb ?a ?b then _ else _) => destruct (String.eqb a b)
         end;
    unfold queryOpenRouter, queryEliza, queryOpenAI, queryAnthropic, queryCustom, http;
    repeat first [ apply Keeps_request; apply HP | keeps_step ].
Qed.

Lemma analyzeAndTrade_empty_transactions : Keeps empty_transaction (analyzeAndTrade rt).
Proof.
  pose proof (fun cp => queryLLM_keeps empty_transaction cp (fun _ _ => eq_refl)) as Hq.
  keeps_all; apply Hq.
Qed.

Lemma analyzeAndAllocate_empty_transactions : Keeps empty_transaction (analyzeAndAllocate rt).
Proof.
  pose proof (fun cp => queryLLM_keeps empty_transaction cp (fun _ _ => eq_refl)) as Hq.
  unfold analyzeAndAllocate, analyzeAndAllocate_try, fetchPlatformMetrics, calculateMetrics,
    executeAllocation, trackPerformance, decideMarketing, parseMarketingResponse, parse_json,
    http, console_log, console_error.
  keeps; apply Hq.
Qed.

(** X9. No transaction that leaves the program carries an instruction: every
    [sendTransaction] of any number of timer firings, and of a direct call of
    [buybackAndBurn], [addLiquidityFromFees] or [collectFees], submits the
    empty transaction. *)
Theorem every_transaction_is_empty :
  forall (h : History) (s : Store),
    (forall n id, forallb empty_transaction (evs (ticks rt n id h s)) = true)
    /\ (forall this p, forallb empty_transaction (evs (buybackAndBurn rt this p h s)) = true)
    /\ (forall this mint feeAmount,
           forallb empty_transaction (evs (addLiquidityFromFees rt this mint feeAmount h s))
           = true)
    /\ (forall this, forallb empty_transaction (evs (collectFees rt this h s)) = true).
Proof.
  intros h s. split; [|split; [|split]].
  - intros n id.
    assert (Hfire : Keeps empty_transaction (timer_fires rt id)).
    { unfold timer_fires. apply Keeps_bind; [keeps | intros s0].
      destruct (registered id s0) as [[|]|]; simpl.
      - apply analyzeAndTrade_empty_transactions.
      - apply analyzeAndAllocate_empty_transactions.
      - keeps. }
    assert (Hticks : Keeps empty_transaction (ticks rt n id)).
    { induction n as [|n IH]; simpl; [keeps|].
      apply Keeps_bind; [exact Hfire | intros _; exact IH]. }
    apply Hticks.
  - intros this p. assert (K : Keeps empty_transaction (buybackAndBurn rt this p)) by keeps_all.
    apply K.
  - intros this mint feeAmount.
    assert (K : Keeps empty_transaction (addLiquidityFromFees rt this mint feeAmount))
      by keeps_all.
    apply K.
  - intros this. assert (K : Keeps empty_transaction (collectFees rt this)) by keeps_all.
    apply K.
Qed.

(** *** The snapshot *)

Lemma getTokenInfo_returns this mintAddress h s ti s1 e1 :
  getTokenInfo rt this mintAddress h s = (Ok ti, s1, e1) ->
  PublicKey_valid rt mintAddress = true
  /\ ti_name ti = "Token Name" /\ ti_symbol ti = "TKN"
  /\ ti_mint ti = {| base58 := mintAddress |}
  /\ s1 = s
  /\ e1 = [Call (CallGetTokenInfo mintAddress);
           Rpc (GetParsedAccountInfo {| base58 := mintAddress |})]
  /\ exists mintInfo info,
       getParsedAccountInfo rt (h ++ [Call (CallGetTokenInfo mintAddress)])%list
         {| base58 := mintAddress |} = Ok mintInfo
       /\ mint_info mintInfo = Ok info
       /\ get info "decimals" = Ok (decimals ti)
       /\ get info "supply" = Ok (supply ti).
Proof.
  unfold getTokenInfo. rewrite bind_emit. unfold new_PublicKey.
  destruct (PublicKey_valid rt mintAddress); [|discriminate].
  rewrite bind_lift_ok. unfold rpc, request, bind, lift, throw, ret, res, store, evs. simpl.
  destruct (getParsedAccountInfo rt _ _) as [mintInfo|] eqn:Hrpc; [|discriminate]. simpl.
  unfold mint_info.
  destruct (get mintInfo "value") as [value|] eqn:Hvalue; [|discriminate]. simpl.
  destruct (Js.ToBoolean value); [|discriminate]. simpl.
  destruct (get value "data") as [data|] eqn:Hdata; [|discriminate]. simpl.
  destruct (get data "parsed") as [parsed|] eqn:Hparsed; [|discriminate]. simpl.
  destruct (get parsed "info") as [info|] eqn:Hinfo; [|discriminate]. simpl.
  destruct (get info "decimals") as [dec|] eqn:Hdec; [|discriminate]. simpl.
  destruct (get info "supply") as [sup|] eqn:Hsup; [|discriminate]. simpl.
  intros H. inversion H. subst. repeat split.
  exists mintInfo, info. simpl. rewrite Hvalue. simpl. rewrite Hdata. simpl.
  rewrite Hparsed. simpl. repeat split; assumption.
Qed.

(** X10. [getTokenInfo] rejects an invalid mint address before asking the
    node, with the error of the [PublicKey] constructor; it reports an account
    the node does not know as Error("Token not found"); and otherwise, after
    exactly one request, it answers with the fixed name 'Token Name' and
    symbol 'TKN' whatever the account holds, and with the decimals and the
    supply found in the node's answer under value.data.parsed.info. *)
Theorem getTokenInfo_contract :
  forall (this : MayhemSDK) (mintAddress : string) (h : History) (s : Store),
    (PublicKey_valid rt mintAddress = false ->
       getTokenInfo rt this mintAddress h s =
         (Throw (PublicKey_error rt mintAddress), s, [Call (CallGetTokenInfo mintAddress)]))
    /\ (forall mintInfo value,
           PublicKey_valid rt mintAddress = true ->
           getParsedAccountInfo rt (h ++ [Call (CallGetTokenInfo mintAddress)])%list
             {| base58 := mintAddress |} = Ok mintInfo ->
           get mintInfo "value" = Ok value ->
           Js.ToBoolean value = false ->
           getTokenInfo rt this mintAddress h s =
             (Throw (Error "Token not found"), s,
              [Call (CallGetTokenInfo mintAddress);
               Rpc (GetParsedAccountInfo {| base58 := mintAddress |})]))
    /\ (forall ti, res (getTokenInfo rt this mintAddress h s) = Ok ti ->
           ti_name ti = "Token Name" /\ ti_symbol ti = "TKN"
           /\ ti_mint ti = {| base58 := mintAddress |}
           /\ evs (getTokenInfo rt this mintAddress h s) =
                [Call (CallGetTokenInfo mintAddress);
                 Rpc (GetParsedAccountInfo {| base58 := mintAddress |})]
           /\ exists mintInfo info,
                getParsedAccountInfo rt (h ++ [Call (CallGetTokenInfo mintAddress)])%list
                  {| base58 := mintAddress |} = Ok mintInfo
                /\ mint_info mintInfo = Ok info
                /\ get info "decimals" = Ok (decimals ti)
                /\ get info "supply" = Ok (supply ti)).
Proof.
  intros this mintAddress h s. split; [|split].
  - intros Hv. unfold getTokenInfo. rewrite bind_emit. unfold new_PublicKey. rewrite Hv.
    reflexivity.
  - intros mintInfo value Hv Hrpc Hvalue Hfalsy.
    unfold getTokenInfo. rewrite bind_emit. unfold new_PublicKey. rewrite Hv.
    rewrite bind_lift_ok. unfold rpc, request, bind, lift, throw, res, store, evs. simpl.
    rewrite Hrpc. simpl. rewrite Hvalue. simpl. rewrite Hfalsy. reflexivity.
  - intros ti Hres.
    destruct (getTokenInfo rt this mintAddress h s) as [[r s1] e1] eqn:Hrun.
    unfold res in Hres. simpl in Hres. subst r.
    destruct (getTokenInfo_returns _ _ _ _ _ _ _ Hrun)
      as (_ & Hn & Hsym & Hm & _ & He & Hnode).
    repeat split; assumption.
Qed.

Lemma volume_bound_computed :
  forallb (fun n => PrimFloat.leb (float_of_nat n * 0.1)%float 100%float) (seq 0 1001) = true.
Proof. vm_compute. reflexivity. Qed.

Lemma volume_bound n :
  n <= 1000 -> PrimFloat.leb (float_of_nat n * 0.1)%float 100%float = true.
Proof.
  intros Hn. pose proof volume_bound_computed as H. rewrite forallb_forall in H.
  apply (H n). apply in_seq. lia.
Qed.

(** X11. The snapshot a tick works with is mostly constant: whenever
    [getMarketData] returns, the symbol is 'TKN', the price is 0.0001, the
    price change and the holder count are 0 and there are no recent
    transactions.  Only two figures come from the node: the market cap is
    0.0001 times the supply that [getTokenInfo] returned, converted to a
    number, and the volume is 0.1 times the number of signatures the node
    listed for the mint under a limit of 1000, hence at most 100 when the
    node honours that limit.  Exactly two requests are made. *)
Theorem snapshot_is_mostly_constant :
  forall (mintAddress : string) (h : History) (s : Store) (md : MarketData),
    res (getMarketData rt mintAddress h s) = Ok md ->
    let mint := {| base58 := mintAddress |} in
    let asked := (h ++ [Call (CallGetTokenInfo mintAddress);
                        Rpc (GetParsedAccountInfo mint);
                        Call (CallGetTokenPrice mint);
                        Call (CallGetVolume24h mint)])%list in
    symbol md = "TKN" /\ price md = 0.0001%float /\ priceChange24h md = 0%float
    /\ holders md = 0%float /\ recentTxs md = Some []
    /\ (exists ti sup,
           res (getTokenInfo rt (sdk (trading s)) mintAddress h s) = Ok ti
           /\ ToNumber rt (supply ti) = Ok sup
           /\ marketCap md = (0.0001 * sup)%float)
    /\ (exists signatures,
           getSignaturesForAddress rt asked mint 1000 = Ok signatures
           /\ volume24h md = (float_of_nat (length signatures) * 0.1)%float
           /\ (length signatures <= 1000 ->
               PrimFloat.leb (volume24h md) 100%float = true))
    /\ filter is_rpc (evs (getMarketData rt mintAddress h s)) =
         [Rpc (GetParsedAccountInfo mint); Rpc (GetSignaturesForAddress mint 1000)].
Proof.
  intros mintAddress h s md. cbv zeta. unfold getMarketData. rewrite bind_get_store. cbv zeta.
  unfold new_PublicKey.
  destruct (PublicKey_valid rt mintAddress); [|discriminate].
  rewrite bind_lift_ok.
  destruct (getTokenInfo rt (sdk (trading s)) mintAddress h s) as [[[ti|e] s1] e1] eqn:Hti.
  - destruct (getTokenInfo_returns _ _ _ _ _ _ _ Hti) as (_ & _ & Hsym & _ & -> & -> & _).
    rewrite (bind_ok _ _ _ _ _ _ _ Hti).
    unfold getTokenPrice, getVolume24h, rpc, request, bind, emit, ret, lift, res, store, evs.
    simpl. rewrite <- !app_assoc. simpl.
    destruct (getSignaturesForAddress rt _ _ _) as [signatures|] eqn:Hsig; simpl;
      [|discriminate].
    destruct (ToNumber rt (supply ti)) as [sup|] eqn:Hsup; simpl; [|discriminate].
    intros H. inversion H. subst md. simpl. clear H.
    repeat split; try assumption.
    + exists ti, sup. repeat split. exact Hsup.
    + exists signatures. split; [reflexivity|]. split; [reflexivity|].
      apply volume_bound.
  - rewrite (bind_throw _ _ _ _ _ _ _ Hti). discriminate.
Qed.

(** *** When the buyback check fires *)

Lemma no_collectFees_spec es :
  forallb no_collectFees es = true -> existsb is_collectFees es = false.
Proof.
  induction es as [|e es IH]; simpl; [reflexivity|].
  intros H. apply andb_true_iff in H. destruct H as [He Hes].
  unfold no_collectFees in He. apply negb_true_iff in He. rewrite He. simpl. auto.
Qed.

Lemma getMarketData_no_collectFees mintAddress :
  Keeps no_collectFees (getMarketData rt mintAddress).
Proof. keeps_all. Qed.

Lemma decideTrade_no_collectFees marketData : Keeps no_collectFees (decideTrade rt marketData).
Proof.
  pose proof (fun cp => queryLLM_keeps no_collectFees cp (fun _ _ => eq_refl)) as Hq.
  keeps_all; apply Hq.
Qed.

Lemma executeDecision_no_collectFees d : Keeps no_collectFees (executeDecision rt d).
Proof. keeps_all. Qed.

Lemma checkBuyback_idle marketData h s :
  (forall b, buybackConfig (trading s) = Some b -> shouldBuyback b marketData = false) ->
  evs (checkBuyback rt marketData h s) = [].
Proof.
  intros Hno. unfold checkBuyback. rewrite bind_get_store. cbv zeta.
  destruct (buybackConfig (trading s)) as [b|]; [|reflexivity].
  destruct (config (trading s)); [|reflexivity].
  rewrite (Hno b eq_refl). reflexivity.
Qed.

(** The [try] block from the decision on, when the check cannot fire. *)
Lemma after_decision_no_collectFees marketData d h s :
  (buyback_enabled (trading s) = true ->
   forall b, buybackConfig (trading s) = Some b -> shouldBuyback b marketData = false) ->
  forallb no_collectFees (evs (after_decision rt marketData d h s)) = true.
Proof.
  intros Hno. unfold after_decision, interpolate.
  destruct (ToString rt (action d)); [rewrite bind_lift_ok | reflexivity].
  destruct (mul rt (confidence d) (Js.Number 100%float)); [rewrite bind_lift_ok | reflexivity].
  unfold console_log at 1. rewrite evs_bind_emit. simpl forallb.
  destruct (ToString rt (reasoning d)); [rewrite bind_lift_ok | reflexivity].
  unfold console_log at 1. rewrite evs_bind_emit. simpl forallb.
  destruct (gt rt (confidence d) 0.7%float) as [confident|];
    [rewrite bind_lift_ok | reflexivity].
  match goal with |- context [bind ?m ?f ?h1 s] =>
    assert (Hstep : Keeps no_collectFees m)
      by (destruct confident;
          [apply executeDecision_no_collectFees | unfold console_log; keeps]);
    destruct (Hstep h1 s) as [(T & _) E];
    destruct (m h1 s) as [[[[]|e] s3] e3] eqn:Hrun
  end; unfold store, evs in T, E; simpl in T, E.
  - rewrite (evs_bind_ok _ _ _ _ _ _ _ Hrun). rewrite forallb_app, E. simpl.
    rewrite bind_get_store. rewrite T.
    destruct (buyback_enabled (trading s)) eqn:Hen; [|reflexivity]. simpl when.
    rewrite checkBuyback_idle; [reflexivity|]. rewrite T. exact (Hno eq_refl).
  - rewrite (bind_throw _ _ _ _ _ _ _ Hrun). exact E.
Qed.

Lemma tick_without_trigger h s :
  (forall marketData,
      price marketData = 0.0001%float ->
      buyback_enabled (trading s) = true ->
      forall b, buybackConfig (trading s) = Some b -> shouldBuyback b marketData = false) ->
  existsb is_collectFees (evs (analyzeAndTrade rt h s)) = false.
Proof.
  intros Hno. rewrite analyzeAndTrade_run.
  destruct (config (trading s)) as [cfg|]; [|reflexivity].
  assert (Htry : existsb is_collectFees (evs (analyzeAndTrade_try rt cfg h s)) = false).
  { apply no_collectFees_spec. rewrite analyzeAndTrade_try_unfold.
    destruct (getMarketData_no_collectFees (tokenMint cfg) h s) as [(T1 & _) E1].
    destruct (getMarketData rt (tokenMint cfg) h s) as [[[md|e] s1] e1] eqn:Hmd;
      unfold store, evs in T1, E1; simpl in T1, E1.
    - destruct (getMarketData_valid_mint _ _ _ _ _ _ Hmd) as [_ Hprice].
      rewrite (evs_bind_ok _ _ _ _ _ _ _ Hmd), forallb_app, E1. simpl.
      destruct (decideTrade_no_collectFees md (h ++ e1)%list s1) as [(T2 & _) E2].
      destruct (decideTrade rt md (h ++ e1)%list s1) as [[[d|e] s2] e2] eqn:Hd;
        unfold store, evs in T2, E2; simpl in T2, E2.
      + rewrite (evs_bind_ok _ _ _ _ _ _ _ Hd), forallb_app, E2. simpl.
        apply after_decision_no_collectFees.
        rewrite T2, T1. exact (Hno md Hprice).
      + rewrite (bind_throw _ _ _ _ _ _ _ Hd). exact E2.
    - rewrite (bind_throw _ _ _ _ _ _ _ Hmd). exact E1. }
  destruct (analyzeAndTrade_try rt cfg h s) as [[[[]|e] s1] e1];
    unfold evs in *; simpl in *.
  - exact Htry.
  - rewrite existsb_app, Htry. reflexivity.
Qed.

(** X12. A tick collects fees only when a buyback configuration is enabled whose
    trigger price is set and strictly above 0.0001, the constant price of
    every snapshot.  With a trigger price of 0.0001 or less no tick ever
    reaches [collectFees], whatever the market does. *)
Theorem buyback_fires_only_above_the_constant_price :
  forall (h : History) (s : Store),
    existsb is_collectFees (evs (analyzeAndTrade rt h s)) = true ->
    exists b t,
      buybackConfig (trading s) = Some b /\ enabled b = true
      /\ triggerPrice b = Some t /\ Js.truthy_number t = true
      /\ PrimFloat.ltb 0.0001%float t = true.
Proof.
  intros h s Hfee.
  destruct (buybackConfig (trading s)) as [b|] eqn:Hb.
  - destruct (enabled b) eqn:Hen.
    + destruct (triggerPrice b) as [t|] eqn:Ht.
      * destruct (Js.truthy_number t && PrimFloat.ltb 0.0001%float t) eqn:Hcond.
        -- apply andb_true_iff in Hcond. destruct Hcond as [H1 H2].
           exists b, t. repeat split; assumption.
        -- rewrite tick_without_trigger in Hfee; [discriminate|].
           intros md Hprice _ b' Hb'. rewrite Hb in Hb'. inversion Hb'. subst b'.
           unfold shouldBuyback, lt_num. rewrite Ht, Hprice. exact Hcond.
      * rewrite tick_without_trigger in Hfee; [discriminate|].
        intros md _ _ b' Hb'. rewrite Hb in Hb'. inversion Hb'. subst b'.
        unfold shouldBuyback. rewrite Ht. reflexivity.
    + rewrite tick_without_trigger in Hfee; [discriminate|].
      intros md _ Hen'. unfold buyback_enabled in Hen'. rewrite Hb in Hen'. congruence.
  - rewrite tick_without_trigger in Hfee; [discriminate|].
    intros md _ Hen'. unfold buyback_enabled in Hen'. rewrite Hb in Hen'. discriminate.
Qed.

(** X23. A decision that cannot be printed ends the tick before anything is
    executed and before the buyback check: when the conversion of its action,
    of its confidence or of its reasoning inside the two log lines throws,
    the tick prints that TypeError and returns, having entered no execution
    path and not called [collectFees], whatever the confidence and the
    buyback configuration.  The first line is printed when it is the
    reasoning that fails. *)
Theorem unprintable_decision_ends_the_tick :
  forall (h : History) (s : Store) (cfg : TradingConfig)
         (marketData : MarketData) (s1 : Store) (e1 : list Event)
         (d : LLMResponse) (s2 : Store) (e2 : list Event),
    config (trading s) = Some cfg ->
    getMarketData rt (tokenMint cfg) h s = (Ok marketData, s1, e1) ->
    decideTrade rt marketData (h ++ e1)%list s1 = (Ok d, s2, e2) ->
    is_ok (ToString rt (action d)) && is_ok (mul rt (confidence d) (Js.Number 100%float))
      && is_ok (ToString rt (reasoning d)) = false ->
    let printed :=
      match ToString rt (action d), mul rt (confidence d) (Js.Number 100%float) with
      | Ok _, Ok percent => [ConsoleLog (LogDecision (action d) percent)]
      | _, _ => []
      end in
    analyzeAndTrade rt h s =
      (Ok tt, s2, (e1 ++ e2 ++ printed ++ [ConsoleError Trading cannot_convert])%list)
    /\ existsb is_execution (evs (analyzeAndTrade rt h s)) = false
    /\ existsb is_collectFees (evs (analyzeAndTrade rt h s)) = false.
Proof.
  intros h s cfg marketData s1 e1 d s2 e2 Hcfg Hmd Hd Hbad. cbv zeta.
  destruct (getMarketData_quiet (tokenMint cfg) h s) as [_ Q1].
  destruct (decideTrade_quiet marketData (h ++ e1)%list s1) as [_ Q2].
  destruct (getMarketData_no_collectFees (tokenMint cfg) h s) as [_ F1].
  destruct (decideTrade_no_collectFees marketData (h ++ e1)%list s1) as [_ F2].
  rewrite Hmd in Q1, F1. rewrite Hd in Q2, F2. unfold evs in Q1, Q2, F1, F2.
  simpl in Q1, Q2, F1, F2.
  assert (Hrun :
    analyzeAndTrade rt h s =
      (Ok tt, s2,
       (e1 ++ e2
        ++ match ToString rt (action d), mul rt (confidence d) (Js.Number 100%float) with
           | Ok _, Ok percent => [ConsoleLog (LogDecision (action d) percent)]
           | _, _ => []
           end
        ++ [ConsoleError Trading cannot_convert])%list)).
  { rewrite analyzeAndTrade_run, Hcfg, analyzeAndTrade_try_unfold.
    rewrite (bind_ok _ _ _ _ _ _ _ Hmd), (bind_ok _ _ _ _ _ _ _ Hd).
    unfold after_decision, interpolate.
    destruct (ToString rt (action d)) as [act|x] eqn:Hact; simpl in Hbad |- *.
    - rewrite bind_lift_ok.
      destruct (mul rt (confidence d) (Js.Number 100%float)) as [percent|x] eqn:Hmul;
        simpl in Hbad |- *.
      + rewrite bind_lift_ok. unfold console_log at 1. rewrite bind_emit.
        destruct (ToString rt (reasoning d)) as [rsn|x] eqn:Hrsn; [discriminate Hbad|].
        rewrite (ToString_throws _ _ Hrsn).
        unfold res, store, evs. simpl. rewrite <- !app_assoc. reflexivity.
      + assert (x = cannot_convert) as ->.
        { unfold mul, and_then in Hmul.
          destruct (ToNumber rt (confidence d)) eqn:Hconf; [discriminate Hmul|].
          injection Hmul as <-. exact (ToNumber_throws _ _ Hconf). }
        unfold res, store, evs. simpl. rewrite <- !app_assoc. reflexivity.
    - rewrite (ToString_throws _ _ Hact).
      unfold res, store, evs. simpl. rewrite <- !app_assoc. reflexivity. }
  split; [exact Hrun|].
  rewrite Hrun. unfold evs. simpl.
  split.
  - apply quiet_no_execution. rewrite !forallb_app, Q1, Q2.
    destruct (ToString rt (action d)); [|reflexivity].
    destruct (mul rt (confidence d) (Js.Number 100%float)); reflexivity.
  - apply no_collectFees_spec. rewrite !forallb_app, F1, F2.
    destruct (ToString rt (action d)); [|reflexivity].
    destruct (mul rt (confidence d) (Js.Number 100%float)); reflexivity.
Qed.

(** *** The gateway *)

Lemma supported_cases p :
  is_supported p = true ->
  p = "openrouter" \/ p = "eliza" \/ p = "openai" \/ p = "anthropic" \/ p = "custom".
Proof.
  unfold is_supported, supported_providers. simpl. intros H.
  repeat (apply orb_true_iff in H; destruct H as [H|H];
          [apply String.eqb_eq in H; tauto|]).
  discriminate.
Qed.

Lemma request_then_silent {A B} e (answer : History -> Res A) (k : A -> M B) h s :
  (forall a, Keeps (fun _ => false) (k a)) ->
  evs (bind (request e answer) k h s) = [e].
Proof.
  intros Hk. unfold bind, request. destruct (answer h) as [a|x]; [|reflexivity].
  destruct (Hk a (h ++ [e])%list s) as [_ He].
  destruct (k a (h ++ [e])%list s) as [[r s2] e2]. unfold evs in *. simpl in *.
  destruct e2; [reflexivity | discriminate].
Qed.

(** X13. For each of the five providers [queryLLM] makes exactly one request, a
    POST, and nothing else: no retry when the request or the decoding of the
    answer fails, and no change to the store. *)
Theorem queryLLM_single_request :
  forall (customPrompt : option string) (h : History) (s : Store),
    is_supported (provider (llm_config (llm s))) = true ->
    exists url init,
      evs (queryLLM rt customPrompt h s) = [Fetch url (Some init)]
      /\ method init = "POST"
      /\ store (queryLLM rt customPrompt h s) = s.
Proof.
  intros customPrompt h s Hp.
  rewrite (queryLLM_untouched customPrompt h s).
  unfold queryLLM. rewrite bind_get_store. cbv zeta.
  destruct (supported_cases _ Hp) as [E|[E|[E|[E|E]]]]; rewrite E; simpl;
    unfold queryOpenRouter, queryEliza, queryOpenAI, queryAnthropic, queryCustom;
    rewrite bind_get_store; cbv zeta; unfold http;
    eexists _, _; (split; [apply request_then_silent; intros; keeps | split; reflexivity]).
Qed.

(** X14. What a reply without the expected field turns into.  From OpenRouter and
    OpenAI a JSON object without [choices] (an error payload, say) makes
    [queryLLM] throw a TypeError; from Eliza and a custom endpoint a JSON
    object without [response] makes it return undefined, which the parser
    then turns into the default 'hold' decision as soon as JSON.parse rejects
    the text 'undefined'. *)
Theorem malformed_payloads :
  forall (h : History) (s : Store) (props : list (string * Js.value)),
    (forall url init, fetch rt h url init = Ok {| json := Ok (Js.Object props) |}) ->
    ((provider (llm_config (llm s)) = "openrouter"
      \/ provider (llm_config (llm s)) = "openai") ->
     Js.lookup "choices" props = None ->
     res (queryLLM rt None h s) = Throw (TypeError "0"))
    /\ ((provider (llm_config (llm s)) = "eliza"
         \/ provider (llm_config (llm s)) = "custom") ->
        Js.lookup "response" props = None ->
        res (queryLLM rt None h s) = Ok Js.Undefined
        /\ (JSON_parse rt "undefined" = None ->
            forall h' s',
              parseTradingResponse rt Js.Undefined h' s' =
                (Ok {| action := Js.Str "hold"; amount := Js.Undefined;
                       reasoning := Js.Undefined; confidence := Js.Number 0.5%float |},
                 s', []))).
Proof.
  intros h s props Hfetch. split.
  - intros Hp Hno. unfold queryLLM. rewrite bind_get_store. cbv zeta.
    destruct Hp as [E|E]; rewrite E; simpl;
      unfold queryOpenRouter, queryOpenAI; rewrite bind_get_store; cbv zeta;
      unfold http, request, bind, lift, res, store, evs; simpl;
      rewrite Hfetch; simpl; unfold Js.own; rewrite Hno; reflexivity.
  - intros Hp Hno. split.
    + unfold queryLLM. rewrite bind_get_store. cbv zeta.
      destruct Hp as [E|E]; rewrite E; simpl;
        unfold queryEliza, queryCustom; rewrite bind_get_store; cbv zeta;
        unfold http, request, bind, lift, res, store, evs; simpl;
        rewrite Hfetch; simpl; unfold Js.own; rewrite Hno; reflexivity.
    + intros Hparse h' s'. unfold parseTradingResponse, try_catch, parse_json. simpl ToString.
      unfold and_then. rewrite Hparse. reflexivity.
Qed.

(** *** The dispatch of a decision *)

(** X15. A 'burn' decision burns nothing: with a truthy amount that can be
    converted to a string it prints one line; with one that cannot, the
    TypeError of the conversion is the outcome and nothing is printed.  In
    neither case is the SDK called or a transaction submitted.  An action
    outside the five known ones (the parser lets any value through) is
    dropped without a word, and 'hold' prints its line. *)
Theorem burn_and_unknown_actions_submit_nothing :
  forall (d : LLMResponse) (h : History) (s : Store) (cfg : TradingConfig),
    config (trading s) = Some cfg ->
    PublicKey_valid rt (tokenMint cfg) = true ->
    (action d = Js.Str "burn" ->
       executeDecision rt d h s =
         if Js.ToBoolean (amount d)
         then match ToString rt (amount d) with
              | Ok _ => (Ok tt, s, [ConsoleLog (LogBurning (amount d))])
              | Throw e => (Throw e, s, [])
              end
         else (Ok tt, s, []))
    /\ (Js.is_string (action d) "buy" = false ->
        Js.is_string (action d) "sell" = false ->
        Js.is_string (action d) "burn" = false ->
        Js.is_string (action d) "add_lp" = false ->
        executeDecision rt d h s =
          (Ok tt, s,
           if Js.is_string (action d) "hold" then [ConsoleLog LogHolding] else [])).
Proof.
  intros d h s cfg Hcfg Hvalid. split.
  - intros Hact. unfold executeDecision. rewrite bind_get_store. cbv zeta.
    rewrite Hcfg. unfold new_PublicKey. rewrite Hvalid, bind_lift_ok, Hact. simpl.
    destruct (Js.ToBoolean (amount d)); [|reflexivity].
    unfold when, executeBurn, interpolate.
    destruct (ToString rt (amount d)); [rewrite bind_lift_ok|]; reflexivity.
  - intros H1 H2 H3 H4. unfold executeDecision. rewrite bind_get_store. cbv zeta.
    rewrite Hcfg. unfold new_PublicKey. rewrite Hvalid, bind_lift_ok, H1, H2, H3, H4.
    destruct (Js.is_string (action d) "hold"); reflexivity.
Qed.

(** X16. A 'buy' or 'sell' decision with a truthy amount that can be
    converted to a string makes exactly one call of [sdk.trade], with the
    amount as the LLM gave it (no check that it is a positive number), the
    side of the action and a slippage of 0.01; a failure of the trade is the
    failure of [executeDecision].  An amount that cannot be converted ends
    [executeDecision] in the TypeError of the conversion, before the line is
    printed and before [sdk.trade] is called. *)
Theorem buy_and_sell_pass_the_amount_through :
  forall (d : LLMResponse) (h : History) (s : Store) (cfg : TradingConfig) (side : Side),
    config (trading s) = Some cfg ->
    PublicKey_valid rt (tokenMint cfg) = true ->
    action d = Js.Str (match side with buy => "buy" | sell => "sell" end) ->
    Js.ToBoolean (amount d) = true ->
    let params := {| tp_tokenMint := {| base58 := tokenMint cfg |};
                     tp_amount := amount d; tp_side := side;
                     tp_slippage := Some 0.01%float |} in
    let announce := ConsoleLog (match side with
                                | buy => LogBuying (amount d)
                                | sell => LogSelling (amount d)
                                end) in
    let traded := trade rt (sdk (trading s)) params (h ++ [announce])%list s in
    (forall text,
        ToString rt (amount d) = Ok text ->
        executeDecision rt d h s =
          (match res traded with Ok _ => Ok tt | Throw e => Throw e end,
           s, announce :: evs traded)
        /\ filter is_call (evs (executeDecision rt d h s)) = [Call (CallTrade params)])
    /\ (forall e,
           ToString rt (amount d) = Throw e ->
           executeDecision rt d h s = (Throw e, s, [])).
Proof.
  intros d h s cfg side Hcfg Hvalid Hact Hamount. cbv zeta. split.
  - intros text Htext.
    assert (Hrun : executeDecision rt d h s =
      (match res (trade rt (sdk (trading s))
                    {| tp_tokenMint := {| base58 := tokenMint cfg |};
                       tp_amount := amount d; tp_side := side;
                       tp_slippage := Some 0.01%float |}
                    (h ++ [ConsoleLog (match side with
                                       | buy => LogBuying (amount d)
                                       | sell => LogSelling (amount d)
                                       end)])%list s)
       with Ok _ => Ok tt | Throw e => Throw e end,
       s,
       ConsoleLog (match side with
                   | buy => LogBuying (amount d)
                   | sell => LogSelling (amount d)
                   end)
       :: evs (trade rt (sdk (trading s))
                 {| tp_tokenMint := {| base58 := tokenMint cfg |};
                    tp_amount := amount d; tp_side := side;
                    tp_slippage := Some 0.01%float |}
                 (h ++ [ConsoleLog (match side with
                                    | buy => LogBuying (amount d)
                                    | sell => LogSelling (amount d)
                                    end)])%list s))).
    { unfold executeDecision. rewrite bind_get_store. cbv zeta.
      rewrite Hcfg. unfold new_PublicKey. rewrite Hvalid, bind_lift_ok, Hact, Hamount.
      destruct side; simpl; unfold executeBuy, executeSell, interpolate;
        rewrite bind_get_store, Htext, bind_lift_ok; unfold console_log; rewrite bind_emit;
        match goal with |- context [trade rt ?sdk0 ?p ?h1 s] =>
          pose proof (trade_untouched sdk0 p h1 s) as U;
          destruct (trade rt sdk0 p h1 s) as [[[sg|e] s1] e1] eqn:Ht
        end; unfold store in U; simpl in U; subst s1.
      - rewrite (bind_ok _ _ _ _ _ _ _ Ht). unfold res, store, evs. simpl.
        rewrite app_nil_r. reflexivity.
      - rewrite (bind_throw _ _ _ _ _ _ _ Ht). reflexivity.
      - rewrite (bind_ok _ _ _ _ _ _ _ Ht). unfold res, store, evs. simpl.
        rewrite app_nil_r. reflexivity.
      - rewrite (bind_throw _ _ _ _ _ _ _ Ht). reflexivity. }
    split; [exact Hrun|]. rewrite Hrun. unfold evs at 1. simpl snd.
    unfold trade, interpolate, rpc, request, console_log, emit, throw, ret, lift, bind, evs.
    destruct side; simpl;
      (destruct (wallet (sdk (trading s))) as [w|]; simpl; [|reflexivity]);
      rewrite Htext; simpl;
      (destruct (sendTransaction rt _ _ _); simpl; [|reflexivity]);
      (destruct (confirmTransaction rt _ _); reflexivity).
  - intros e He.
    unfold executeDecision. rewrite bind_get_store. cbv zeta.
    rewrite Hcfg. unfold new_PublicKey. rewrite Hvalid, bind_lift_ok, Hact, Hamount.
    destruct side; simpl; unfold executeBuy, executeSell, interpolate;
      rewrite bind_get_store, He; reflexivity.
Qed.

Lemma executeDecision_skips_falsy d h s :
  Js.ToBoolean (amount d) = false ->
  needs_amount (action d) = true ->
  executeDecision rt d h s =
  match config (trading s) with
  | None => (Ok tt, s, [])
  | Some cfg =>
      if PublicKey_valid rt (tokenMint cfg) then (Ok tt, s, [])
      else (Throw (PublicKey_error rt (tokenMint cfg)), s, [])
  end.
Proof.
  intros Hamount Hact.
  unfold executeDecision. rewrite bind_get_store. cbv zeta.
  destruct (config (trading s)) as [cfg|]; [|reflexivity].
  unfold new_PublicKey.
  destruct (PublicKey_valid rt (tokenMint cfg)) eqn:Hvalid; [|reflexivity].
  rewrite bind_lift_ok. rewrite Hamount. unfold when.
  unfold needs_amount in Hact.
  destruct (Js.is_string (action d) "buy"); [reflexivity|].
  destruct (Js.is_string (action d) "sell"); [reflexivity|].
  destruct (Js.is_string (action d) "burn"); [reflexivity|].
  destruct (Js.is_string (action d) "add_lp"); [reflexivity|].
  discriminate.
Qed.

(** X17. The amount guard is a truthiness test: a 'buy', 'sell', 'burn' or
    'add_lp' decision whose amount is 0, NaN, the empty string, null or false
    executes nothing, exactly like one without an amount, and a whole tick
    carrying such a decision enters no execution path even at full
    confidence. *)
Theorem falsy_amounts_execute_nothing :
  forall (d : LLMResponse) (h : History) (s : Store),
    Js.ToBoolean (amount d) = false ->
    needs_amount (action d) = true ->
    evs (executeDecision rt d h s) = []
    /\ store (executeDecision rt d h s) = s
    /\ (forall cfg h0 s0 marketData s1 e1 e2,
           config (trading s0) = Some cfg ->
           getMarketData rt (tokenMint cfg) h0 s0 = (Ok marketData, s1, e1) ->
           decideTrade rt marketData (h0 ++ e1)%list s1 = (Ok d, s, e2) ->
           res (executeDecision rt d h s) = Ok tt
           /\ existsb is_execution (evs (analyzeAndTrade rt h0 s0)) = false).
Proof.
  intros d h s Hamount Hact.
  rewrite (executeDecision_skips_falsy d h s Hamount Hact).
  split; [|split].
  - destruct (config (trading s)) as [cfg|]; [|reflexivity].
    destruct (PublicKey_valid rt (tokenMint cfg)); reflexivity.
  - destruct (config (trading s)) as [cfg|]; [|reflexivity].
    destruct (PublicKey_valid rt (tokenMint cfg)); reflexivity.
  - intros cfg h0 s0 marketData s1 e1 e2 Hcfg Hmd Hd.
    destruct (getMarketData_valid_mint _ _ _ _ _ _ Hmd) as [Hvalid _].
    destruct (getMarketData_quiet (tokenMint cfg) h0 s0) as [(T1 & _) Q1].
    destruct (decideTrade_quiet marketData (h0 ++ e1)%list s1) as [(T2 & _) Q2].
    rewrite Hmd in T1, Q1. rewrite Hd in T2, Q2.
    unfold store, evs in T1, T2, Q1, Q2. simpl in T1, T2, Q1, Q2.
    split; [rewrite T2, T1, Hcfg, Hvalid; reflexivity|].
    apply quiet_no_execution. apply (try_quiet_tick_quiet cfg); [exact Hcfg|].
    rewrite analyzeAndTrade_try_unfold.
    rewrite (evs_bind_ok _ _ _ _ _ _ _ Hmd), (evs_bind_ok _ _ _ _ _ _ _ Hd).
    rewrite !forallb_app, Q1, Q2. simpl.
    assert (K : Keeps quiet (after_decision rt marketData d)).
    { unfold after_decision, console_log, interpolate.
      do 6 (apply Keeps_bind; [solve [keeps] | intros ?]).
      apply Keeps_bind; [|intros _; keeps].
      match goal with |- Keeps _ (if ?c then _ else _) => destruct c end; [|keeps].
      intros h' s'. rewrite (executeDecision_skips_falsy d h' s' Hamount Hact).
      destruct (config (trading s')) as [c|];
        [destruct (PublicKey_valid rt (tokenMint c))|];
        (split; [apply same_drivers_refl | reflexivity]). }
    apply K.
Qed.

(** *** One tick of the marketing driver *)

Lemma get_nullish v k : nullish v = true -> get v k = Throw (TypeError k).
Proof. destruct v; simpl; try discriminate; reflexivity. Qed.

Lemma get_defined v k : nullish v = false -> exists x, get v k = Ok x.
Proof. destruct v; simpl; try discriminate; eexists; reflexivity. Qed.

Lemma calculateMetrics_nullish v h s :
  nullish v = true -> calculateMetrics rt v h s = (Throw (TypeError "name"), s, []).
Proof. intros Hv. unfold calculateMetrics. rewrite (get_nullish _ _ Hv). reflexivity. Qed.

(** On a value that is neither undefined nor null [calculateMetrics] has no
    effect, and fails only in a conversion. *)
Lemma calculateMetrics_defined v h s :
  nullish v = false ->
  (exists pm, calculateMetrics rt v h s = (Ok pm, s, []))
  \/ calculateMetrics rt v h s = (Throw cannot_convert, s, []).
Proof.
  intros Hv. unfold calculateMetrics.
  repeat
    (match goal with
     | |- context [lift (get v ?k)] =>
         let x := fresh "x" in let E := fresh "E" in
         destruct (get_defined v k Hv) as [x E]; rewrite E, bind_lift_ok
     | |- context [lift (add rt ?a ?b)] =>
         let x := fresh "x" in let E := fresh "E" in
         destruct (add rt a b) as [x|x] eqn:E;
         [rewrite bind_lift_ok
         |right; rewrite (add_throws _ _ _ E); reflexivity]
     | |- context [lift (div rt ?a ?b)] =>
         let x := fresh "x" in let E := fresh "E" in
         destruct (div rt a b) as [x|x] eqn:E;
         [rewrite bind_lift_ok
         |right; rewrite (div_throws _ _ _ E); reflexivity]
     end).
  left. eexists. reflexivity.
Qed.

(** X18. When the metrics endpoint answers with an object in which one of
    [twitter], [discord], [telegram] is missing (or null), the tick ends right
    there: a TypeError is printed, the LLM is not asked and nothing is
    posted.  The error is the one of reading [name] from the missing entry,
    unless a figure of an entry before it could not be converted. *)
Theorem missing_platform_ends_the_tick :
  forall (h : History) (s : Store) (cfg : MarketingConfig) (resp : Response)
         (props : list (string * Js.value)),
    m_config (marketing s) = Some cfg ->
    fetch rt h (apiUrl (marketing s) ++ "/api/marketing/metrics") None = Ok resp ->
    json resp = Ok (Js.Object props) ->
    nullish (Js.own "twitter" props) || nullish (Js.own "discord" props)
      || nullish (Js.own "telegram" props) = true ->
    exists e,
      analyzeAndAllocate rt h s =
        (Ok tt, s,
         [Fetch (apiUrl (marketing s) ++ "/api/marketing/metrics") None;
          ConsoleError Marketing e])
      /\ (e = TypeError "name" \/ e = cannot_convert)
      /\ (nullish (Js.own "twitter" props) = true -> e = TypeError "name").
Proof.
  intros h s cfg resp props Hcfg Hfetch Hjson Hmissing.
  set (url := apiUrl (marketing s) ++ "/api/marketing/metrics") in *.
  assert (Hm : exists e,
            fetchPlatformMetrics rt h s = (Throw e, s, [Fetch url None])
            /\ (e = TypeError "name" \/ e = cannot_convert)
            /\ (nullish (Js.own "twitter" props) = true -> e = TypeError "name")).
  { unfold fetchPlatformMetrics. rewrite bind_get_store. unfold http. fold url.
    erewrite (bind_ok (request _ _)); [|unfold request; rewrite Hfetch; reflexivity].
    rewrite Hjson, bind_lift_ok. simpl get. rewrite !bind_lift_ok.
    unfold res, store, evs. simpl.
    destruct (nullish (Js.own "twitter" props)) eqn:Htw.
    - rewrite (bind_throw _ _ _ _ _ _ _ (calculateMetrics_nullish _ _ _ Htw)).
      eexists. split; [reflexivity|]. split; [left; reflexivity | reflexivity].
    - destruct (calculateMetrics_defined _ (h ++ [Fetch url None])%list s Htw)
        as [[tw Etw]|Etw].
      + rewrite (bind_silent _ _ _ _ _ _ Etw), bind_lift_ok.
        destruct (nullish (Js.own "discord" props)) eqn:Hdi.
        * rewrite (bind_throw _ _ _ _ _ _ _ (calculateMetrics_nullish _ _ _ Hdi)).
          eexists. split; [reflexivity|]. split; [left; reflexivity | discriminate].
        * destruct (calculateMetrics_defined _ (h ++ [Fetch url None])%list s Hdi)
            as [[di Edi]|Edi].
          -- rewrite (bind_silent _ _ _ _ _ _ Edi), bind_lift_ok.
             simpl in Hmissing.
             rewrite (bind_throw _ _ _ _ _ _ _ (calculateMetrics_nullish _ _ _ Hmissing)).
             eexists. split; [reflexivity|]. split; [left; reflexivity | discriminate].
          -- rewrite (bind_throw _ _ _ _ _ _ _ Edi).
             eexists. split; [reflexivity|]. split; [right; reflexivity | discriminate].
      + rewrite (bind_throw _ _ _ _ _ _ _ Etw).
        eexists. split; [reflexivity|]. split; [right; reflexivity | discriminate]. }
  destruct Hm as (e & Hm & He & Htw). exists e. split; [|split; assumption].
  rewrite analyzeAndAllocate_run, Hcfg. unfold analyzeAndAllocate_try.
  rewrite (bind_throw _ _ _ _ _ _ _ Hm). reflexivity.
Qed.

Lemma executeAllocation_nullish a h s :
  nullish a = true -> executeAllocation rt a h s = (Throw (TypeError "amount"), s, []).
Proof.
  intros Ha. unfold executeAllocation. rewrite bind_get_store.
  rewrite (get_nullish _ _ Ha). reflexivity.
Qed.

(** X19. The allocation loop stops at the first entry that is undefined or null:
    whatever follows it in the list is never posted, what was posted before
    it stays posted, and the loop ends in an error. *)
Theorem allocation_loop_stops_at_malformed_entry :
  forall (before after : list Js.value) (a : Js.value) (h : History) (s : Store),
    nullish a = true ->
    is_ok (res (for_of (before ++ a :: after) (executeAllocation rt) h s)) = false
    /\ evs (for_of (before ++ a :: after) (executeAllocation rt) h s) =
       evs (for_of before (executeAllocation rt) h s).
Proof.
  intros before after a h s Ha. revert h s.
  induction before as [|x before IH]; intros h s; simpl.
  - rewrite (bind_throw _ _ _ _ _ _ _ (executeAllocation_nullish a h s Ha)).
    split; reflexivity.
  - destruct (executeAllocation rt x h s) as [[[[]|e] s1] e1] eqn:Hx.
    + rewrite !(bind_ok _ _ _ _ _ _ _ Hx). unfold res, evs. simpl.
      destruct (IH (h ++ e1)%list s1) as [Hres Hevs]. unfold res, evs in Hres, Hevs.
      split; [exact Hres | rewrite Hevs; reflexivity].
    + rewrite !(bind_throw _ _ _ _ _ _ _ Hx). split; reflexivity.
Qed.

Lemma fetchPlatformMetrics_untouched : Untouched (fetchPlatformMetrics rt).
Proof. unfold fetchPlatformMetrics, calculateMetrics, http. untouched. Qed.

(** The [try] block up to the decision. *)
Lemma analyzeAndAllocate_try_run h s cfg metrics s1 e1 decision s2 e2 :
  m_config (marketing s) = Some cfg ->
  fetchPlatformMetrics rt h s = (Ok metrics, s1, e1) ->
  decideMarketing rt {| budget := totalBudget cfg; mi_twitter := twitter metrics;
                        mi_discord := discord metrics; mi_telegram := telegram metrics |}
    (h ++ e1)%list s1 = (Ok decision, s2, e2) ->
  s1 = s /\ s2 = s /\
  analyzeAndAllocate_try rt h s =
    let after :=
      (rsn <- lift (get decision "reasoning") ;;
       console_log (LogMarketingStrategy rsn) ;;
       allocations <- lift (get decision "allocations") ;;
       items <- lift (iterate rt allocations) ;;
       for_of items (executeAllocation rt) ;;
       allocations' <- lift (get decision "allocations") ;;
       trackPerformance rt allocations') ((h ++ e1) ++ e2)%list s in
    (res after, store after, (e1 ++ e2 ++ evs after)%list).
Proof.
  intros Hcfg Hm Hd.
  pose proof (fetchPlatformMetrics_untouched h s) as U1. rewrite Hm in U1.
  unfold store in U1. simpl in U1. subst s1.
  pose proof (decideMarketing_untouched
                {| budget := totalBudget cfg; mi_twitter := twitter metrics;
                   mi_discord := discord metrics; mi_telegram := telegram metrics |}
                (h ++ e1)%list s) as U2.
  rewrite Hd in U2. unfold store in U2. simpl in U2. subst s2.
  split; [reflexivity|]. split; [reflexivity|].
  cbv zeta. unfold analyzeAndAllocate_try.
  rewrite (bind_ok _ _ _ _ _ _ _ Hm). rewrite bind_get_store, Hcfg, bind_ret.
  rewrite (bind_ok _ _ _ _ _ _ _ Hd).
  unfold res, store, evs. simpl. reflexivity.
Qed.

(** X20. A reply that is valid JSON of the wrong shape ends the tick in a logged
    TypeError before anything is posted: the JSON value null has no
    [reasoning] to print, and an [allocations] that is missing, a number or
    an object cannot be iterated.  Neither an allocation nor the tracking
    request is sent. *)
Theorem misshapen_reply_posts_nothing :
  forall (h : History) (s : Store) (cfg : MarketingConfig) (metrics : Metrics)
         (s1 : Store) (e1 : list Event) (decision : Js.value) (s2 : Store)
         (e2 : list Event),
    m_config (marketing s) = Some cfg ->
    fetchPlatformMetrics rt h s = (Ok metrics, s1, e1) ->
    decideMarketing rt {| budget := totalBudget cfg; mi_twitter := twitter metrics;
                          mi_discord := discord metrics; mi_telegram := telegram metrics |}
      (h ++ e1)%list s1 = (Ok decision, s2, e2) ->
    (nullish decision = true ->
       analyzeAndAllocate rt h s =
         (Ok tt, s, (e1 ++ e2 ++ [ConsoleError Marketing (TypeError "reasoning")])%list))
    /\ (forall rsn allocations x,
           get decision "reasoning" = Ok rsn ->
           get decision "allocations" = Ok allocations ->
           iterate rt allocations = Throw x ->
           analyzeAndAllocate rt h s =
             (Ok tt, s,
              (e1 ++ e2 ++ [ConsoleLog (LogMarketingStrategy rsn);
                            ConsoleError Marketing x])%list)).
Proof.
  intros h s cfg metrics s1 e1 decision s2 e2 Hcfg Hm Hd.
  destruct (analyzeAndAllocate_try_run _ _ _ _ _ _ _ _ _ Hcfg Hm Hd) as (_ & _ & Htry).
  cbv zeta in Htry. split.
  - intros Hnull. rewrite analyzeAndAllocate_run, Hcfg, Htry.
    rewrite (get_nullish _ _ Hnull). unfold res, store, evs. simpl.
    rewrite app_nil_r, <- app_assoc. reflexivity.
  - intros rsn allocations x Hr Ha Hit. rewrite analyzeAndAllocate_run, Hcfg, Htry.
    rewrite Hr, bind_lift_ok. unfold console_log. rewrite bind_emit.
    rewrite Ha, bind_lift_ok, Hit. unfold res, store, evs. simpl.
    rewrite <- !app_assoc. reflexivity.
Qed.

Lemma decideMarketing_fallback metrics prompt h s response s1 e1 :
  buildMarketingPrompt rt metrics = Ok prompt ->
  queryLLM rt (Some prompt) h s = (Ok response, s1, e1) ->
  (forall text, ToString rt response = Ok text -> JSON_parse rt text = None) ->
  decideMarketing rt metrics h s =
    (Ok (Js.Object [("allocations", Js.Array []); ("reasoning", response)]), s1, e1).
Proof.
  intros Hp Hq Hparse. unfold decideMarketing. rewrite Hp, bind_lift_ok.
  rewrite (bind_ok _ _ _ _ _ _ _ Hq).
  unfold parseMarketingResponse, try_catch, parse_json.
  destruct (ToString rt response) as [text|e]; unfold and_then, lift.
  - rewrite (Hparse text eq_refl). unfold res, store, evs. simpl.
    rewrite app_nil_r. reflexivity.
  - unfold res, store, evs. simpl. rewrite app_nil_r. reflexivity.
Qed.

(** X21. When the LLM's reply is not JSON (no text it converts to is accepted
    by JSON.parse) the marketing tick allocates nothing: it prints the raw
    reply as the strategy, posts no allocation, and still posts one tracking
    record, with the time of that moment and an empty list of allocations; a
    failure of that request is only logged. *)
Theorem unparsable_reply_allocates_nothing :
  forall (h : History) (s : Store) (cfg : MarketingConfig) (metrics : Metrics)
         (s1 : Store) (e1 : list Event) (prompt : string) (response : Js.value)
         (s2 : Store) (e2 : list Event),
    m_config (marketing s) = Some cfg ->
    fetchPlatformMetrics rt h s = (Ok metrics, s1, e1) ->
    buildMarketingPrompt rt
      {| budget := totalBudget cfg; mi_twitter := twitter metrics;
         mi_discord := discord metrics; mi_telegram := telegram metrics |} = Ok prompt ->
    queryLLM rt (Some prompt) (h ++ e1)%list s1 = (Ok response, s2, e2) ->
    (forall text, ToString rt response = Ok text -> JSON_parse rt text = None) ->
    let logged := ConsoleLog (LogMarketingStrategy response) in
    let now := (((h ++ e1) ++ e2) ++ [logged])%list in
    let url := apiUrl (marketing s) ++ "/api/marketing/track" in
    let init :=
      Some {| method := "POST"; headers := json_headers;
              body := JSON_stringify rt (Js.Object
                        [("timestamp", Js.Number (Date_now rt now));
                         ("allocations", Js.Array [])]) |} in
    evs (analyzeAndAllocate rt h s) =
      (e1 ++ e2 ++ [logged; Fetch url init]
       ++ match fetch rt now url init with
          | Ok _ => []
          | Throw e => [ConsoleError Marketing e]
          end)%list.
Proof.
  intros h s cfg metrics s1 e1 prompt response s2 e2 Hcfg Hm Hp Hq Hparse. cbv zeta.
  pose proof (decideMarketing_fallback _ _ _ _ _ _ _ Hp Hq Hparse) as Hd.
  destruct (analyzeAndAllocate_try_run _ _ _ _ _ _ _ _ _ Hcfg Hm Hd) as (_ & _ & Htry).
  cbv zeta in Htry. rewrite analyzeAndAllocate_run, Hcfg, Htry. clear Htry.
  simpl get. rewrite bind_lift_ok. unfold console_log. rewrite bind_emit.
  rewrite bind_lift_ok. simpl iterate. rewrite bind_lift_ok. simpl for_of.
  rewrite bind_ret, bind_lift_ok.
  unfold trackPerformance. rewrite bind_get_store.
  unfold get_history, http, request, bind, ret, res, store, evs. simpl.
  rewrite !app_nil_r.
  destruct (fetch rt _ _ _) as [resp|e]; simpl; rewrite <- !app_assoc; reflexivity.
Qed.

Lemma div_by_nan x : (x / PrimFloat.nan)%float = PrimFloat.nan.
Proof.
  rewrite <- (FloatAxioms.SF2Prim_Prim2SF (x / PrimFloat.nan)%float), FloatAxioms.div_spec.
  change (Prim2SF PrimFloat.nan) with S754_nan.
  destruct (Prim2SF x); reflexivity.
Qed.

(** The figures [calculateMetrics] computes with. *)
Lemma calculateMetrics_object props h s :
  calculateMetrics rt (Js.Object props) h s =
  (let* sum := add rt (Js.own "likes" props) (Js.own "comments" props) in
   let* total := add rt sum (Js.own "shares" props) in
   let* cost := div rt (Js.own "spend" props) (Js.own "engagement" props) in
   Ok {| pm_platform := Js.own "name" props;
         engagement := total;
         reach := Js.own "impressions" props;
         activeUsers := Js.own "activeUsers" props;
         growthRate := Js.own "followerGrowth" props;
         avgResponseTime := Js.own "avgResponseTime" props;
         costPerEngagement := cost |},
   s, []).
Proof.
  unfold calculateMetrics. simpl get. rewrite !bind_lift_ok.
  destruct (add rt (Js.own "likes" props) (Js.own "comments" props)) as [sum|e]; simpl;
    [rewrite !bind_lift_ok | reflexivity].
  destruct (add rt sum (Js.own "shares" props)) as [total|e]; simpl;
    [rewrite !bind_lift_ok | reflexivity].
  destruct (div rt (Js.own "spend" props) (Js.own "engagement" props)) as [cost|e]; simpl;
    [rewrite !bind_lift_ok | reflexivity].
  reflexivity.
Qed.

(** X22. [calculateMetrics] has no effect.  It fails only when one of the
    figures it computes with cannot be converted to a primitive value, and
    never when [likes], [comments], [shares], [spend] and [engagement] all
    can.  When it returns, the engagement is likes + comments + shares, but
    the spend has been divided by the [engagement] field of the payload, not
    by that sum: when the payload has no such field the cost per engagement
    is NaN, whatever the spend and the counts are. *)
Theorem cost_per_engagement_reads_the_payload :
  forall (props : list (string * Js.value)) (h : History) (s : Store),
    exists r,
      calculateMetrics rt (Js.Object props) h s = (r, s, [])
      /\ (forall pm, r = Ok pm ->
            (exists sum,
                add rt (Js.own "likes" props) (Js.own "comments" props) = Ok sum
                /\ add rt sum (Js.own "shares" props) = Ok (engagement pm))
            /\ div rt (Js.own "spend" props) (Js.own "engagement" props)
                 = Ok (costPerEngagement pm)
            /\ (Js.lookup "engagement" props = None ->
                costPerEngagement pm = Js.Number PrimFloat.nan))
      /\ (forall e, r = Throw e -> e = cannot_convert)
      /\ (forallb (fun k => convertible rt (Js.own k props))
                  ["likes"; "comments"; "shares"; "spend"; "engagement"] = true ->
          is_ok r = true).
Proof.
  intros props h s. rewrite calculateMetrics_object. eexists. split; [reflexivity|].
  destruct (add rt (Js.own "likes" props) (Js.own "comments" props)) as [sum|e1] eqn:H1;
    simpl.
  - destruct (add rt sum (Js.own "shares" props)) as [total|e2] eqn:H2; simpl.
    + destruct (div rt (Js.own "spend" props) (Js.own "engagement" props))
        as [cost|e3] eqn:H3; simpl.
      * split; [|split; [discriminate | reflexivity]].
        intros pm Hpm. injection Hpm as <-. simpl.
        split; [exists sum; split; [reflexivity | exact H2]|]. split; [reflexivity|].
        intros Hno. unfold div, Js.own at 2 in H3. rewrite Hno in H3. simpl in H3.
        destruct (ToNumber rt (Js.own "spend" props)); simpl in H3; [|discriminate].
        injection H3 as <-. rewrite div_by_nan. reflexivity.
      * split; [discriminate|]. split.
        -- intros e He. injection He as <-. exact (div_throws _ _ _ H3).
        -- intros Hc. simpl in Hc. repeat (apply andb_true_iff in Hc; destruct Hc as [? Hc]).
           destruct (div_convertible (Js.own "spend" props) (Js.own "engagement" props))
             as [v Hv]; try assumption. congruence.
    + split; [discriminate|]. split.
      * intros e He. injection He as <-. exact (add_throws _ _ _ H2).
      * intros Hc. simpl in Hc. repeat (apply andb_true_iff in Hc; destruct Hc as [? Hc]).
        destruct (add_convertible (Js.own "likes" props) (Js.own "comments" props))
          as (v & Hv & Hcv); try assumption.
        assert (v = sum) by congruence. subst v.
        destruct (add_convertible sum (Js.own "shares" props)) as (w & Hw & _);
          try assumption. congruence.
  - split; [discriminate|]. split.
    + intros e He. injection He as <-. exact (add_throws _ _ _ H1).
    + intros Hc. simpl in Hc. repeat (apply andb_true_iff in Hc; destruct Hc as [? Hc]).
      destruct (add_convertible (Js.own "likes" props) (Js.own "comments" props))
        as (v & Hv & _); try assumption. congruence.
Qed.

End Properties.

(** ** The properties on concrete runs *)

Lemma parseTradingResponse_invalid_json_run :
  JSON_parse (scripted documents "" true) "I would rather hold for now." = None
  /\ parseTradingResponse (scripted documents "" true)
       (Js.Str "I would rather hold for now.") [] (fresh "openrouter") =
     (Ok {| action := Js.Str "hold"; amount := Js.Undefined;
            reasoning := Js.Str "I would rather hold for now.";
            confidence := Js.Number 0.5%float |}, fresh "openrouter", []).
Proof.
  split; [reflexivity|].
  apply (parseTradingResponse_invalid_json (scripted documents "" true)
           "I would rather hold for now." [] (fresh "openrouter")).
  reflexivity.
Defined.

Lemma parseTradingResponse_verbatim_run :
  JSON_parse (scripted documents "" true) odd_reply_text = Some odd_reply
  /\ parseTradingResponse (scripted documents "" true) (Js.Str odd_reply_text) []
       (fresh "openrouter") =
     (Ok {| action := Js.Str "moon"; amount := Js.Undefined; reasoning := Js.Undefined;
            confidence := Js.Number 1.5%float |}, fresh "openrouter", []).
Proof.
  split; [reflexivity|].
  apply (parseTradingResponse_verbatim (scripted documents "" true) odd_reply_text
           [("action", Js.Str "moon"); ("confidence", Js.Number 1.5%float)]
           (Js.Number 1.5%float) [] (fresh "openrouter")); reflexivity.
Defined.

(** C2, as stated, fails: constructing a connector for a provider outside
    the enumerated set succeeds. *)
Lemma constructor_accepts_unsupported_provider :
  is_supported "gemini" = false
  /\ new_LLMConnector (demo_llm_config "gemini") = Ok (demo_llm "gemini").
Proof. split; reflexivity. Qed.

Lemma unsupported_provider_run :
  is_supported "gemini" = false
  /\ queryLLM (scripted documents "" true) None [] (fresh "gemini") =
     (Throw (Error "Unsupported provider: gemini"), fresh "gemini", []).
Proof.
  split; [reflexivity|].
  apply (proj2 (unsupported_provider_fails_on_query (scripted documents "" true)
                  (demo_llm_config "gemini") eq_refl)).
  reflexivity.
Defined.

Lemma startTrading_twice_run :
  phase (trading (running "openrouter" 0.0002%float)) = Running
  /\ startTrading (scripted documents "" true) demo_trading_config []
       (running "openrouter" 0.0002%float) =
     (Throw (Error "Agent already running"), running "openrouter" 0.0002%float, []).
Proof.
  split; [reflexivity|].
  apply (proj1 (trading_driver_two_states (scripted documents "" true) demo_trading_config
                  (demo_buyback 0.0002%float) [] (running "openrouter" 0.0002%float))).
  reflexivity.
Defined.

(** Confidence 0.65, action buy with an amount, buyback armed: nothing is
    executed. *)
Lemma low_confidence_run :
  gt (scripted documents (buy_reply_text "0.65") true) (Js.Number 0.65%float) 0.7%float
    = Ok false
  /\ existsb is_execution
       (evs (analyzeAndTrade (scripted documents (buy_reply_text "0.65") true) []
               (running "openrouter" 0.0002%float))) = false.
Proof.
  split; [reflexivity|].
  eapply (low_confidence_no_execution (scripted documents (buy_reply_text "0.65") true) []
            (running "openrouter" 0.0002%float) demo_trading_config);
    [ reflexivity | lazy; reflexivity | lazy; reflexivity
    | intros Hgt; vm_compute in Hgt; discriminate Hgt ].
Defined.

(** C5, as stated, fails: same store, same snapshot (price 0.0001 below the
    trigger 0.0002), same confidence 0.9, and an RPC node that rejects
    transactions.  With the action 'buy' the trade throws, the tick ends in
    its handler and [collectFees] is never called; with the action 'hold' it
    is called. *)
Lemma buyback_depends_on_action :
  buybackConfig (trading (running "openrouter" 0.0002%float)) = Some (demo_buyback 0.0002%float)
  /\ enabled (demo_buyback 0.0002%float) = true
  /\ triggerPrice (demo_buyback 0.0002%float) = Some 0.0002%float
  /\ res (getMarketData (scripted documents (buy_reply_text "0.9") false)
            (tokenMint demo_trading_config) [] (running "openrouter" 0.0002%float)) =
     Ok demo_snapshot
  /\ lt_num (price demo_snapshot) 0.0002%float = true
  /\ res (decideTrade (scripted documents (buy_reply_text "0.9") false) demo_snapshot
            (evs (getMarketData (scripted documents (buy_reply_text "0.9") false)
                    (tokenMint demo_trading_config) [] (running "openrouter" 0.0002%float)))
            (running "openrouter" 0.0002%float)) =
     Ok {| action := Js.Str "buy"; amount := Js.Number 1%float;
           reasoning := Js.Undefined; confidence := Js.Number 0.9%float |}
  /\ existsb is_collectFees
       (evs (analyzeAndTrade (scripted documents (buy_reply_text "0.9") false) []
               (running "openrouter" 0.0002%float))) = false
  /\ existsb is_collectFees
       (evs (analyzeAndTrade (scripted documents hold_reply_text false) []
               (running "openrouter" 0.0002%float))) = true.
Proof. repeat split; vm_compute; reflexivity. Qed.

Lemma buyback_check_run :
  lt_num 0.0001%float 0.0002%float = true
  /\ existsb is_collectFees
       (evs (analyzeAndTrade (scripted documents (buy_reply_text "0.9") true) []
               (running "openrouter" 0.0002%float))) = true.
Proof.
  split; [reflexivity|].
  eapply (buyback_check_collects_fees (scripted documents (buy_reply_text "0.9") true) []
            (running "openrouter" 0.0002%float) demo_trading_config
            (demo_buyback 0.0002%float) 0.0002%float);
    [ reflexivity | reflexivity | reflexivity | reflexivity | reflexivity
    | lazy; reflexivity | reflexivity | lazy; reflexivity
    | lazy; reflexivity | lazy; reflexivity | lazy; reflexivity
    | intros _; vm_compute; reflexivity ].
Defined.

Lemma buybackAndBurn_run :
  wallet demo_sdk = Some {| secretKey := "wallet-secret" |}
  /\ res (buybackAndBurn (scripted documents "" true) demo_sdk
            {| bp_tokenMint := {| base58 := "TokenMint11111111111111111111111111111111111" |};
               solAmount := 1.5%float; bp_burnPercentage := 50%float |}
            [] (fresh "openrouter")) = Ok "sig-1"
  /\ filter is_sendTransaction
       (evs (buybackAndBurn (scripted documents "" true) demo_sdk
               {| bp_tokenMint := {| base58 := "TokenMint11111111111111111111111111111111111" |};
                  solAmount := 1.5%float; bp_burnPercentage := 50%float |}
               [] (fresh "openrouter"))) =
     [Rpc (SendTransaction [] [Some {| secretKey := "wallet-secret" |}])].
Proof.
  split; [reflexivity|].
  pose proof (buybackAndBurn_single_trade (scripted documents "" true) demo_sdk
                {| bp_tokenMint := {| base58 := "TokenMint11111111111111111111111111111111111" |};
                   solAmount := 1.5%float; bp_burnPercentage := 50%float |}
                [] (fresh "openrouter") {| secretKey := "wallet-secret" |}
                {| base58 := "Controller11111111111111111111111111111111" |}
                eq_refl eq_refl) as H.
  cbv zeta in H. destruct H as (Hres & _ & _ & _ & Hsend & _).
  split; [rewrite Hres; reflexivity | exact Hsend].
Defined.

(** The LLM endpoint is down: the tick logs the rejection and returns. *)
Lemma failing_tick_run :
  analyzeAndTrade offline [] (running "openrouter" 0.0002%float) =
    (Ok tt,
     store (analyzeAndTrade_try offline demo_trading_config []
              (running "openrouter" 0.0002%float)),
     (evs (analyzeAndTrade_try offline demo_trading_config []
             (running "openrouter" 0.0002%float))
      ++ [ConsoleError Trading (Rejected (Js.Str "fetch failed"))])%list)
  /\ registered 0 (store (ticks offline 3 0 [] (running "openrouter" 0.0002%float))) =
     Some CbAnalyzeAndTrade.
Proof.
  destruct (ticks_never_rethrow offline [] (running "openrouter" 0.0002%float))
    as ((_ & _ & Hcaught) & _ & Hticks).
  split.
  - apply (Hcaught demo_trading_config); [reflexivity | vm_compute; reflexivity].
  - destruct (Hticks 3 0) as (_ & _ & Hreg). rewrite Hreg. reflexivity.
Defined.

(** Price below the trigger: fees are collected, the amount is 0, no buyback. *)
Lemma collectFees_run :
  res (collectFees (scripted documents "" true) demo_sdk [] (running "openrouter" 0.0001%float))
    = Ok 0%float
  /\ shouldBuyback (demo_buyback 0.0001%float) below_trigger_snapshot = true
  /\ existsb is_collectFees
       (evs (checkBuyback (scripted documents "" true) below_trigger_snapshot
               [] (running "openrouter" 0.0001%float))) = true
  /\ existsb is_buybackAndBurn
       (evs (checkBuyback (scripted documents "" true) below_trigger_snapshot
               [] (running "openrouter" 0.0001%float))) = false.
Proof.
  destruct (collectFees_zero_so_no_buyback (scripted documents "" true) demo_sdk
              below_trigger_snapshot [] (running "openrouter" 0.0001%float))
    as [Hzero Hnone].
  split; [|split; [reflexivity | split; [reflexivity | exact Hnone]]].
  destruct (res (collectFees (scripted documents "" true) demo_sdk []
                   (running "openrouter" 0.0001%float))) as [v|e] eqn:Hres.
  - rewrite (Hzero v eq_refl). reflexivity.
  - discriminate Hres.
Defined.

(** A buy without an amount at confidence 0.9. *)
Lemma executeDecision_without_amount_run :
  needs_amount (Js.Str "buy") = true
  /\ executeDecision (scripted documents "" true)
       {| action := Js.Str "buy"; amount := Js.Undefined;
          reasoning := Js.Str "strong momentum"; confidence := Js.Number 0.9%float |}
       [] (running "openrouter" 0.0002%float) =
     (Ok tt, running "openrouter" 0.0002%float, []).
Proof.
  split; [reflexivity|].
  destruct (executeDecision_without_amount (scripted documents "" true)
              {| action := Js.Str "buy"; amount := Js.Undefined;
                 reasoning := Js.Str "strong momentum"; confidence := Js.Number 0.9%float |}
              [] (running "openrouter" 0.0002%float) eq_refl eq_refl)
    as (Hevs & Hstore & Hres & _).
  rewrite (out_eta (executeDecision _ _ _ _)), Hevs, Hstore, Hres; [reflexivity|].
  intros cfg Hcfg. inversion Hcfg. reflexivity.
Defined.

(** ** The further properties on concrete runs *)

Lemma timers_wf_fresh p : timers_wf (fresh p).
Proof. unfold timers_wf. simpl. repeat split. intros t []. Qed.

(** The LLM endpoint is down: the prompt stays in the conversation without an
    answer. *)
Lemma decideTrade_conversation_run :
  exists prompt,
    buildTradingPrompt offline demo_snapshot = Ok prompt
    /\ res (decideTrade offline demo_snapshot [] (fresh "openrouter"))
         = Throw (Rejected (Js.Str "fetch failed"))
    /\ conversationHistory (llm (store (decideTrade offline demo_snapshot []
                                          (fresh "openrouter")))) =
       (conversationHistory (llm (fresh "openrouter"))
          ++ [ {| role := "user"; content := Js.Str prompt |} ])%list.
Proof.
  eexists. split; [reflexivity|]. split; [reflexivity|].
  destruct (decideTrade_conversation offline demo_snapshot [] (fresh "openrouter"))
    as (_ & _ & _ & Hprompt).
  destruct (Hprompt _ eq_refl) as [_ Hfail]. cbv zeta in Hfail.
  destruct (Hfail (Rejected (Js.Str "fetch failed")) eq_refl) as [_ Hconv].
  exact Hconv.
Defined.

(** A daily rebalance runs every 86400000 ms; a monthly one (720 hours,
    2592000000 ms) exceeds the largest delay and runs every millisecond. *)
Lemma marketing_driver_run :
  m_isRunning (marketing marketing_ready) = false
  /\ intervals (store (startMarketing (marketing_runtime "") demo_marketing_config []
                         marketing_ready)) =
     [(0, CbAnalyzeAndAllocate, 86400000%float)]
  /\ intervals (store (startMarketing (marketing_runtime "")
                         {| totalBudget := 1000%float; platforms := ["twitter"];
                            minROI := 1.5%float; rebalanceInterval := 720%float |} []
                         marketing_ready)) =
     [(0, CbAnalyzeAndAllocate, 1%float)].
Proof.
  split; [reflexivity|].
  pose proof (marketing_driver_two_states (marketing_runtime "") demo_marketing_config []
                marketing_ready) as Hday.
  pose proof (marketing_driver_two_states (marketing_runtime "")
                {| totalBudget := 1000%float; platforms := ["twitter"];
                   minROI := 1.5%float; rebalanceInterval := 720%float |} []
                marketing_ready) as Hmonth.
  cbv zeta in Hday, Hmonth.
  destruct Hday as (_ & Hday & _). destruct Hmonth as (_ & Hmonth & _).
  destruct (Hday eq_refl) as (_ & _ & _ & _ & _ & Hint).
  destruct (Hmonth eq_refl) as (_ & _ & _ & _ & _ & Hint').
  split; [rewrite Hint | rewrite Hint']; reflexivity.
Defined.

Lemma timers_stay_consistent_run :
  timers_wf (fresh "openrouter")
  /\ timers_wf
       (fst (session (scripted documents "hold" true)
               [DoStartTrading demo_trading_config; DoStartMarketing demo_marketing_config;
                DoTimer 0; DoStopTrading; DoStartTrading demo_trading_config;
                DoStopMarketing]
               [] (fresh "openrouter"))).
Proof.
  split; [apply timers_wf_fresh|].
  apply (timers_stay_consistent (scripted documents "hold" true)). apply timers_wf_fresh.
Defined.

Lemma stopTrading_cancels_run :
  checkInterval (trading (running "openrouter" 0.0002%float)) = Some 0
  /\ registered 0 (store (stopTrading [] (running "openrouter" 0.0002%float))) = None.
Proof.
  split; [reflexivity|].
  destruct (stopTrading_cancels (scripted documents "" true) []
              (running "openrouter" 0.0002%float)) as [Hsome _].
  destruct (Hsome 0 eq_refl) as (_ & Hreg & _). exact Hreg.
Defined.

Lemma start_stop_round_trip_run :
  isRunning (trading (fresh "openrouter")) = false
  /\ intervals (store (stopTrading []
                         (store (startTrading (scripted documents "hold" true)
                                   demo_trading_config [] (fresh "openrouter"))))) = [].
Proof.
  split; [reflexivity|].
  destruct (start_stop_round_trip (scripted documents "hold" true) demo_trading_config [] []
              (fresh "openrouter") (timers_wf_fresh "openrouter") eq_refl) as (Hint & _).
  exact Hint.
Defined.

Lemma facade_preconditions_run :
  wallet walletless_sdk = None
  /\ controllerProgram controllerless_sdk = None
  /\ res (trade (scripted documents "" true) walletless_sdk
            {| tp_tokenMint := {| base58 := "TokenMint11111111111111111111111111111111111" |};
               tp_amount := Js.Number 1%float; tp_side := buy; tp_slippage := None |}
            [] (fresh "openrouter")) = Throw (Error "Wallet not initialized")
  /\ res (collectFees (scripted documents "" true) controllerless_sdk [] (fresh "openrouter"))
     = Throw (Error "Controller program not configured").
Proof.
  split; [reflexivity|]. split; [reflexivity|].
  destruct (facade_preconditions (scripted documents "" true) walletless_sdk []
              (fresh "openrouter")) as [Hw _].
  destruct (facade_preconditions (scripted documents "" true) controllerless_sdk []
              (fresh "openrouter")) as [_ Hc].
  destruct (Hw eq_refl) as [Htrade _]. destruct (Hc eq_refl) as [Hfees _].
  split; [rewrite Htrade; reflexivity | rewrite Hfees; reflexivity].
Defined.

(** Without a wallet the fees are still collected; a fee amount that cannot
    be printed stops [addLiquidityFromFees] before it submits anything. *)
Lemma fees_submitted_without_wallet_run :
  wallet walletless_sdk = None
  /\ filter is_sendTransaction
       (evs (collectFees (scripted documents "" true) walletless_sdk [] (fresh "openrouter")))
     = [Rpc (SendTransaction [] [None])]
  /\ addLiquidityFromFees (scripted documents "" true) walletless_sdk
       {| base58 := "TokenMint11111111111111111111111111111111111" |} unprintable
       [] (fresh "openrouter") =
     (Throw cannot_convert, fresh "openrouter",
      [Call (CallAddLiquidityFromFees
               {| base58 := "TokenMint11111111111111111111111111111111111" |} unprintable)]).
Proof.
  split; [reflexivity|].
  destruct (fees_submitted_without_wallet (scripted documents "" true) walletless_sdk
              {| base58 := "Controller11111111111111111111111111111111" |} []
              (fresh "openrouter") eq_refl eq_refl) as (Hfees & _ & Hthrow).
  split; [exact Hfees | apply Hthrow; reflexivity].
Defined.

(** The node does not know the account; the text 0OIl is no base58. *)
Lemma getTokenInfo_not_found_run :
  getTokenInfo error_runtime demo_sdk "TokenMint11111111111111111111111111111111111" []
    (fresh "openrouter") =
  (Throw (Error "Token not found"), fresh "openrouter",
   [Call (CallGetTokenInfo "TokenMint11111111111111111111111111111111111");
    Rpc (GetParsedAccountInfo
           {| base58 := "TokenMint11111111111111111111111111111111111" |})])
  /\ getTokenInfo error_runtime demo_sdk "0OIl" [] (fresh "openrouter") =
     (Throw (Error "Non-base58 character"), fresh "openrouter",
      [Call (CallGetTokenInfo "0OIl")]).
Proof.
  destruct (getTokenInfo_contract error_runtime demo_sdk
              "TokenMint11111111111111111111111111111111111" [] (fresh "openrouter"))
    as (_ & Hmissing & _).
  destruct (getTokenInfo_contract error_runtime demo_sdk "0OIl" [] (fresh "openrouter"))
    as (Hinvalid & _).
  split.
  - apply (Hmissing (Js.Object [("value", Js.Null)]) Js.Null); reflexivity.
  - rewrite (Hinvalid eq_refl). reflexivity.
Defined.

Lemma snapshot_run :
  res (getMarketData (scripted documents "" true)
         "TokenMint11111111111111111111111111111111111" [] (fresh "openrouter"))
    = Ok demo_snapshot
  /\ PrimFloat.leb (volume24h demo_snapshot) 100%float = true.
Proof.
  split; [reflexivity|].
  pose proof (snapshot_is_mostly_constant (scripted documents "" true)
                "TokenMint11111111111111111111111111111111111" [] (fresh "openrouter")
                demo_snapshot eq_refl) as H.
  cbv zeta in H.
  destruct H as (_ & _ & _ & _ & _ & _ & (signatures & Hsig & _ & Hbound) & _).
  apply Hbound. simpl in Hsig. injection Hsig as <-. simpl. lia.
Defined.

(** The configuration of the buyback bot: trigger price 0.0001.  A tick that
    would collect fees contradicts the comparison. *)
Lemma buyback_trigger_run :
  existsb is_collectFees
    (evs (analyzeAndTrade (scripted documents "hold" true) []
            (running "openrouter" 0.0002%float))) = true
  /\ exists b t,
       buybackConfig (trading (running "openrouter" 0.0002%float)) = Some b
       /\ enabled b = true /\ triggerPrice b = Some t /\ Js.truthy_number t = true
       /\ PrimFloat.ltb 0.0001%float t = true.
Proof.
  assert (H : existsb is_collectFees
                (evs (analyzeAndTrade (scripted documents "hold" true) []
                        (running "openrouter" 0.0002%float))) = true)
    by (vm_compute; reflexivity).
  split; [exact H|].
  exact (buyback_fires_only_above_the_constant_price (scripted documents "hold" true) []
           (running "openrouter" 0.0002%float) H).
Defined.

Lemma queryLLM_single_request_run :
  is_supported "anthropic" = true
  /\ exists url init,
       evs (queryLLM (scripted documents "" true) None [] (fresh "anthropic"))
         = [Fetch url (Some init)]
       /\ method init = "POST"
       /\ store (queryLLM (scripted documents "" true) None [] (fresh "anthropic"))
          = fresh "anthropic".
Proof.
  split; [reflexivity|].
  apply (queryLLM_single_request (scripted documents "" true) None [] (fresh "anthropic")).
  reflexivity.
Defined.

Lemma malformed_payloads_run :
  res (queryLLM error_runtime None [] (fresh "openrouter")) = Throw (TypeError "0")
  /\ res (queryLLM error_runtime None [] (fresh "eliza")) = Ok Js.Undefined.
Proof.
  destruct (malformed_payloads error_runtime [] (fresh "openrouter")
              [("error", Js.Str "rate limited")] (fun _ _ => eq_refl)) as [Hchat _].
  destruct (malformed_payloads error_runtime [] (fresh "eliza")
              [("error", Js.Str "rate limited")] (fun _ _ => eq_refl)) as [_ Hplain].
  split.
  - apply Hchat; [left; reflexivity | reflexivity].
  - apply Hplain; [left; reflexivity | reflexivity].
Defined.


(** The LLM answers with the action "moon": nothing happens.  A burn prints
    its line, unless the amount cannot be printed. *)
Lemma unknown_action_run :
  executeDecision (scripted documents "" true)
    {| action := Js.Str "moon"; amount := Js.Number 5%float;
       reasoning := Js.Undefined; confidence := Js.Number 1.5%float |}
    [] (running "openrouter" 0.0002%float)
  = (Ok tt, running "openrouter" 0.0002%float, [])
  /\ executeDecision (scripted documents "" true)
       {| action := Js.Str "burn"; amount := Js.Number 5%float;
          reasoning := Js.Undefined; confidence := Js.Number 1%float |}
       [] (running "openrouter" 0.0002%float)
     = (Ok tt, running "openrouter" 0.0002%float,
        [ConsoleLog (LogBurning (Js.Number 5%float))])
  /\ executeDecision (scripted documents "" true)
       {| action := Js.Str "burn"; amount := unprintable;
          reasoning := Js.Undefined; confidence := Js.Number 1%float |}
       [] (running "openrouter" 0.0002%float)
     = (Throw cannot_convert, running "openrouter" 0.0002%float, []).
Proof.
  split; [|split].
  - destruct (burn_and_unknown_actions_submit_nothing (scripted documents "" true)
                {| action := Js.Str "moon"; amount := Js.Number 5%float;
                   reasoning := Js.Undefined; confidence := Js.Number 1.5%float |}
                [] (running "openrouter" 0.0002%float) demo_trading_config eq_refl eq_refl)
      as [_ Hunknown].
    apply Hunknown; reflexivity.
  - destruct (burn_and_unknown_actions_submit_nothing (scripted documents "" true)
                {| action := Js.Str "burn"; amount := Js.Number 5%float;
                   reasoning := Js.Undefined; confidence := Js.Number 1%float |}
                [] (running "openrouter" 0.0002%float) demo_trading_config eq_refl eq_refl)
      as [Hburn _].
    rewrite (Hburn eq_refl). reflexivity.
  - destruct (burn_and_unknown_actions_submit_nothing (scripted documents "" true)
                {| action := Js.Str "burn"; amount := unprintable;
                   reasoning := Js.Undefined; confidence := Js.Number 1%float |}
                [] (running "openrouter" 0.0002%float) demo_trading_config eq_refl eq_refl)
      as [Hburn _].
    rewrite (Hburn eq_refl). reflexivity.
Defined.

(** A negative amount is sold as it stands; an amount that cannot be printed
    reaches no trade. *)
Lemma negative_amount_run :
  filter is_call
    (evs (executeDecision (scripted documents "" true)
            {| action := Js.Str "sell"; amount := Js.Number (-3)%float;
               reasoning := Js.Undefined; confidence := Js.Number 1%float |}
            [] (running "openrouter" 0.0002%float)))
  = [Call (CallTrade {| tp_tokenMint := {| base58 := tokenMint demo_trading_config |};
                        tp_amount := Js.Number (-3)%float; tp_side := sell;
                        tp_slippage := Some 0.01%float |})]
  /\ executeDecision (scripted documents "" true)
       {| action := Js.Str "buy"; amount := unprintable;
          reasoning := Js.Undefined; confidence := Js.Number 1%float |}
       [] (running "openrouter" 0.0002%float)
     = (Throw cannot_convert, running "openrouter" 0.0002%float, []).
Proof.
  pose proof (buy_and_sell_pass_the_amount_through (scripted documents "" true)
                {| action := Js.Str "sell"; amount := Js.Number (-3)%float;
                   reasoning := Js.Undefined; confidence := Js.Number 1%float |}
                [] (running "openrouter" 0.0002%float) demo_trading_config sell
                eq_refl eq_refl eq_refl eq_refl) as Hsell.
  pose proof (buy_and_sell_pass_the_amount_through (scripted documents "" true)
                {| action := Js.Str "buy"; amount := unprintable;
                   reasoning := Js.Undefined; confidence := Js.Number 1%float |}
                [] (running "openrouter" 0.0002%float) demo_trading_config buy
                eq_refl eq_refl eq_refl eq_refl) as Hbuy.
  cbv zeta in Hsell, Hbuy.
  destruct Hsell as [Hok _]. destruct Hbuy as [_ Hthrow].
  destruct (Hok "0" eq_refl) as [_ Hcalls].
  split; [exact Hcalls | apply Hthrow; reflexivity].
Defined.

(** An amount of 0. *)
Lemma zero_amount_run :
  Js.ToBoolean (Js.Number 0%float) = false
  /\ evs (executeDecision (scripted documents "" true)
            {| action := Js.Str "buy"; amount := Js.Number 0%float;
               reasoning := Js.Undefined; confidence := Js.Number 1%float |}
            [] (running "openrouter" 0.0002%float)) = [].
Proof.
  split; [reflexivity|].
  destruct (falsy_amounts_execute_nothing (scripted documents "" true)
              {| action := Js.Str "buy"; amount := Js.Number 0%float;
                 reasoning := Js.Undefined; confidence := Js.Number 1%float |}
              [] (running "openrouter" 0.0002%float) eq_refl eq_refl) as [Hevs _].
  exact Hevs.
Defined.

(** The metrics endpoint answers with a chat completion, which has no
    [twitter] entry. *)
Lemma missing_platform_run :
  analyzeAndAllocate (scripted documents "" true) [] marketing_ready =
    (Ok tt, marketing_ready,
     [Fetch metrics_url None; ConsoleError Marketing (TypeError "name")]).
Proof.
  destruct (missing_platform_ends_the_tick (scripted documents "" true) [] marketing_ready
              demo_marketing_config {| json := Ok (chat_completion "") |}
              [("choices", Js.Array [Js.Object [("message",
                  Js.Object [("content", Js.Str "")])]])]
              eq_refl eq_refl eq_refl eq_refl) as (e & Hrun & _ & Htwitter).
  rewrite Hrun, (Htwitter eq_refl). reflexivity.
Defined.

Lemma allocation_loop_run :
  evs (for_of [Js.Null; Js.Object [("platform", Js.Str "twitter")]]
         (executeAllocation (marketing_runtime "")) [] marketing_ready) = [].
Proof.
  destruct (allocation_loop_stops_at_malformed_entry (marketing_runtime "") []
              [Js.Object [("platform", Js.Str "twitter")]] Js.Null [] marketing_ready
              eq_refl) as [_ Hevs].
  exact Hevs.
Defined.

(** The LLM answers {"action":"moon","confidence":1.5}: there is no list of
    allocations to iterate. *)
Lemma misshapen_reply_run :
  existsb is_console_error
    (evs (analyzeAndAllocate (marketing_runtime odd_reply_text) [] marketing_ready)) = true
  /\ count is_fetch
       (evs (analyzeAndAllocate (marketing_runtime odd_reply_text) [] marketing_ready)) = 2.
Proof.
  destruct (fetchPlatformMetrics (marketing_runtime odd_reply_text) [] marketing_ready)
    as [[[metrics|x] s1] e1] eqn:Hm; [|discriminate Hm].
  destruct (decideMarketing (marketing_runtime odd_reply_text)
              {| budget := totalBudget demo_marketing_config;
                 mi_twitter := twitter metrics; mi_discord := discord metrics;
                 mi_telegram := telegram metrics |} ([] ++ e1)%list s1)
    as [[[decision|x] s2] e2] eqn:Hd.
  - destruct (misshapen_reply_posts_nothing (marketing_runtime odd_reply_text) []
                marketing_ready demo_marketing_config metrics s1 e1 decision s2 e2
                eq_refl Hm Hd) as [_ Hshape].
    vm_compute in Hm. injection Hm as <- <- <-.
    vm_compute in Hd. injection Hd as <- <- <-.
    rewrite (Hshape Js.Undefined Js.Undefined (TypeError "not iterable")
               eq_refl eq_refl eq_refl).
    split; reflexivity.
  - vm_compute in Hm. injection Hm as <- <- <-. vm_compute in Hd. discriminate Hd.
Defined.


(** The LLM answers in prose: one tracking record, no allocation. *)
Lemma unparsable_reply_run :
  JSON_parse (marketing_runtime "Spend it all on memes.") "Spend it all on memes." = None
  /\ count is_fetch
       (evs (analyzeAndAllocate (marketing_runtime "Spend it all on memes.") []
               marketing_ready)) = 3
  /\ exists before,
       evs (analyzeAndAllocate (marketing_runtime "Spend it all on memes.") []
              marketing_ready) =
         (before
          ++ [ConsoleLog (LogMarketingStrategy (Js.Str "Spend it all on memes."));
              Fetch "https://marketing.example/api/marketing/track"
                (Some {| method := "POST"; headers := json_headers;
                         body := Js.Str "{}" |})])%list.
Proof.
  split; [reflexivity|]. split; [reflexivity|].
  exists (firstn 2 (evs (analyzeAndAllocate (marketing_runtime "Spend it all on memes.") []
                          marketing_ready))).
  etransitivity.
  - eapply (unparsable_reply_allocates_nothing (marketing_runtime "Spend it all on memes.")
              [] marketing_ready demo_marketing_config);
      [ reflexivity | lazy; reflexivity | lazy; reflexivity | lazy; reflexivity
      | intros text Htext; injection Htext as <-; reflexivity ].
  - vm_compute. reflexivity.
Defined.

(** A platform entry without an [engagement] field, and one whose [likes]
    cannot be converted. *)
Lemma cost_per_engagement_run :
  Js.lookup "engagement" [("likes", Js.Number 10%float); ("spend", Js.Number 30%float)] = None
  /\ (exists pm,
         res (calculateMetrics (marketing_runtime "")
                (Js.Object [("likes", Js.Number 10%float); ("spend", Js.Number 30%float)])
                [] marketing_ready) = Ok pm
         /\ costPerEngagement pm = Js.Number PrimFloat.nan)
  /\ res (calculateMetrics (marketing_runtime "")
            (Js.Object [("likes", unprintable); ("spend", Js.Number 30%float)])
            [] marketing_ready) = Throw cannot_convert.
Proof.
  split; [reflexivity|]. split.
  - destruct (cost_per_engagement_reads_the_payload (marketing_runtime "")
                [("likes", Js.Number 10%float); ("spend", Js.Number 30%float)]
                [] marketing_ready) as (r & Hrun & Hok & _ & Hconv).
    specialize (Hconv eq_refl). destruct r as [pm|e]; [|discriminate Hconv].
    destruct (Hok pm eq_refl) as (_ & _ & Hnan).
    exists pm. split; [rewrite Hrun; reflexivity | apply Hnan; reflexivity].
  - destruct (cost_per_engagement_reads_the_payload (marketing_runtime "")
                [("likes", unprintable); ("spend", Js.Number 30%float)]
                [] marketing_ready) as (r & Hrun & _ & Hthrow & _).
    rewrite Hrun. unfold res. simpl.
    destruct r as [pm|e]; [vm_compute in Hrun; discriminate Hrun|].
    rewrite (Hthrow e eq_refl). reflexivity.
Defined.

(** The LLM answers {"action":{"toString":1},"confidence":0.5} while the
    buyback is armed: the tick ends in the TypeError of the first log line
    and never reaches the buyback check. *)
Lemma unprintable_decision_run :
  JSON_parse (scripted documents unprintable_reply_text true) unprintable_reply_text
    = Some unprintable_reply
  /\ shouldBuyback (demo_buyback 0.0002%float) demo_snapshot = true
  /\ existsb is_collectFees
       (evs (analyzeAndTrade (scripted documents unprintable_reply_text true) []
               (running "openrouter" 0.0002%float))) = false
  /\ existsb is_console_error
       (evs (analyzeAndTrade (scripted documents unprintable_reply_text true) []
               (running "openrouter" 0.0002%float))) = true.
Proof.
  split; [reflexivity|]. split; [reflexivity|]. split; [|vm_compute; reflexivity].
  refine (proj2 (proj2 (unprintable_decision_ends_the_tick
                          (scripted documents unprintable_reply_text true) []
                          (running "openrouter" 0.0002%float) demo_trading_config
                          _ _ _ _ _ _ eq_refl _ _ _)));
    [ lazy; reflexivity | lazy; reflexivity | reflexivity ].
Defined.
